(** * PeakSport: the cart engine and the review engine

    A shallow embedding of [Modelo_de_Datos_PostgreSQL_y_CRUD/Cart.py] and
    [Modelo_de_Datos_PostgreSQL_y_CRUD/Resenas.py], and the properties of
    the two modules that the specification states.

    The relational store is an explicit value [DB] threaded through every
    CRUD function.  A table is the list of its rows in storage order; a
    query [filter_by(...).first()] is the first row of that list that
    satisfies the filter, [db.session.get] is the lookup by primary key.
    A write that violates a constraint declared on the table makes the
    flush raise; the [except SQLAlchemyError] handler then rolls the
    transaction back, which here means returning the store the function
    started from.  A lost connection is outside the model.

    Python integers are [Z], Python floats are the binary64 numbers of
    the kernel ([PrimFloat]) with the conversions from integers taken
    from [SpecFloat], Python strings are lists of code points, and an
    exception that leaves a function is a value [Raise e].  Timestamps
    and logging carry no behaviour of interest and are left out. *)

From Stdlib Require Import ZArith NArith List Bool Lia String Ascii.
From Stdlib Require Import PrimFloat FloatOps SpecFloat.
From Stdlib Require Import DecimalString.
From stdpp Require Import gmap list sorting.

Set Warnings "-inexact-float".
Local Open Scope Z_scope.

(** ** Python exceptions

    [Ok a] is a normal return, [Raise e] an exception that propagates to
    the enclosing [try]. *)

Inductive py_exn : Type :=
| OverflowError
| ZeroDivisionError
| KeyError
| AttributeError
| ValueError.

Inductive result (A : Type) : Type :=
| Ok (a : A)
| Raise (e : py_exn).

Arguments Ok {A} a.
Arguments Raise {A} e.

Definition rbind {A B : Type} (r : result A) (k : A -> result B) : result B :=
  match r with
  | Ok a => k a
  | Raise e => Raise e
  end.

Notation "'let*' x ':=' r 'in' k" := (rbind r (fun x => k))
  (at level 10, x name, r at level 100, k at level 200).

(** [try: ... except Exception: fallback] *)
Definition except_Exception {A : Type} (r : result A) (fallback : A) : A :=
  match r with
  | Ok a => a
  | Raise _ => fallback
  end.

(** ** Python numbers *)

Module PyFloat.

(** An integer as an unrounded binary number [m * 2^0]. *)
Definition Z2SF (z : Z) : spec_float :=
  match z with
  | Z0 => S754_zero false
  | Zpos p => S754_finite false p 0
  | Zneg p => S754_finite true p 0
  end.

(** The least magnitude that rounds to an infinity:
    [max_float + ulp/2 = 2^1024 - 2^970]. *)
Definition overflow_threshold : Z := 2 ^ 1024 - 2 ^ 970.

(** The binary64 number nearest to the integer [z], ties to even. *)
Definition nearest_float (z : Z) : float :=
  SF2Prim (binary_normalize prec emax z 0 false).

(** The binary64 number nearest to the fraction [a / b], ties to even. *)
Definition nearest_quotient (a b : Z) : float :=
  SF2Prim (SFdiv prec emax (Z2SF a) (Z2SF b)).

(** [float(z)]: [OverflowError] when [z] is too large for a float. *)
Definition float_of_int (z : Z) : result float :=
  if overflow_threshold <=? Z.abs z then Raise OverflowError
  else Ok (nearest_float z).

(** [a / b] on two integers: the correctly rounded quotient. *)
Definition int_truediv (a b : Z) : result float :=
  if b =? 0 then Raise ZeroDivisionError
  else if overflow_threshold * Z.abs b <=? Z.abs a then Raise OverflowError
  else Ok (nearest_quotient a b).

(** [x * n], [x / n] and [x + n] with a float [x] and an integer [n]:
    the integer is converted first. *)
Definition float_mul_int (x : float) (n : Z) : result float :=
  let* y := float_of_int n in Ok (PrimFloat.mul x y).

Definition float_div_int (x : float) (n : Z) : result float :=
  if n =? 0 then Raise ZeroDivisionError
  else let* y := float_of_int n in Ok (PrimFloat.div x y).

Definition float_add_int (x : float) (n : Z) : result float :=
  let* y := float_of_int n in Ok (PrimFloat.add x y).

Definition int_mul_float (n : Z) (x : float) : result float :=
  let* y := float_of_int n in Ok (PrimFloat.mul y x).

Definition int_add_float (n : Z) (x : float) : result float :=
  let* y := float_of_int n in Ok (PrimFloat.add y x).

(** Round half to even of the exact value [v * 2^e], [v >= 0]. *)
Definition round_half_even (v e : Z) : Z :=
  if 0 <=? e then v * 2 ^ e
  else
    let d := 2 ^ (- e) in
    let q := v / d in
    let r := v mod d in
    if 2 * r <? d then q
    else if d <? 2 * r then q + 1
    else if Z.even q then q else q + 1.

(** The number of tenths [round(x, 1)] keeps, with the sign of [x]:
    the exact binary value of [x], times ten, rounded half to even. *)
Definition tenths (x : float) : option (bool * Z) :=
  match Prim2SF x with
  | S754_finite s m e => Some (s, round_half_even (10 * Z.pos m) e)
  | S754_zero s => Some (s, 0)
  | S754_infinity _ | S754_nan => None
  end.

(** [round(x, 1)]: the decimal [n / 10] nearest to [x] (ties to the even
    [n]), converted back to the nearest float; infinities and NaN are
    returned as they are.  With one decimal the result never exceeds
    the float range, so no exception arises. *)
Definition round1 (x : float) : float :=
  match tenths x with
  | Some (s, n) =>
      let y := nearest_quotient n 10 in
      if s then PrimFloat.opp y else y
  | None => x
  end.

(** The exact value of [x] is the fraction [num / den] ([den > 0]). *)
Definition is_fraction (x : float) (num den : Z) : bool :=
  match Prim2SF x with
  | S754_zero _ => num =? 0
  | S754_finite s m e =>
      let v := if s then Z.neg m else Z.pos m in
      if 0 <=? e then v * 2 ^ e * den =? num
      else v * den =? num * 2 ^ (- e)
  | S754_infinity _ | S754_nan => false
  end.

End PyFloat.

(** A value that is an [int] on some paths and a [float] on others. *)
Inductive pynum : Type :=
| PInt (z : Z)
| PFloat (x : float).

(** [sum(...)] over integers: a left fold from [0]. *)
Definition py_sum (l : list Z) : Z := fold_left Z.add l 0.

(** ** Python strings *)

Module PyStr.

(** A string is the list of its code points. *)
Abbreviation str := (list N).

Definition of_string (s : string) : str :=
  List.map N_of_ascii (list_ascii_of_string s).

Definition len (s : str) : Z := Z.of_nat (length s).

(** [str.isspace] on one code point. *)
Definition isspace (c : N) : bool :=
  (((0x09 <=? c) && (c <=? 0x0D))
   || ((0x1C <=? c) && (c <=? 0x20))
   || (c =? 0x85) || (c =? 0xA0) || (c =? 0x1680)
   || ((0x2000 <=? c) && (c <=? 0x200A))
   || (c =? 0x2028) || (c =? 0x2029) || (c =? 0x202F)
   || (c =? 0x205F) || (c =? 0x3000))%N.

Fixpoint lstrip (s : str) : str :=
  match s with
  | [] => []
  | c :: s' => if isspace c then lstrip s' else s
  end.

Definition rstrip (s : str) : str := rev (lstrip (rev s)).

(** [s.strip()] *)
Definition strip (s : str) : str := rstrip (lstrip s).

(** Truth value of a string: non-empty. *)
Definition truthy (s : str) : bool :=
  match s with [] => false | _ :: _ => true end.

End PyStr.

Import PyStr.

(** ** The tables *)

Module Producto.
(** Modelled from the spec: the class [Producto] (Productos.py) is not
    among the sources.  A product row carries the columns that Cart.py
    and Resenas.py read: its key, the [activo] flag, the current
    [stock] and the current price in cents. *)
Record t : Type := mk
  { id : Z;
    activo : bool;
    stock : Z;
    precio_centavos : Z }.
End Producto.

Module Usuario.
(** Modelled from the spec: the class [Usuario] (Usuarios.py) is not
    among the sources.  Of a user row the two modules only ask whether
    it exists, so it carries its key alone. *)
Record t : Type := mk
  { id : Z }.
End Usuario.

Module Cart.
(** [class Cart]: [usuario_id] and [session_id] are nullable. *)
Record t : Type := mk
  { id : Z;
    usuario_id : option Z;
    session_id : option str;
    activo : bool }.
End Cart.

Module CartItem.
(** [class CartItem]: [precio_unitario] is the price in cents at the
    time the row was inserted. *)
Record t : Type := mk
  { id : Z;
    cart_id : Z;
    producto_id : Z;
    cantidad : Z;
    precio_unitario : Z }.
End CartItem.

Module Resena.
(** [class Resena] *)
Record t : Type := mk
  { id : Z;
    producto_id : Z;
    usuario_id : Z;
    calificacion : Z;
    comentario : str;
    compra_verificada : bool }.
End Resena.

(** The store: one list of rows per table.  The three [_id_seq] fields
    are the sequences behind the generated primary keys; a sequence is
    not rolled back with its transaction. *)
Record DB : Type := mkDB
  { productos : list Producto.t;
    usuarios : list Usuario.t;
    carts : list Cart.t;
    cart_items : list CartItem.t;
    resenas : list Resena.t;
    carts_id_seq : Z;
    cart_items_id_seq : Z;
    resenas_id_seq : Z }.

Definition with_carts (db : DB) (l : list Cart.t) (next : Z) : DB :=
  mkDB (productos db) (usuarios db) l (cart_items db) (resenas db)
       next (cart_items_id_seq db) (resenas_id_seq db).

Definition with_cart_items (db : DB) (l : list CartItem.t) (next : Z) : DB :=
  mkDB (productos db) (usuarios db) (carts db) l (resenas db)
       (carts_id_seq db) next (resenas_id_seq db).

Definition with_resenas (db : DB) (l : list Resena.t) (next : Z) : DB :=
  mkDB (productos db) (usuarios db) (carts db) (cart_items db) l
       (carts_id_seq db) (cart_items_id_seq db) next.

(** [db.session.get(Model, pk)] *)
Definition get_producto (db : DB) (pk : Z) : option Producto.t :=
  List.find (fun p => Producto.id p =? pk) (productos db).

Definition get_usuario (db : DB) (pk : Z) : option Usuario.t :=
  List.find (fun u => Usuario.id u =? pk) (usuarios db).

Definition get_cart (db : DB) (pk : Z) : option Cart.t :=
  List.find (fun c => Cart.id c =? pk) (carts db).

Definition get_item (items : list CartItem.t) (pk : Z) : option CartItem.t :=
  List.find (fun it => CartItem.id it =? pk) items.

(** The relationship [cart.items]: the rows of [cart_items] that point
    to the cart. *)
Definition items_of (items : list CartItem.t) (cart_pk : Z) : list CartItem.t :=
  List.filter (fun it => CartItem.cart_id it =? cart_pk) items.

(** [CartItem.query.filter_by(cart_id=..., producto_id=...).first()] *)
Definition first_item (items : list CartItem.t) (cart_pk producto_pk : Z)
  : option CartItem.t :=
  List.find (fun it => (CartItem.cart_id it =? cart_pk)
                       && (CartItem.producto_id it =? producto_pk)) items.

(** [Resena.query.filter_by(producto_id=..., usuario_id=...).first()] *)
Definition first_resena (db : DB) (producto_pk usuario_pk : Z)
  : option Resena.t :=
  List.find (fun r => (Resena.producto_id r =? producto_pk)
                      && (Resena.usuario_id r =? usuario_pk)) (resenas db).

(** Attribute writes on a loaded row: [item.cantidad = nueva] and
    [item.cart_id = nuevo]. *)
Definition con_cantidad (it : CartItem.t) (nueva : Z) : CartItem.t :=
  CartItem.mk (CartItem.id it) (CartItem.cart_id it) (CartItem.producto_id it)
              nueva (CartItem.precio_unitario it).

Definition con_cart_id (it : CartItem.t) (nuevo : Z) : CartItem.t :=
  CartItem.mk (CartItem.id it) nuevo (CartItem.producto_id it)
              (CartItem.cantidad it) (CartItem.precio_unitario it).

(** The same writes seen from the table: the row with the given primary
    key changes, the others stay. *)
Definition set_cantidad (items : list CartItem.t) (pk nueva : Z)
  : list CartItem.t :=
  List.map (fun it => if CartItem.id it =? pk then con_cantidad it nueva else it)
           items.

Definition set_cart_id (items : list CartItem.t) (pk nuevo : Z)
  : list CartItem.t :=
  List.map (fun it => if CartItem.id it =? pk then con_cart_id it nuevo else it)
           items.

Definition set_activo (l : list Cart.t) (pk : Z) (b : bool) : list Cart.t :=
  List.map (fun c =>
              if Cart.id c =? pk
              then Cart.mk (Cart.id c) (Cart.usuario_id c) (Cart.session_id c) b
              else c) l.

(** *** Constraints checked by the store when a row is written

    [db.Integer] is a 32-bit column and [db.BigInteger] a 64-bit one;
    [chk_cantidad_positiva] and [chk_precio_unitario_no_negativo] are the
    two CHECK constraints of [cart_items].  A write that violates one of
    them raises an [SQLAlchemyError] at the flush.  The foreign keys of a
    cart item are not re-checked here: every write below follows a
    successful lookup of the cart and of the product it points to. *)
Definition INTEGER_MAX : Z := 2147483647.
Definition BIGINT_MAX : Z := 9223372036854775807.

Definition cart_item_row_ok (it : CartItem.t) : bool :=
  (0 <? CartItem.cantidad it) && (CartItem.cantidad it <=? INTEGER_MAX)
  && (0 <=? CartItem.precio_unitario it)
  && (CartItem.precio_unitario it <=? BIGINT_MAX).

(** [carts.usuario_id] is a foreign key into [usuarios];
    [carts.session_id] is a [String(255)]. *)
Definition cart_row_ok (db : DB) (c : Cart.t) : bool :=
  match Cart.usuario_id c with
  | Some u => bool_decide (is_Some (get_usuario db u))
  | None => true
  end
  && match Cart.session_id c with
     | Some s => len s <=? 255
     | None => true
     end.

(** [chk_calificacion_rango] and [chk_comentario_minimo]. *)
Definition resena_row_ok (r : Resena.t) : bool :=
  (1 <=? Resena.calificacion r) && (Resena.calificacion r <=? 5)
  && (10 <=? len (Resena.comentario r)).

(** Truth value of an optional integer or string argument. *)
Definition truthy_int (o : option Z) : bool :=
  match o with
  | Some z => negb (z =? 0)
  | None => false
  end.

Definition truthy_str (o : option str) : bool :=
  match o with
  | Some s => PyStr.truthy s
  | None => false
  end.

(** ** Cart.py *)

(** [db.session.add(cart); db.session.flush()].  A session id that does
    not fit the column is refused when the [INSERT] is read, before a
    key is drawn.  Otherwise the key is drawn from the sequence and the
    row is stored, unless the foreign key refuses it: the sequence then
    keeps its new value. *)
Definition insert_cart (db : DB) (c : Cart.t) : DB * option Cart.t :=
  if cart_row_ok db c
  then (with_carts db (carts db ++ [c]) (carts_id_seq db + 1), Some c)
  else if match Cart.session_id c with
          | Some s => 255 <? len s
          | None => false
          end
  then (db, None)
  else (with_carts db (carts db) (carts_id_seq db + 1), None).

Definition obtener_o_crear_carrito
  (db : DB) (usuario_id : option Z) (session_id : option str)
  : DB * option Cart.t :=
  if negb (truthy_int usuario_id) && negb (truthy_str session_id)
  then (db, None)
  else
    let query := fun c : Cart.t =>
      Cart.activo c
      && (if truthy_int usuario_id
          then bool_decide (Cart.usuario_id c = usuario_id)
          else bool_decide (Cart.session_id c = session_id)) in
    match List.find query (carts db) with
    | Some cart => (db, Some cart)
    | None =>
        insert_cart db (Cart.mk (carts_id_seq db) usuario_id session_id true)
    end.

Definition agregar_item_carrito (db : DB) (cart_id producto_id cantidad : Z)
  : DB * option CartItem.t :=
  match get_cart db cart_id with
  | None => (db, None)
  | Some cart =>
    match get_producto db producto_id with
    | None => (db, None)
    | Some producto =>
      if negb (Producto.activo producto) then (db, None)
      else if Producto.stock producto <? cantidad then (db, None)
      else
        match first_item (cart_items db) cart_id producto_id with
        | Some existing_item =>
            let nueva_cantidad := CartItem.cantidad existing_item + cantidad in
            if Producto.stock producto <? nueva_cantidad then (db, None)
            else
              let item := con_cantidad existing_item nueva_cantidad in
              if cart_item_row_ok item
              then (with_cart_items db
                      (set_cantidad (cart_items db) (CartItem.id existing_item)
                                    nueva_cantidad)
                      (cart_items_id_seq db),
                    Some item)
              else (db, None)
        | None =>
            let item := CartItem.mk (cart_items_id_seq db) cart_id producto_id
                          cantidad (Producto.precio_centavos producto) in
            if cart_item_row_ok item
            then (with_cart_items db (cart_items db ++ [item])
                                  (cart_items_id_seq db + 1),
                  Some item)
            else (with_cart_items db (cart_items db) (cart_items_id_seq db + 1),
                  None)
        end
    end
  end.

(** [item.producto.stock] raises [AttributeError] when the product row
    is gone; only [SQLAlchemyError] is caught, so it propagates. *)
Definition actualizar_cantidad_item (db : DB) (item_id cantidad : Z)
  : result (DB * option CartItem.t) :=
  match get_item (cart_items db) item_id with
  | None => Ok (db, None)
  | Some item =>
    if cantidad <=? 0 then Ok (db, None)
    else
      match get_producto db (CartItem.producto_id item) with
      | None => Raise AttributeError
      | Some producto =>
        if Producto.stock producto <? cantidad then Ok (db, None)
        else
          let item' := con_cantidad item cantidad in
          if cart_item_row_ok item'
          then Ok (with_cart_items db
                     (set_cantidad (cart_items db) item_id cantidad)
                     (cart_items_id_seq db),
                   Some item')
          else Ok (db, None)
      end
  end.

Definition eliminar_item_carrito (db : DB) (item_id : Z) : DB * bool :=
  match get_item (cart_items db) item_id with
  | None => (db, false)
  | Some _ =>
      (with_cart_items db
         (List.filter (fun it => negb (CartItem.id it =? item_id)) (cart_items db))
         (cart_items_id_seq db),
       true)
  end.

Definition vaciar_carrito (db : DB) (cart_id : Z) : DB * bool :=
  match get_cart db cart_id with
  | None => (db, false)
  | Some _ =>
      (with_cart_items db
         (List.filter (fun it => negb (CartItem.cart_id it =? cart_id))
                      (cart_items db))
         (cart_items_id_seq db),
       true)
  end.


(** One turn of the loop [for session_item in session_cart.items].  The
    loaded rows are shared objects: the query and both reads see every
    attribute write made by the earlier turns. *)
Definition migrar_item (user_cart_id : Z) (items : list CartItem.t)
  (session_item_id : Z) : list CartItem.t :=
  match get_item items session_item_id with
  | None => items
  | Some session_item =>
      match first_item items user_cart_id (CartItem.producto_id session_item) with
      | Some existing_item =>
          set_cantidad items (CartItem.id existing_item)
            (CartItem.cantidad existing_item + CartItem.cantidad session_item)
      | None =>
          set_cart_id items (CartItem.id session_item) user_cart_id
      end
  end.

(** The block of [migrar_carrito_sesion_a_usuario] that looks up the
    active cart of the user and, when there is none, adds
    [Cart(usuario_id=usuario_id, activo=True)] and flushes. *)
Definition carrito_de_usuario (db : DB) (usuario_id : Z) : DB * option Cart.t :=
  match List.find (fun c => bool_decide (Cart.usuario_id c = Some usuario_id)
                            && Cart.activo c) (carts db) with
  | Some c => (db, Some c)
  | None => insert_cart db (Cart.mk (carts_id_seq db) (Some usuario_id) None true)
  end.

(** The rows to iterate are those [session_cart.items] held when the
    loop started.  The commit writes the changed rows; every stored row
    satisfies the column constraints already, so the check below runs
    over the whole table.  On an [SQLAlchemyError] the transaction is
    rolled back and only the sequence keeps its new value. *)
Definition migrar_carrito_sesion_a_usuario
  (db : DB) (session_id : str) (usuario_id : Z) : DB * bool :=
  match List.find (fun c => bool_decide (Cart.session_id c = Some session_id)
                            && Cart.activo c) (carts db) with
  | None => (db, true)
  | Some session_cart =>
    let session_items := items_of (cart_items db) (Cart.id session_cart) in
    if Z.of_nat (length session_items) =? 0 then (db, true)
    else
      match carrito_de_usuario db usuario_id with
      | (db1, None) => (with_carts db (carts db) (carts_id_seq db1), false)
      | (db1, Some user_cart) =>
          let items' :=
            fold_left (migrar_item (Cart.id user_cart))
                      (List.map CartItem.id session_items) (cart_items db1) in
          let carts' := set_activo (carts db1) (Cart.id session_cart) false in
          if forallb cart_item_row_ok items'
          then (mkDB (productos db1) (usuarios db1) carts' items' (resenas db1)
                     (carts_id_seq db1) (cart_items_id_seq db1)
                     (resenas_id_seq db1),
                true)
          else (with_carts db (carts db) (carts_id_seq db1), false)
      end
  end.

Module Totales.
(** The dictionary returned by [calcular_totales_carrito]. *)
Record t : Type := mk
  { subtotal : pynum;
    impuestos : pynum;
    envio : pynum;
    total : pynum;
    total_items : Z;
    envio_gratis : bool }.
End Totales.

(** The dictionary of integer zeros returned for a missing cart and from
    the [except Exception] handler. *)
Definition totales_cero : Totales.t :=
  Totales.mk (PInt 0) (PInt 0) (PInt 0) (PInt 0) 0 false.

Definition calcular_totales_carrito (db : DB) (cart_id : Z) : Totales.t :=
  match get_cart db cart_id with
  | None => totales_cero
  | Some cart =>
      let items_list := items_of (cart_items db) (Cart.id cart) in
      let subtotal :=
        py_sum (List.map (fun item => CartItem.cantidad item
                                      * CartItem.precio_unitario item)
                         items_list) in
      let total_items := py_sum (List.map CartItem.cantidad items_list) in
      except_Exception
        (let* impuestos := PyFloat.int_mul_float subtotal 0.1%float in
         let envio := if 100000 <=? subtotal then 0 else 1500 in
         let* subtotal_impuestos := PyFloat.int_add_float subtotal impuestos in
         let* total := PyFloat.float_add_int subtotal_impuestos envio in
         let* r_subtotal := PyFloat.int_truediv subtotal 100 in
         let* r_impuestos := PyFloat.float_div_int impuestos 100 in
         let* r_envio := PyFloat.int_truediv envio 100 in
         let* r_total := PyFloat.float_div_int total 100 in
         Ok (Totales.mk (PFloat r_subtotal) (PFloat r_impuestos)
                        (PFloat r_envio) (PFloat r_total)
                        total_items (100000 <=? subtotal)))
        totales_cero
  end.

(** ** Resenas.py *)

(** The text of a statement parameter, as the driver accepts it: a
    string that holds the character NUL is refused, and so is one that
    holds a surrogate, which has no UTF-8 encoding.  Either way a
    [ValueError] (for the surrogate its subclass [UnicodeEncodeError])
    is raised before the statement leaves the client; it is not an
    [SQLAlchemyError]. *)
Definition almacenable (s : str) : bool :=
  forallb (fun c => (negb (c =? 0) && negb ((0xD800 <=? c) && (c <=? 0xDFFF)))%N)
          s.

(** The [ValueError] of the driver is raised by the [INSERT] of the
    commit, after every validation; nothing has been written then, and
    [except SQLAlchemyError] does not catch it. *)
Definition crear_resena
  (db : DB) (producto_id usuario_id calificacion : Z) (comentario : str)
  (compra_verificada : bool) : result (DB * option Resena.t) :=
  if negb (forallb (fun b : bool => b)
             [negb (producto_id =? 0); negb (usuario_id =? 0);
              negb (calificacion =? 0); PyStr.truthy comentario])
  then Ok (db, None)
  else if negb ((1 <=? calificacion) && (calificacion <=? 5)) then Ok (db, None)
  else if len (strip comentario) <? 10 then Ok (db, None)
  else
    match get_producto db producto_id with
    | None => Ok (db, None)
    | Some _ =>
      match get_usuario db usuario_id with
      | None => Ok (db, None)
      | Some _ =>
        match first_resena db producto_id usuario_id with
        | Some _ => Ok (db, None)
        | None =>
            let nueva_resena :=
              Resena.mk (resenas_id_seq db) producto_id usuario_id calificacion
                        (strip comentario) compra_verificada in
            if negb (almacenable (Resena.comentario nueva_resena))
            then Raise ValueError
            else if resena_row_ok nueva_resena
            then Ok (with_resenas db (resenas db ++ [nueva_resena])
                                  (resenas_id_seq db + 1),
                     Some nueva_resena)
            else Ok (with_resenas db (resenas db) (resenas_id_seq db + 1),
                     None)
        end
      end
    end.

Definition verificar_usuario_puede_resenar (db : DB) (producto_id usuario_id : Z)
  : bool :=
  match first_resena db producto_id usuario_id with
  | None => true
  | Some _ => false
  end.

Module Estadisticas.
(** The dictionary returned by [obtener_estadisticas_producto]; the key
    ["porcentajes"] is present on one path only. *)
Record t : Type := mk
  { total : Z;
    promedio : float;
    distribucion : gmap Z Z;
    porcentajes : option (gmap Z float) }.
End Estadisticas.

Definition distribucion_cero : gmap Z Z :=
  {[ 1 := 0; 2 := 0; 3 := 0; 4 := 0; 5 := 0 ]}.

(** [distribucion[estrella] += 1]: a missing key raises [KeyError]. *)
Definition contar_estrella (d : gmap Z Z) (estrella : Z) : result (gmap Z Z) :=
  match d !! estrella with
  | Some n => Ok (<[ estrella := n + 1 ]> d)
  | None => Raise KeyError
  end.

Fixpoint contar_estrellas (d : gmap Z Z) (estrellas : list Z)
  : result (gmap Z Z) :=
  match estrellas with
  | [] => Ok d
  | e :: rest => let* d' := contar_estrella d e in contar_estrellas d' rest
  end.

(** [round((count / total) * 100, 1)] *)
Definition porcentaje (total count : Z) : result float :=
  let* q := PyFloat.int_truediv count total in
  let* p := PyFloat.float_mul_int q 100 in
  Ok (PyFloat.round1 p).

(** A dictionary comprehension [{k: f(v) for k, v in d.items()}]. *)
Definition dict_comprehension {A B : Type} (f : A -> result B) (d : gmap Z A)
  : result (gmap Z B) :=
  map_fold (fun k v acc => let* m := acc in let* b := f v in Ok (<[ k := b ]> m))
           (Ok ∅) d.

(** Neither [OverflowError] nor [KeyError] is an [SQLAlchemyError]: they
    leave the function. *)
Definition obtener_estadisticas_producto (db : DB) (producto_id : Z)
  : result Estadisticas.t :=
  let resenas_producto :=
    List.filter (fun r => Resena.producto_id r =? producto_id) (resenas db) in
  match resenas_producto with
  | [] => Ok (Estadisticas.mk 0 0%float distribucion_cero None)
  | _ :: _ =>
      let total := Z.of_nat (length resenas_producto) in
      let suma_calificaciones :=
        py_sum (List.map Resena.calificacion resenas_producto) in
      let* media := PyFloat.int_truediv suma_calificaciones total in
      let promedio := PyFloat.round1 media in
      let* distribucion :=
        contar_estrellas distribucion_cero
                         (List.map Resena.calificacion resenas_producto) in
      let* porcentajes := dict_comprehension (porcentaje total) distribucion in
      Ok (Estadisticas.mk total promedio distribucion (Some porcentajes))
  end.

(** ** What the specification calls the subtotal and the item count

    The sum over the items of quantity times unit price, in cents, and
    the sum of the quantities, written by recursion on the items. *)
Fixpoint subtotal_centavos (items : list CartItem.t) : Z :=
  match items with
  | [] => 0
  | item :: rest =>
      CartItem.cantidad item * CartItem.precio_unitario item
      + subtotal_centavos rest
  end.

Fixpoint total_unidades (items : list CartItem.t) : Z :=
  match items with
  | [] => 0
  | item :: rest => CartItem.cantidad item + total_unidades rest
  end.

(** The quantity of a product already in a cart: that of the row the
    cart functions look up for the pair, [0] when there is none. *)
Definition cantidad_en_carrito (items : list CartItem.t) (cart_pk producto_pk : Z)
  : Z :=
  match first_item items cart_pk producto_pk with
  | Some existing_item => CartItem.cantidad existing_item
  | None => 0
  end.

(** The number of reviews in a list that carry a given rating, and
    the rounded share [count / total * 100] as a float. *)
Definition resenas_con (estrella : Z) (l : list Resena.t) : Z :=
  Z.of_nat (length (List.filter (fun r => Resena.calificacion r =? estrella) l)).

Definition porcentaje_redondeado (total count : Z) : float :=
  PyFloat.round1 (PrimFloat.mul (PyFloat.nearest_quotient count total) 100).

(** ** What the specification says a migration does to one row

    A row of the session cart whose product the user's cart already
    holds stays as it is; any other row of the session cart moves to the
    user's cart.  A row of the user's cart gains the quantity of the
    session row of the same product, when there is one.  All other rows
    are untouched. *)
Definition fila_migrada (items : list CartItem.t) (session_cart_id user_cart_id : Z)
  (r : CartItem.t) : CartItem.t :=
  if CartItem.cart_id r =? session_cart_id then
    match first_item items user_cart_id (CartItem.producto_id r) with
    | Some _ => r
    | None => con_cart_id r user_cart_id
    end
  else if CartItem.cart_id r =? user_cart_id then
    match first_item items session_cart_id (CartItem.producto_id r) with
    | Some s => con_cantidad r (CartItem.cantidad r + CartItem.cantidad s)
    | None => r
    end
  else r.

(** The same with the loop half-way: [pendientes] are the session rows
    still to be visited, [items] is the table as the loop has left it. *)
Definition fila_migrada_desde (pendientes items : list CartItem.t)
  (session_cart_id user_cart_id : Z) (r : CartItem.t) : CartItem.t :=
  if (CartItem.cart_id r =? session_cart_id)
     && existsb (fun s => CartItem.id s =? CartItem.id r) pendientes then
    match first_item items user_cart_id (CartItem.producto_id r) with
    | Some _ => r
    | None => con_cart_id r user_cart_id
    end
  else if CartItem.cart_id r =? user_cart_id then
    match List.find (fun s => CartItem.producto_id s =? CartItem.producto_id r)
                    pendientes with
    | Some s => con_cantidad r (CartItem.cantidad r + CartItem.cantidad s)
    | None => r
    end
  else r.

(** When one cart carries both the session id and the user id, every
    row of it is found as the row of the user's cart for its own
    product: its quantity is summed with itself. *)
Definition fila_duplicada (cart_pk : Z) (r : CartItem.t) : CartItem.t :=
  if CartItem.cart_id r =? cart_pk
  then con_cantidad r (CartItem.cantidad r + CartItem.cantidad r)
  else r.

(** The invariants of the table that the cart functions maintain: the
    primary key is unique, and a cart has at most one row per product. *)
Definition pk_unica (items : list CartItem.t) : Prop :=
  List.NoDup (List.map CartItem.id items).

Definition una_fila_por_producto (items : list CartItem.t) (cart_pk : Z) : Prop :=
  forall r1 r2 : CartItem.t,
    In r1 items -> In r2 items ->
    CartItem.cart_id r1 = cart_pk -> CartItem.cart_id r2 = cart_pk ->
    CartItem.producto_id r1 = CartItem.producto_id r2 -> r1 = r2.


(** ** Invariants of the [cart_items] table

    The primary key comes from the sequence, so every stored key is
    below the next value of the sequence; together with [pk_unica], one
    row per product in every cart, and the column constraints, this is
    what the cart functions find and what they leave. *)
Definition seq_por_delante (db : DB) : Prop :=
  forall r : CartItem.t, In r (cart_items db) ->
                         CartItem.id r < cart_items_id_seq db.

Definition items_bien_formados (db : DB) : Prop :=
  pk_unica (cart_items db)
  /\ seq_por_delante db
  /\ (forall c : Z, una_fila_por_producto (cart_items db) c)
  /\ Forall (fun r => cart_item_row_ok r = true) (cart_items db).


(** ** Resenas.py: reading, updating and deleting a review *)

(** [db.session.get(Resena, pk)] *)
Definition get_resena (l : list Resena.t) (pk : Z) : option Resena.t :=
  List.find (fun r => Resena.id r =? pk) l.

Definition obtener_resena_por_id (db : DB) (resena_id : Z) : option Resena.t :=
  get_resena (resenas db) resena_id.

(** Attribute writes on a loaded review: [resena.calificacion = ...] and
    [resena.comentario = ...]. *)
Definition con_calificacion (r : Resena.t) (nueva : Z) : Resena.t :=
  Resena.mk (Resena.id r) (Resena.producto_id r) (Resena.usuario_id r) nueva
            (Resena.comentario r) (Resena.compra_verificada r).

Definition con_comentario (r : Resena.t) (nuevo : str) : Resena.t :=
  Resena.mk (Resena.id r) (Resena.producto_id r) (Resena.usuario_id r)
            (Resena.calificacion r) nuevo (Resena.compra_verificada r).

(** The [UPDATE] of one row, found by its primary key. *)
Definition set_resena (l : list Resena.t) (r : Resena.t) : list Resena.t :=
  List.map (fun x => if Resena.id x =? Resena.id r then r else x) l.

#[global] Instance Resena_eq_dec : EqDecision Resena.t.
Proof. solve_decision. Defined.

Module Actualizada.
(** What a call of [actualizar_resena] that returns leaves behind: the
    committed store, the row of the session that was written and
    neither committed nor rolled back, if there is one, and the value
    returned. *)
Record t : Type := mk
  { almacen : DB;
    en_sesion : option Resena.t;
    devuelve : option Resena.t }.
End Actualizada.

(** The rating is assigned before the comment is looked at, and the
    return on a short comment neither commits nor rolls back.  The
    commit sends an [UPDATE] only for a row that has changed, with the
    columns that have changed: a new comment that the driver does not
    accept raises its [ValueError] there, the flush is rolled back and
    the exception leaves the function.  The checks of the table are
    evaluated on the [UPDATE]. *)
Definition actualizar_resena
  (db : DB) (resena_id : Z) (calificacion : option Z) (comentario : option str)
  : result Actualizada.t :=
  match get_resena (resenas db) resena_id with
  | None => Ok (Actualizada.mk db None None)
  | Some resena =>
      let con_nota :=
        match calificacion with
        | Some c =>
            if negb ((1 <=? c) && (c <=? 5)) then None
            else Some (con_calificacion resena c)
        | None => Some resena
        end in
      match con_nota with
      | None => Ok (Actualizada.mk db None None)
      | Some resena1 =>
          let con_texto :=
            match comentario with
            | Some s =>
                if len (strip s) <? 10 then None
                else Some (con_comentario resena1 (strip s))
            | None => Some resena1
            end in
          match con_texto with
          | None =>
              Ok (Actualizada.mk db
                    (match calificacion with
                     | Some _ => Some resena1
                     | None => None
                     end)
                    None)
          | Some resena2 =>
              if negb (bool_decide (Resena.comentario resena2
                                    = Resena.comentario resena))
                 && negb (almacenable (Resena.comentario resena2))
              then Raise ValueError
              else if bool_decide (resena2 = resena) || resena_row_ok resena2
              then Ok (Actualizada.mk
                         (with_resenas db (set_resena (resenas db) resena2)
                                       (resenas_id_seq db))
                         None (Some resena2))
              else Ok (Actualizada.mk db None None)
          end
      end
  end.

(** The store a call leaves: the one it returns, and the one it was
    given when it raises, since nothing is written on those paths. *)
Definition almacen_tras {A : Type} (db : DB) (r : result (DB * A)) : DB :=
  match r with
  | Ok (db', _) => db'
  | Raise _ => db
  end.

Definition almacen_actualizado (db : DB) (r : result Actualizada.t) : DB :=
  match r with
  | Ok a => Actualizada.almacen a
  | Raise _ => db
  end.

(** [usuario_id] is [None] when the caller does not ask for the owner
    to be checked. *)
Definition eliminar_resena (db : DB) (resena_id : Z) (usuario_id : option Z)
  : DB * bool :=
  match get_resena (resenas db) resena_id with
  | None => (db, false)
  | Some resena =>
      if match usuario_id with
         | Some u => negb (Resena.usuario_id resena =? u)
         | None => false
         end
      then (db, false)
      else (with_resenas db
              (List.filter (fun r => negb (Resena.id r =? Resena.id resena))
                           (resenas db))
              (resenas_id_seq db),
            true)
  end.

(** ** Invariants of the [resenas] table

    Unique keys below the next value of the sequence, the two checks of
    the table on every row, and at most one review of a product by a
    user: the last one is kept by the functions alone, the table has no
    constraint for it. *)
Definition una_resena_por_usuario (l : list Resena.t) : Prop :=
  forall r1 r2 : Resena.t,
    In r1 l -> In r2 l ->
    Resena.producto_id r1 = Resena.producto_id r2 ->
    Resena.usuario_id r1 = Resena.usuario_id r2 -> r1 = r2.

Definition resenas_bien_formadas (db : DB) : Prop :=
  List.NoDup (List.map Resena.id (resenas db))
  /\ (forall r : Resena.t, In r (resenas db) -> Resena.id r < resenas_id_seq db)
  /\ una_resena_por_usuario (resenas db)
  /\ Forall (fun r => resena_row_ok r = true) (resenas db).

(** The row an update asks for: the rating and the trimmed comment that
    were given replace the stored ones. *)
Definition resena_pedida (r : Resena.t) (calificacion : option Z)
  (comentario : option str) : Resena.t :=
  Resena.mk (Resena.id r) (Resena.producto_id r) (Resena.usuario_id r)
            (default (Resena.calificacion r) calificacion)
            (default (Resena.comentario r) (strip <$> comentario))
            (Resena.compra_verificada r).

(** ** Resenas.py: the age of a review

    A naive [datetime] is the number of microseconds from the epoch to
    it.  The difference of two of them is a [timedelta], which Python
    keeps normalised: [0 <= seconds < 86400] and
    [0 <= microseconds < 1000000], the sign being carried by [days]. *)
Module Timedelta.
Record t : Type := mk
  { days : Z;
    seconds : Z;
    microseconds : Z }.
End Timedelta.

Definition datetime_sub (a b : Z) : Timedelta.t :=
  let us := a - b in
  Timedelta.mk (us / 86400000000)
               (us mod 86400000000 / 1000000)
               (us mod 1000000).

(** [str(n)] for an integer. *)
Definition str_of_int (n : Z) : str :=
  of_string (NilZero.string_of_int (Z.to_int n)).

(** [f"Hace {n} {palabra}{plural if n > 1 else ''}"] *)
Definition hace (n : Z) (palabra plural : str) : str :=
  of_string "Hace " ++ str_of_int n ++ of_string " " ++ palabra
  ++ (if 1 <? n then plural else []).

Definition hace_un_momento : str := of_string "Hace un momento".

(** The words [año] and [día] have a letter outside ASCII. *)
Definition palabra_ano : str := of_string "a" ++ [0xF1%N] ++ of_string "o".
Definition palabra_dia : str := of_string "d" ++ [0xED%N] ++ of_string "a".

(** [Resena._calcular_tiempo_transcurrido]: [created_at] is the column of
    the row, [ahora] the value of [datetime.utcnow()]. *)
Definition _calcular_tiempo_transcurrido (created_at : option Z) (ahora : Z)
  : str :=
  match created_at with
  | None => hace_un_momento
  | Some creado =>
      let diferencia := datetime_sub ahora creado in
      if 365 <? Timedelta.days diferencia then
        let anos := Timedelta.days diferencia / 365 in
        hace anos palabra_ano (of_string "s")
      else if 30 <? Timedelta.days diferencia then
        let meses := Timedelta.days diferencia / 30 in
        hace meses (of_string "mes") (of_string "es")
      else if 0 <? Timedelta.days diferencia then
        hace (Timedelta.days diferencia) palabra_dia (of_string "s")
      else if 3600 <? Timedelta.seconds diferencia then
        let horas := Timedelta.seconds diferencia / 3600 in
        hace horas (of_string "hora") (of_string "s")
      else if 60 <? Timedelta.seconds diferencia then
        let minutos := Timedelta.seconds diferencia / 60 in
        hace minutos (of_string "minuto") (of_string "s")
      else hace_un_momento
  end.

(** ** Resenas.py: the listings

    The listings sort by the column [created_at], which no other function
    of the module reads or writes: it is given as a function of the
    primary key, in microseconds.  The four [ORDER BY] clauses: *)
Definition mas_reciente (created_at : Z -> Z) (a b : Resena.t) : Prop :=
  created_at (Resena.id b) <= created_at (Resena.id a).

Definition mas_antigua (created_at : Z -> Z) (a b : Resena.t) : Prop :=
  created_at (Resena.id a) <= created_at (Resena.id b).

Definition mejor_calificada (created_at : Z -> Z) (a b : Resena.t) : Prop :=
  Resena.calificacion b < Resena.calificacion a
  \/ (Resena.calificacion a = Resena.calificacion b
      /\ created_at (Resena.id b) <= created_at (Resena.id a)).

Definition peor_calificada (created_at : Z -> Z) (a b : Resena.t) : Prop :=
  Resena.calificacion a < Resena.calificacion b
  \/ (Resena.calificacion a = Resena.calificacion b
      /\ created_at (Resena.id b) <= created_at (Resena.id a)).

#[global] Instance mas_reciente_dec (created_at : Z -> Z) (a b : Resena.t) :
  Decision (mas_reciente created_at a b).
Proof. unfold mas_reciente. apply _. Defined.

#[global] Instance mas_antigua_dec (created_at : Z -> Z) (a b : Resena.t) :
  Decision (mas_antigua created_at a b).
Proof. unfold mas_antigua. apply _. Defined.

#[global] Instance mejor_calificada_dec (created_at : Z -> Z) (a b : Resena.t) :
  Decision (mejor_calificada created_at a b).
Proof. unfold mejor_calificada. apply _. Defined.

#[global] Instance peor_calificada_dec (created_at : Z -> Z) (a b : Resena.t) :
  Decision (peor_calificada created_at a b).
Proof. unfold peor_calificada. apply _. Defined.

(** The relation a value of [orden] selects; an unknown value sorts as
    ['recientes'] does. *)
Definition relacion_de_orden (created_at : Z -> Z) (orden : str)
  : Resena.t -> Resena.t -> Prop :=
  if bool_decide (orden = of_string "recientes") then mas_reciente created_at
  else if bool_decide (orden = of_string "antiguas") then mas_antigua created_at
  else if bool_decide (orden = of_string "mejor_calificadas")
       then mejor_calificada created_at
  else if bool_decide (orden = of_string "peor_calificadas")
       then peor_calificada created_at
  else mas_reciente created_at.

#[global] Instance relacion_de_orden_dec (created_at : Z -> Z) (orden : str)
  (a b : Resena.t) : Decision (relacion_de_orden created_at orden a b).
Proof. unfold relacion_de_orden. repeat case_bool_decide; apply _. Defined.

(** [query.order_by(...).all()]: PostgreSQL returns the rows of the
    query sorted by the clause.  Rows that tie on the clause come in an
    order it does not fix, and two statements need not agree on it:
    [ordenada_por R query filas] says that [filas] is one of the lists
    the statement may return. *)
Definition ordenada_por (R : Resena.t -> Resena.t -> Prop)
  (query filas : list Resena.t) : Prop :=
  Permutation filas query /\ StronglySorted R filas.

Definition order_by (created_at : Z -> Z) (orden : str)
  (query filas : list Resena.t) : Prop :=
  ordenada_por (relacion_de_orden created_at orden) query filas.

(** One of those lists, computed: a merge sort of the rows in storage
    order. *)
Definition una_ordenacion (created_at : Z -> Z) (orden : str)
  (query : list Resena.t) : list Resena.t :=
  merge_sort (relacion_de_orden created_at orden) query.

(** [query.offset(offset).limit(limit).all()] on the sorted rows:
    PostgreSQL refuses a negative [OFFSET] or [LIMIT] and one that is
    not a [bigint]; the statement then fails with an [SQLAlchemyError]. *)
Definition offset_limit_all {A : Type} (offset limit : Z) (filas : list A)
  : option (list A) :=
  if (offset <? 0) || (limit <? 0)
     || (BIGINT_MAX <? offset) || (BIGINT_MAX <? limit)
  then None
  else Some (take (Z.to_nat limit) (drop (Z.to_nat offset) filas)).

(** The listings are relations between the arguments and the value
    returned: [filas] is what the database answers to the sorted
    statement of this call. *)
Definition listar_resenas_producto (created_at : Z -> Z) (db : DB)
  (producto_id page per_page : Z) (orden : str)
  (resultado : list Resena.t * Z) : Prop :=
  let query :=
    List.filter (fun r => Resena.producto_id r =? producto_id) (resenas db) in
  let total := Z.of_nat (length query) in
  exists filas : list Resena.t,
    order_by created_at orden query filas
    /\ resultado
       = match offset_limit_all ((page - 1) * per_page) per_page filas with
         | Some resenas => (resenas, total)
         | None => ([], 0)
         end.

Definition listar_resenas_usuario (created_at : Z -> Z) (db : DB)
  (usuario_id page per_page : Z) (resultado : list Resena.t * Z) : Prop :=
  let query :=
    List.filter (fun r => Resena.usuario_id r =? usuario_id) (resenas db) in
  let total := Z.of_nat (length query) in
  exists filas : list Resena.t,
    ordenada_por (mas_reciente created_at) query filas
    /\ resultado
       = match offset_limit_all ((page - 1) * per_page) per_page filas with
         | Some resenas => (resenas, total)
         | None => ([], 0)
         end.

(** ** Apis/resenas_api.py *)

Module Sesion.
(** The keys of the Flask session that the routes of the reviews read.
    A key that is missing reads as [None], and as false where only its
    truth value is used. *)
Record t : Type := mk
  { usuario_id : option Z;
    logged_in : bool;
    mfa_verificado : bool }.
End Sesion.

Module Auth.
(** The dictionary returned by [verificar_autenticacion]. *)
Record t : Type := mk
  { autenticado : bool;
    usuario_id : option Z }.
End Auth.

Definition verificar_autenticacion (session : Sesion.t) : Auth.t :=
  let usuario_id := Sesion.usuario_id session in
  let logged_in := Sesion.logged_in session || Sesion.mfa_verificado session in
  Auth.mk (logged_in && truthy_int usuario_id) usuario_id.

(** What a route answers: [respuesta_exito] carries the data with status
    200, [respuesta_error] a status code (the messages are left out). *)
Inductive respuesta (A : Type) : Type :=
| respuesta_exito (data : A)
| respuesta_error (codigo : Z).

Arguments respuesta_exito {A} data.
Arguments respuesta_error {A} codigo.

Module ResenasProducto.
(** The data of [GET /productos/<producto_id>/resenas]; the rows are
    those the route serialises with [to_dict]. *)
Record t : Type := mk
  { resenas : list Resena.t;
    total : Z;
    page : Z;
    per_page : Z;
    total_pages : Z;
    estadisticas : Estadisticas.t;
    puede_resenar : bool;
    autenticado : bool }.
End ResenasProducto.

(** [page], [per_page] and [orden] are the query parameters as
    [request.args.get] returns them, that is with the default put in
    for a parameter that is missing or is not an integer.  An exception
    of [obtener_estadisticas_producto] is caught by the route.  The
    route is a relation like the listing it calls. *)
Definition obtener_resenas_producto (created_at : Z -> Z) (db : DB)
  (session : Sesion.t) (producto_id page per_page : Z) (orden : str)
  (respuesta_dada : respuesta ResenasProducto.t) : Prop :=
  let page := if page <? 1 then 1 else page in
  let per_page := if (per_page <? 1) || (50 <? per_page) then 10 else per_page in
  exists (resenas : list Resena.t) (total : Z),
    listar_resenas_producto created_at db producto_id page per_page orden
                            (resenas, total)
    /\ respuesta_dada
       = match obtener_estadisticas_producto db producto_id with
         | Raise _ => respuesta_error 500
         | Ok estadisticas =>
             let auth := verificar_autenticacion session in
             let puede_resenar :=
               if Auth.autenticado auth
               then match Auth.usuario_id auth with
                    | Some u => verificar_usuario_puede_resenar db producto_id u
                    | None => false
                    end
               else false in
             respuesta_exito
               (ResenasProducto.mk resenas total page per_page
                  ((total + per_page - 1) / per_page)
                  estadisticas puede_resenar (Auth.autenticado auth))
         end.

(** [DELETE /resenas/<resena_id>]: the store left and the answer. *)
Definition eliminar_resena_endpoint (db : DB) (session : Sesion.t)
  (resena_id : Z) : DB * respuesta unit :=
  let auth := verificar_autenticacion session in
  if negb (Auth.autenticado auth) then (db, respuesta_error 401)
  else
    match obtener_resena_por_id db resena_id with
    | None => (db, respuesta_error 404)
    | Some resena =>
        let es_autor :=
          bool_decide (Some (Resena.usuario_id resena) = Auth.usuario_id auth) in
        if negb es_autor then (db, respuesta_error 403)
        else
          let '(db', eliminada) :=
            eliminar_resena db resena_id (Auth.usuario_id auth) in
          if negb eliminada then (db', respuesta_error 500)
          else (db', respuesta_exito tt)
    end.

(** ** Cliente/Cart/main.py *)

Module SesionCarrito.
(** The keys of the Flask session that the routes of the cart read, and
    the identifier [session.sid] of the server-side session. *)
Record t : Type := mk
  { usuario_id : option Z;
    session_id : option str;
    sid : str }.
End SesionCarrito.

Definition get_cart_identifier (session : SesionCarrito.t)
  : option Z * option str :=
  let usuario_id := SesionCarrito.usuario_id session in
  let session_id :=
    if truthy_str (SesionCarrito.session_id session)
    then SesionCarrito.session_id session
    else Some (SesionCarrito.sid session) in
  (usuario_id, session_id).

Definition get_or_create_cart_for_current_user (db : DB)
  (session : SesionCarrito.t) : DB * option Cart.t :=
  let '(usuario_id, session_id) := get_cart_identifier session in
  obtener_o_crear_carrito db usuario_id session_id.

(** [DELETE /api/cart/clear]: the store left and the answer. *)
Definition api_vaciar_carrito (db : DB) (session : SesionCarrito.t)
  : DB * respuesta unit :=
  let '(db1, cart) := get_or_create_cart_for_current_user db session in
  match cart with
  | None => (db1, respuesta_error 404)
  | Some cart =>
      let '(db2, success) := vaciar_carrito db1 (Cart.id cart) in
      if negb success then (db2, respuesta_error 400)
      else (db2, respuesta_exito tt)
  end.
(** ** Stores used by the examples *)

Definition comentario_valido : str := of_string "Muy buen producto".

(** One product with four reviews rated 5, 5, 4 and 3. *)
Definition db_cuatro_resenas : DB :=
  mkDB [Producto.mk 1 true 10 5000]
       [Usuario.mk 1; Usuario.mk 2; Usuario.mk 3; Usuario.mk 4]
       [] []
       [Resena.mk 1 1 1 5 comentario_valido false;
        Resena.mk 2 1 2 5 comentario_valido false;
        Resena.mk 3 1 3 4 comentario_valido false;
        Resena.mk 4 1 4 3 comentario_valido false]
       1 1 5.

(** The cart of the specification: three units at 5000 cents and one
    unit at 2000 cents. *)
Definition db_carrito_ejemplo : DB :=
  mkDB [Producto.mk 1 true 10 5000; Producto.mk 2 true 10 2000]
       [Usuario.mk 1]
       [Cart.mk 1 (Some 1) None true]
       [CartItem.mk 1 1 1 3 5000; CartItem.mk 2 1 2 1 2000]
       [] 2 3 1.

(** A cart with one unit priced 49.99. *)
Definition db_carrito_4999 : DB :=
  mkDB [Producto.mk 1 true 10 4999]
       [Usuario.mk 1]
       [Cart.mk 1 (Some 1) None true]
       [CartItem.mk 1 1 1 1 4999]
       [] 2 2 1.

(** A cart that holds three units of a product with ten in stock. *)
Definition db_carrito_tres_unidades : DB :=
  mkDB [Producto.mk 1 true 10 5000]
       [Usuario.mk 7]
       [Cart.mk 1 (Some 7) None true]
       [CartItem.mk 1 1 1 3 5000]
       [] 2 2 1.

(** Product 1 has five units in stock.  The cart of user 7 holds four
    of them, the cart of the anonymous session holds three. *)
Definition sesion_anonima : str := of_string "sesion-anonima".

Definition db_dos_carritos : DB :=
  mkDB [Producto.mk 1 true 5 5000; Producto.mk 2 true 9 2000]
       [Usuario.mk 7]
       [Cart.mk 1 (Some 7) None true;
        Cart.mk 2 None (Some sesion_anonima) true]
       [CartItem.mk 1 1 1 4 5000;
        CartItem.mk 2 2 1 3 5000;
        CartItem.mk 3 2 2 1 2000]
       [] 3 4 1.

(** An empty cart and a product with ten units in stock. *)
Definition db_carrito_vacio : DB :=
  mkDB [Producto.mk 1 true 10 5000]
       [Usuario.mk 7]
       [Cart.mk 1 (Some 7) None true]
       [] [] 2 1 1.

(** One cart that carries both the user id 7 and the session id, as
    [obtener_o_crear_carrito] creates it for a logged-in user. *)
Definition db_carrito_compartido : DB :=
  mkDB [Producto.mk 1 true 10 5000]
       [Usuario.mk 7]
       [Cart.mk 1 (Some 7) (Some sesion_anonima) true]
       [CartItem.mk 1 1 1 3 5000]
       [] 2 2 1.

(** * Theorems *)

(** Case analysis on membership in one of the three-row tables of the
    examples. *)
Ltac cada_fila H := destruct H as [<- | [<- | [<- | []]]].

(** Split a conjunction of boolean tests into arithmetic facts. *)
Ltac pruebas_bool :=
  rewrite ?andb_true_iff, ?Z.ltb_lt, ?Z.leb_le in *.

(** ** Cart totals *)

(** The threshold is where rounding to nearest first yields an
    infinity: one below it still rounds to the largest float. *)
Lemma overflow_threshold_rounds_to_infinity :
  binary_normalize prec emax PyFloat.overflow_threshold 0 false
  = S754_infinity false
  /\ binary_normalize prec emax (PyFloat.overflow_threshold - 1) 0 false
     = S754_finite false 9007199254740991 971.
Proof. split; vm_compute; reflexivity. Qed.

Lemma overflow_threshold_large :
  1000000000000000000 < PyFloat.overflow_threshold.
Proof. reflexivity. Qed.

Lemma float_of_int_ok (z : Z) :
  Z.abs z < PyFloat.overflow_threshold ->
  PyFloat.float_of_int z = Ok (PyFloat.nearest_float z).
Proof.
  intros Hz. unfold PyFloat.float_of_int.
  destruct (Z.leb_spec PyFloat.overflow_threshold (Z.abs z)); [lia | reflexivity].
Qed.

Lemma int_truediv_ok (a b : Z) :
  b <> 0 -> Z.abs a < PyFloat.overflow_threshold * Z.abs b ->
  PyFloat.int_truediv a b = Ok (PyFloat.nearest_quotient a b).
Proof.
  intros Hb Ha. unfold PyFloat.int_truediv.
  destruct (Z.eqb_spec b 0); [contradiction |].
  destruct (Z.leb_spec (PyFloat.overflow_threshold * Z.abs b) (Z.abs a));
    [lia | reflexivity].
Qed.

Lemma float_of_int_100 : PyFloat.float_of_int 100 = Ok 100%float.
Proof. reflexivity. Qed.

Lemma fold_left_add_shift (l : list Z) (a : Z) :
  fold_left Z.add l a = a + fold_left Z.add l 0.
Proof.
  revert a. induction l as [|x l IH]; intros a; cbn [fold_left].
  - lia.
  - rewrite (IH (a + x)), (IH (0 + x)). lia.
Qed.

Lemma py_sum_cons (x : Z) (l : list Z) : py_sum (x :: l) = x + py_sum l.
Proof. unfold py_sum. cbn [fold_left]. rewrite fold_left_add_shift. lia. Qed.

Lemma py_sum_subtotal (items : list CartItem.t) :
  py_sum (List.map (fun item => CartItem.cantidad item
                                * CartItem.precio_unitario item) items)
  = subtotal_centavos items.
Proof.
  induction items as [|it items IH]; [reflexivity |].
  cbn [List.map subtotal_centavos]. rewrite py_sum_cons, IH. reflexivity.
Qed.

Lemma py_sum_unidades (items : list CartItem.t) :
  py_sum (List.map CartItem.cantidad items) = total_unidades items.
Proof.
  induction items as [|it items IH]; [reflexivity |].
  cbn [List.map total_unidades]. rewrite py_sum_cons, IH. reflexivity.
Qed.

Lemma get_cart_id (db : DB) (pk : Z) (c : Cart.t) :
  get_cart db pk = Some c -> Cart.id c = pk.
Proof.
  unfold get_cart. intros H. apply List.find_some in H as [_ H].
  now apply Z.eqb_eq.
Qed.

(** C1, as the spec states it, fails: the tax is computed in binary
    floating point.  For one unit priced 49.99 the subtotal returned is
    49.99 and the tax returned is 4.999000000000001 (the float written
    4.9990000000000006 with 17 digits), which is neither the number
    4999/1000 nor the float nearest to it. *)
Lemma impuestos_4999_no_son_exactos :
  ~ (exists x : float,
        Totales.impuestos (calcular_totales_carrito db_carrito_4999 1) = PFloat x
        /\ (PyFloat.is_fraction x 4999 1000 = true
            \/ PyFloat.int_truediv 4999 1000 = Ok x)).
Proof.
  intros (x & Hx & Hex).
  assert (Hval : Prim2SF x = Prim2SF 4.9990000000000006%float).
  { vm_compute in Hx. injection Hx as <-. reflexivity. }
  destruct Hex as [Hfrac | Hdiv].
  - unfold PyFloat.is_fraction in Hfrac. rewrite Hval in Hfrac.
    vm_compute in Hfrac. discriminate Hfrac.
  - apply (f_equal (fun r => match r with
                             | Ok y => Prim2SF y
                             | Raise _ => S754_nan
                             end)) in Hdiv.
    cbv beta iota in Hdiv. rewrite Hval in Hdiv.
    vm_compute in Hdiv. discriminate Hdiv.
Qed.

(** C1, amended: for every existing cart the subtotal is the sum over
    its items of quantity times unit price in integer cents, the tax is
    the binary64 product of the subtotal and the float 0.1, shipping is
    1500 cents below a subtotal of 100000 cents and 0 from there on, the
    total is the float sum subtotal + tax + shipping, and each amount is
    returned divided by 100 (when the subtotal is too large for a float
    the all-zero dictionary is returned).  For the items (5000 cents,
    3 units) and (2000 cents, 1 unit) the subtotal is 17000 cents, the
    tax 1700.0 cents, and the amounts returned are 170.0, 17.0, 15.0 and
    202.0. *)
Theorem calcular_totales_carrito_spec (db : DB) (cart_id : Z) (cart : Cart.t) :
  get_cart db cart_id = Some cart ->
  let items := items_of (cart_items db) cart_id in
  let s := subtotal_centavos items in
  let impuestos := PrimFloat.mul (PyFloat.nearest_float s) 0.1 in
  calcular_totales_carrito db cart_id =
    (if PyFloat.overflow_threshold <=? Z.abs s then totales_cero
     else
       Totales.mk
         (PFloat (PyFloat.nearest_quotient s 100))
         (PFloat (PrimFloat.div impuestos 100))
         (PFloat (if 100000 <=? s then 0 else 15))
         (PFloat (PrimFloat.div
                    (PrimFloat.add
                       (PrimFloat.add (PyFloat.nearest_float s) impuestos)
                       (if 100000 <=? s then 0 else 1500))
                    100))
         (total_unidades items)
         (100000 <=? s))
  /\ (List.map (fun it => (CartItem.precio_unitario it, CartItem.cantidad it))
               items = [(5000, 3); (2000, 1)] ->
      s = 17000
      /\ impuestos = 1700%float
      /\ calcular_totales_carrito db cart_id =
         Totales.mk (PFloat 170) (PFloat 17) (PFloat 15) (PFloat 202) 4 false).
Proof.
  intros Hcart items s impuestos.
  assert (Hgen : calcular_totales_carrito db cart_id =
    (if PyFloat.overflow_threshold <=? Z.abs s then totales_cero
     else
       Totales.mk
         (PFloat (PyFloat.nearest_quotient s 100))
         (PFloat (PrimFloat.div impuestos 100))
         (PFloat (if 100000 <=? s then 0 else 15))
         (PFloat (PrimFloat.div
                    (PrimFloat.add
                       (PrimFloat.add (PyFloat.nearest_float s) impuestos)
                       (if 100000 <=? s then 0 else 1500))
                    100))
         (total_unidades items)
         (100000 <=? s))).
  { unfold calcular_totales_carrito. rewrite Hcart.
    rewrite (get_cart_id _ _ _ Hcart).
    rewrite py_sum_subtotal, py_sum_unidades.
    fold items. fold s.
    unfold PyFloat.int_mul_float, PyFloat.int_add_float,
      PyFloat.float_add_int, PyFloat.float_div_int.
    pose proof overflow_threshold_large as Hbig.
    destruct (Z.leb_spec PyFloat.overflow_threshold (Z.abs s)) as [Hov | Hok].
    - unfold PyFloat.float_of_int at 1.
      destruct (Z.leb_spec PyFloat.overflow_threshold (Z.abs s)); [| lia].
      reflexivity.
    - rewrite (float_of_int_ok s Hok).
      rewrite (int_truediv_ok s 100) by lia.
      change (100 =? 0) with false. rewrite float_of_int_100.
      fold impuestos.
      destruct (100000 <=? s); reflexivity. }
  split; [exact Hgen |].
  intros Hitems.
  assert (Hs : s = 17000).
  { subst s. destruct items as [|i1 [|i2 [|i3 l]]]; try discriminate Hitems.
    cbn [List.map] in Hitems. injection Hitems as Hp1 Hc1 Hp2 Hc2.
    cbn [subtotal_centavos]. rewrite Hp1, Hc1, Hp2, Hc2. reflexivity. }
  assert (Hu : total_unidades items = 4).
  { destruct items as [|i1 [|i2 [|i3 l]]]; try discriminate Hitems.
    cbn [List.map] in Hitems. injection Hitems as Hp1 Hc1 Hp2 Hc2.
    cbn [total_unidades]. rewrite Hc1, Hc2. reflexivity. }
  split; [exact Hs |].
  split.
  - subst impuestos. rewrite Hs. reflexivity.
  - rewrite Hgen. subst impuestos. rewrite Hu, Hs. reflexivity.
Qed.

Lemma calcular_totales_carrito_spec_witness :
  calcular_totales_carrito db_carrito_ejemplo 1 =
  Totales.mk (PFloat 170) (PFloat 17) (PFloat 15) (PFloat 202) 4 false.
Proof.
  apply (calcular_totales_carrito_spec db_carrito_ejemplo 1
           (Cart.mk 1 (Some 1) None true)); reflexivity.
Defined.
(** ** Adding to a cart and changing a quantity *)

Lemma first_item_some (items : list CartItem.t) (c p : Z) (it : CartItem.t) :
  first_item items c p = Some it ->
  In it items /\ CartItem.cart_id it = c /\ CartItem.producto_id it = p.
Proof.
  unfold first_item. intros H. apply List.find_some in H as [Hin H].
  apply andb_true_iff in H as [Hc Hp].
  apply Z.eqb_eq in Hc, Hp. auto.
Qed.

Lemma first_item_none_of_empty (items : list CartItem.t) (c p : Z) :
  items_of items c = [] -> first_item items c p = None.
Proof.
  unfold items_of, first_item.
  induction items as [|it items IH]; [reflexivity |].
  cbn [List.filter List.find].
  destruct (CartItem.cart_id it =? c); [discriminate |].
  cbn [andb]. exact IH.
Qed.

Lemma first_item_app_new (items : list CartItem.t) (c p : Z) (it : CartItem.t) :
  first_item items c p = None ->
  CartItem.cart_id it = c -> CartItem.producto_id it = p ->
  first_item (items ++ [it]) c p = Some it.
Proof.
  unfold first_item. intros Hnone Hc Hp.
  induction items as [|x items IH]; cbn [app List.find] in *.
  - rewrite Hc, Hp, !Z.eqb_refl. reflexivity.
  - destruct ((CartItem.cart_id x =? c) && (CartItem.producto_id x =? p));
      [discriminate | auto].
Qed.

Lemma first_item_set_cantidad (items : list CartItem.t) (c p n : Z)
  (e : CartItem.t) :
  first_item items c p = Some e ->
  first_item (set_cantidad items (CartItem.id e) n) c p = Some (con_cantidad e n).
Proof.
  unfold first_item, set_cantidad.
  induction items as [|x items IH]; [discriminate |].
  cbn [List.map List.find].
  destruct ((CartItem.cart_id x =? c) && (CartItem.producto_id x =? p)) eqn:Hx.
  - intros [= ->]. rewrite Z.eqb_refl.
    cbn [con_cantidad CartItem.cart_id CartItem.producto_id].
    rewrite Hx. reflexivity.
  - intros H. destruct (CartItem.id x =? CartItem.id e);
      cbn [con_cantidad CartItem.cart_id CartItem.producto_id]; rewrite Hx; auto.
Qed.

Lemma items_of_set_cantidad (items : list CartItem.t) (pk n c : Z) :
  items_of (set_cantidad items pk n) c = set_cantidad (items_of items c) pk n.
Proof.
  unfold items_of, set_cantidad.
  induction items as [|x items IH]; [reflexivity |].
  cbn [List.map List.filter].
  destruct (CartItem.id x =? pk) eqn:Hid; cbn [con_cantidad CartItem.cart_id];
    destruct (CartItem.cart_id x =? c); cbn [List.map]; rewrite ?Hid, IH;
    reflexivity.
Qed.

Lemma items_of_app (l1 l2 : list CartItem.t) (c : Z) :
  items_of (l1 ++ l2) c = items_of l1 c ++ items_of l2 c.
Proof. unfold items_of. apply List.filter_app. Qed.

Lemma length_set_cantidad (items : list CartItem.t) (pk n : Z) :
  length (set_cantidad items pk n) = length items.
Proof. unfold set_cantidad. apply List.length_map. Qed.

(** What a call that returns an item has done, case by case. *)
Lemma agregar_item_carrito_ok (db db' : DB) (cart_id producto_id cantidad : Z)
  (item : CartItem.t) :
  agregar_item_carrito db cart_id producto_id cantidad = (db', Some item) ->
  exists producto,
    get_producto db producto_id = Some producto
    /\ Producto.activo producto = true
    /\ CartItem.cantidad item <= Producto.stock producto
    /\ cart_item_row_ok item = true
    /\ match first_item (cart_items db) cart_id producto_id with
       | Some existing_item =>
           item = CartItem.mk (CartItem.id existing_item) cart_id producto_id
                    (CartItem.cantidad existing_item + cantidad)
                    (CartItem.precio_unitario existing_item)
           /\ db' = with_cart_items db
                      (set_cantidad (cart_items db) (CartItem.id existing_item)
                                    (CartItem.cantidad existing_item + cantidad))
                      (cart_items_id_seq db)
       | None =>
           item = CartItem.mk (cart_items_id_seq db) cart_id producto_id
                    cantidad (Producto.precio_centavos producto)
           /\ db' = with_cart_items db (cart_items db ++ [item])
                      (cart_items_id_seq db + 1)
       end.
Proof.
  unfold agregar_item_carrito. intros H.
  destruct (get_cart db cart_id) as [cart|]; [| discriminate H].
  destruct (get_producto db producto_id) as [producto|]; [| discriminate H].
  exists producto.
  destruct (Producto.activo producto) eqn:Hact; cbn [negb] in H;
    [| discriminate H].
  destruct (Z.ltb_spec (Producto.stock producto) cantidad) as [|Hstock];
    [discriminate H |].
  destruct (first_item (cart_items db) cart_id producto_id) as [e|] eqn:He.
  - destruct (Z.ltb_spec (Producto.stock producto) (CartItem.cantidad e + cantidad))
      as [|Hnueva]; [discriminate H |].
    destruct (cart_item_row_ok _) eqn:Hrow in H; [| discriminate H].
    injection H as <- <-.
    apply first_item_some in He as (_ & Hc & Hp).
    unfold con_cantidad in *. rewrite Hc, Hp in *.
    repeat split; auto.
  - destruct (cart_item_row_ok _) eqn:Hrow in H; [| discriminate H].
    injection H as <- <-. repeat split; auto.
Qed.

(** After a successful [agregar_item_carrito] the item holds no more
    units than the product has in stock. *)
Lemma agregar_item_carrito_respeta_stock (db db' : DB)
  (cart_id producto_id cantidad : Z) (item : CartItem.t) :
  agregar_item_carrito db cart_id producto_id cantidad = (db', Some item) ->
  exists producto,
    get_producto db' (CartItem.producto_id item) = Some producto
    /\ CartItem.cantidad item <= Producto.stock producto.
Proof.
  intros H. apply agregar_item_carrito_ok in H as (p & Hp & _ & Hle & _ & H).
  exists p. split; [| exact Hle].
  destruct (first_item _ _ _); destruct H as [-> ->]; exact Hp.
Qed.

(** After a successful [actualizar_cantidad_item] the item holds no more
    units than the product has in stock. *)
Lemma actualizar_cantidad_item_respeta_stock (db db' : DB)
  (item_id cantidad : Z) (item : CartItem.t) :
  actualizar_cantidad_item db item_id cantidad = Ok (db', Some item) ->
  0 < cantidad
  /\ CartItem.cantidad item = cantidad
  /\ exists producto,
       get_producto db' (CartItem.producto_id item) = Some producto
       /\ cantidad <= Producto.stock producto.
Proof.
  unfold actualizar_cantidad_item. intros H.
  destruct (get_item (cart_items db) item_id) as [it|]; [| discriminate H].
  destruct (Z.leb_spec cantidad 0) as [|Hpos]; [discriminate H |].
  destruct (get_producto db (CartItem.producto_id it)) as [p|] eqn:Hp;
    [| discriminate H].
  destruct (Z.ltb_spec (Producto.stock p) cantidad) as [|Hstock];
    [discriminate H |].
  destruct (cart_item_row_ok _) in H; [| discriminate H].
  injection H as <- <-. repeat split; auto.
  exists p. split; [exact Hp | exact Hstock].
Qed.

(** The two ways [agregar_item_carrito] succeeds. *)
Lemma agregar_item_carrito_nuevo (db : DB) (cart_id producto_id cantidad : Z)
  (cart : Cart.t) (producto : Producto.t) :
  get_cart db cart_id = Some cart ->
  get_producto db producto_id = Some producto ->
  Producto.activo producto = true ->
  first_item (cart_items db) cart_id producto_id = None ->
  0 < cantidad <= Producto.stock producto ->
  cantidad <= INTEGER_MAX ->
  0 <= Producto.precio_centavos producto <= BIGINT_MAX ->
  let item := CartItem.mk (cart_items_id_seq db) cart_id producto_id cantidad
                (Producto.precio_centavos producto) in
  agregar_item_carrito db cart_id producto_id cantidad =
  (with_cart_items db (cart_items db ++ [item]) (cart_items_id_seq db + 1),
   Some item).
Proof.
  intros Hcart Hprod Hact Hnone Hq Hmax Hprecio item.
  unfold agregar_item_carrito. rewrite Hcart, Hprod, Hact, Hnone. cbn [negb].
  destruct (Z.ltb_spec (Producto.stock producto) cantidad); [lia |].
  fold item.
  assert (Hrow : cart_item_row_ok item = true).
  { unfold cart_item_row_ok, item. cbn [CartItem.cantidad CartItem.precio_unitario].
    rewrite !andb_true_iff. repeat split; lia. }
  rewrite Hrow. reflexivity.
Qed.

Lemma agregar_item_carrito_existente (db : DB) (cart_id producto_id cantidad : Z)
  (cart : Cart.t) (producto : Producto.t) (existing_item : CartItem.t) :
  get_cart db cart_id = Some cart ->
  get_producto db producto_id = Some producto ->
  Producto.activo producto = true ->
  first_item (cart_items db) cart_id producto_id = Some existing_item ->
  cantidad <= Producto.stock producto ->
  0 < CartItem.cantidad existing_item + cantidad <= Producto.stock producto ->
  CartItem.cantidad existing_item + cantidad <= INTEGER_MAX ->
  0 <= CartItem.precio_unitario existing_item <= BIGINT_MAX ->
  let nueva_cantidad := CartItem.cantidad existing_item + cantidad in
  agregar_item_carrito db cart_id producto_id cantidad =
  (with_cart_items db
     (set_cantidad (cart_items db) (CartItem.id existing_item) nueva_cantidad)
     (cart_items_id_seq db),
   Some (con_cantidad existing_item nueva_cantidad)).
Proof.
  intros Hcart Hprod Hact Hsome Hq Hnueva Hmax Hprecio nueva_cantidad.
  unfold agregar_item_carrito. rewrite Hcart, Hprod, Hact, Hsome. cbn [negb].
  destruct (Z.ltb_spec (Producto.stock producto) cantidad); [lia |].
  fold nueva_cantidad.
  destruct (Z.ltb_spec (Producto.stock producto) nueva_cantidad);
    [unfold nueva_cantidad in *; lia |].
  match goal with
  | |- (if cart_item_row_ok ?it then _ else _) = _ =>
      assert (Hrow : cart_item_row_ok it = true)
  end.
  { unfold cart_item_row_ok.
    cbn [con_cantidad CartItem.cantidad CartItem.precio_unitario].
    unfold nueva_cantidad. rewrite !andb_true_iff. repeat split; lia. }
  rewrite Hrow. reflexivity.
Qed.

(** C4: when the product already has a row in the cart, a successful
    [agregar_item_carrito] adds the requested quantity to that row and
    the table keeps its length; otherwise it appends one row whose
    [precio_unitario] is the product's current price.  Adding 2 and then
    3 units of a product to a cart without rows leaves the cart with
    exactly one row, of quantity 5. *)
Theorem agregar_item_carrito_suma_o_inserta (db : DB) (cart_id producto_id : Z) :
  (forall (cantidad : Z) (db' : DB) (item : CartItem.t),
      agregar_item_carrito db cart_id producto_id cantidad = (db', Some item) ->
      match first_item (cart_items db) cart_id producto_id with
      | Some existing_item =>
          CartItem.id item = CartItem.id existing_item
          /\ CartItem.cantidad item = CartItem.cantidad existing_item + cantidad
          /\ CartItem.precio_unitario item = CartItem.precio_unitario existing_item
          /\ first_item (cart_items db') cart_id producto_id = Some item
          /\ length (cart_items db') = length (cart_items db)
          /\ length (items_of (cart_items db') cart_id)
             = length (items_of (cart_items db) cart_id)
      | None =>
          exists producto,
            get_producto db producto_id = Some producto
            /\ CartItem.precio_unitario item = Producto.precio_centavos producto
            /\ CartItem.cantidad item = cantidad
            /\ cart_items db' = cart_items db ++ [item]
            /\ first_item (cart_items db') cart_id producto_id = Some item
      end)
  /\ (forall (cart : Cart.t) (producto : Producto.t),
         get_cart db cart_id = Some cart ->
         get_producto db producto_id = Some producto ->
         Producto.activo producto = true ->
         5 <= Producto.stock producto ->
         0 <= Producto.precio_centavos producto <= BIGINT_MAX ->
         items_of (cart_items db) cart_id = [] ->
         exists db1 item1 db2 item2,
           agregar_item_carrito db cart_id producto_id 2 = (db1, Some item1)
           /\ agregar_item_carrito db1 cart_id producto_id 3 = (db2, Some item2)
           /\ items_of (cart_items db2) cart_id = [item2]
           /\ CartItem.cantidad item2 = 5
           /\ CartItem.precio_unitario item2 = Producto.precio_centavos producto).
Proof.
  split.
  - intros cantidad db' item H.
    apply agregar_item_carrito_ok in H as (p & Hp & _ & _ & _ & H).
    destruct (first_item (cart_items db) cart_id producto_id) as [e|] eqn:He.
    + destruct H as [-> ->].
      cbn [cart_items with_cart_items CartItem.id CartItem.cantidad
           CartItem.precio_unitario].
      pose proof (first_item_some _ _ _ _ He) as (_ & Hc & Hpid).
      rewrite (first_item_set_cantidad _ _ _ _ _ He).
      unfold con_cantidad. rewrite Hc, Hpid.
      rewrite items_of_set_cantidad, !length_set_cantidad. repeat split.
    + destruct H as [Hitem ->]. exists p. cbn [cart_items with_cart_items].
      rewrite Hitem at 1 2. cbn [CartItem.precio_unitario CartItem.cantidad].
      repeat split; auto.
      apply first_item_app_new; [exact He | |]; rewrite Hitem; reflexivity.
  - intros cart producto Hcart Hprod Hact Hstock Hprecio Hempty.
    pose proof (first_item_none_of_empty _ _ producto_id Hempty) as Hnone.
    pose proof (agregar_item_carrito_nuevo db cart_id producto_id 2 cart producto
                  Hcart Hprod Hact Hnone) as H1.
    cbv zeta in H1. unfold INTEGER_MAX in H1.
    specialize (H1 ltac:(lia) ltac:(lia) Hprecio).
    set (item1 := CartItem.mk (cart_items_id_seq db) cart_id producto_id 2
                    (Producto.precio_centavos producto)) in *.
    set (db1 := with_cart_items db (cart_items db ++ [item1])
                  (cart_items_id_seq db + 1)) in *.
    assert (Hfirst : first_item (cart_items db1) cart_id producto_id = Some item1).
    { apply first_item_app_new; [exact Hnone | reflexivity | reflexivity]. }
    pose proof (agregar_item_carrito_existente db1 cart_id producto_id 3 cart
                  producto item1 Hcart Hprod Hact Hfirst) as H2.
    cbv zeta in H2. unfold INTEGER_MAX in H2.
    cbn [item1 con_cantidad CartItem.cantidad CartItem.precio_unitario
         CartItem.id CartItem.cart_id CartItem.producto_id] in H2.
    specialize (H2 ltac:(lia) ltac:(lia) ltac:(lia) Hprecio).
    eexists db1, item1, _, _. split; [exact H1 |]. split; [exact H2 |].
    cbn [cart_items with_cart_items db1 CartItem.cantidad CartItem.precio_unitario].
    rewrite items_of_set_cantidad, items_of_app, Hempty.
    unfold items_of, set_cantidad.
    cbn [app List.filter CartItem.cart_id item1 List.map CartItem.id
         CartItem.producto_id CartItem.cantidad CartItem.precio_unitario].
    rewrite !Z.eqb_refl. cbn [app List.map]. rewrite Z.eqb_refl.
    repeat split; reflexivity.
Qed.

Lemma agregar_item_carrito_suma_o_inserta_witness :
  exists db1 item1 db2 item2,
    agregar_item_carrito db_carrito_vacio 1 1 2 = (db1, Some item1)
    /\ agregar_item_carrito db1 1 1 3 = (db2, Some item2)
    /\ items_of (cart_items db2) 1 = [item2]
    /\ CartItem.cantidad item2 = 5
    /\ CartItem.precio_unitario item2 = 5000.
Proof.
  apply (proj2 (agregar_item_carrito_suma_o_inserta db_carrito_vacio 1 1)
           (Cart.mk 1 (Some 7) None true) (Producto.mk 1 true 10 5000));
    try reflexivity; cbn; unfold BIGINT_MAX; lia.
Defined.

(** C5: when the requested quantity plus the quantity of the product
    already in the cart exceeds the product's stock, the call returns no
    item and the store is the one it started from. *)
Theorem agregar_item_carrito_stock_insuficiente (db : DB)
  (cart_id producto_id cantidad : Z) (producto : Producto.t) :
  get_producto db producto_id = Some producto ->
  Producto.stock producto
  < cantidad + cantidad_en_carrito (cart_items db) cart_id producto_id ->
  agregar_item_carrito db cart_id producto_id cantidad = (db, None).
Proof.
  intros Hprod Hexceso. unfold agregar_item_carrito, cantidad_en_carrito in *.
  destruct (get_cart db cart_id); [| reflexivity].
  rewrite Hprod.
  destruct (Producto.activo producto); [| reflexivity]. cbn [negb].
  destruct (Z.ltb_spec (Producto.stock producto) cantidad); [reflexivity |].
  destruct (first_item (cart_items db) cart_id producto_id) as [e|]; [| lia].
  destruct (Z.ltb_spec (Producto.stock producto) (CartItem.cantidad e + cantidad));
    [reflexivity | lia].
Qed.

Lemma agregar_item_carrito_stock_insuficiente_witness :
  agregar_item_carrito db_carrito_tres_unidades 1 1 8 =
  (db_carrito_tres_unidades, None).
Proof.
  apply (agregar_item_carrito_stock_insuficiente db_carrito_tres_unidades
           1 1 8 (Producto.mk 1 true 10 5000)).
  - reflexivity.
  - vm_compute. reflexivity.
Defined.

(** C3 does not hold of the code: [agregar_item_carrito] never tests the
    sign of [cantidad].  On a cart that holds three units, adding -1
    succeeds and leaves two units in the row; adding 0 succeeds as
    well.  Only the insertion of a new row is stopped, by the CHECK
    constraint of the table. *)
Lemma agregar_item_carrito_cantidad_no_positiva :
  agregar_item_carrito db_carrito_tres_unidades 1 1 (-1) =
    (with_cart_items db_carrito_tres_unidades [CartItem.mk 1 1 1 2 5000] 2,
     Some (CartItem.mk 1 1 1 2 5000))
  /\ agregar_item_carrito db_carrito_tres_unidades 1 1 0 =
     (db_carrito_tres_unidades, Some (CartItem.mk 1 1 1 3 5000))
  /\ agregar_item_carrito db_carrito_vacio 1 1 (-1) =
     (with_cart_items db_carrito_vacio [] 2, None).
Proof. repeat split; vm_compute; reflexivity. Qed.

(** The sibling [actualizar_cantidad_item] does reject such a quantity. *)
Lemma actualizar_cantidad_item_no_positiva (db : DB) (item_id cantidad : Z) :
  cantidad <= 0 -> actualizar_cantidad_item db item_id cantidad = Ok (db, None).
Proof.
  intros Hq. unfold actualizar_cantidad_item.
  destruct (get_item (cart_items db) item_id); [| reflexivity].
  destruct (Z.leb_spec cantidad 0); [reflexivity | lia].
Qed.
(** ** Looking up or creating the active cart *)


(** ** Migrating a session cart *)

(** C2 does not hold of the code: the migration adds the quantities of
    the two carts without looking at the stock.  Product 1 has five
    units; the user's row holds four and the session's row three; the
    migration succeeds and leaves seven units in the user's row. *)
Lemma migrar_carrito_excede_stock :
  exists db' : DB,
    migrar_carrito_sesion_a_usuario db_dos_carritos sesion_anonima 7 = (db', true)
    /\ get_item (cart_items db') 1 = Some (CartItem.mk 1 1 1 7 5000)
    /\ get_producto db' 1 = Some (Producto.mk 1 true 5 5000).
Proof. eexists. repeat split; vm_compute; reflexivity. Qed.

(** *** Rows and primary keys *)

Lemma pk_unica_inj (items : list CartItem.t) (r1 r2 : CartItem.t) :
  pk_unica items -> In r1 items -> In r2 items ->
  CartItem.id r1 = CartItem.id r2 -> r1 = r2.
Proof.
  unfold pk_unica. induction items as [|a items IH]; [intros _ [] |].
  cbn [List.map]. intros Hnd H1 H2 Heq.
  apply List.NoDup_cons_iff in Hnd as [Hnotin Hnd].
  destruct H1 as [-> | H1], H2 as [-> | H2]; auto.
  - exfalso. apply Hnotin. rewrite Heq. now apply List.in_map.
  - exfalso. apply Hnotin. rewrite <- Heq. now apply List.in_map.
Qed.

Lemma get_item_in (items : list CartItem.t) (r : CartItem.t) :
  pk_unica items -> In r items -> get_item items (CartItem.id r) = Some r.
Proof.
  intros Hpk Hin. unfold get_item.
  destruct (List.find _ items) as [x|] eqn:Hfind.
  - apply List.find_some in Hfind as [Hx Hid]. apply Z.eqb_eq in Hid.
    f_equal. now apply (pk_unica_inj items).
  - apply (List.find_none _ _ Hfind) in Hin. now rewrite Z.eqb_refl in Hin.
Qed.

Lemma pk_unica_map (g : CartItem.t -> CartItem.t) (items : list CartItem.t) :
  (forall r, CartItem.id (g r) = CartItem.id r) ->
  pk_unica items -> pk_unica (List.map g items).
Proof.
  intros Hg. unfold pk_unica. rewrite List.map_map.
  now rewrite (List.map_ext _ CartItem.id Hg).
Qed.

Lemma get_item_map (g : CartItem.t -> CartItem.t) (items : list CartItem.t)
  (pk : Z) :
  (forall r, CartItem.id (g r) = CartItem.id r) ->
  get_item (List.map g items) pk = option_map g (get_item items pk).
Proof.
  intros Hg. unfold get_item.
  induction items as [|a items IH]; [reflexivity |].
  cbn [List.map List.find]. rewrite Hg.
  destruct (CartItem.id a =? pk); [reflexivity | exact IH].
Qed.

(** A query is not disturbed by writes that leave its filter alone. *)
Lemma first_item_map (g : CartItem.t -> CartItem.t) (items : list CartItem.t)
  (c p : Z) :
  (forall r, In r items ->
             (CartItem.cart_id (g r) =? c) && (CartItem.producto_id (g r) =? p)
             = (CartItem.cart_id r =? c) && (CartItem.producto_id r =? p)) ->
  first_item (List.map g items) c p = option_map g (first_item items c p).
Proof.
  unfold first_item. induction items as [|a items IH]; intros Hg;
    [reflexivity |].
  cbn [List.map List.find]. rewrite (Hg a) by now left.
  destruct ((CartItem.cart_id a =? c) && (CartItem.producto_id a =? p));
    [reflexivity |].
  apply IH. intros r Hr. apply Hg. now right.
Qed.

Lemma first_item_not_none (items : list CartItem.t) (c p : Z) (r : CartItem.t) :
  In r items -> CartItem.cart_id r = c -> CartItem.producto_id r = p ->
  first_item items c p <> None.
Proof.
  intros Hin Hc Hp Hnone. unfold first_item in Hnone.
  apply (List.find_none _ _ Hnone) in Hin.
  now rewrite Hc, Hp, !Z.eqb_refl in Hin.
Qed.

Lemma first_item_unica (items : list CartItem.t) (c : Z) (r : CartItem.t) :
  una_fila_por_producto items c -> In r items -> CartItem.cart_id r = c ->
  first_item items c (CartItem.producto_id r) = Some r.
Proof.
  intros Huna Hin Hc.
  destruct (first_item items c (CartItem.producto_id r)) as [x|] eqn:Hx.
  - apply first_item_some in Hx as (Hxin & Hxc & Hxp).
    f_equal. now apply Huna.
  - exfalso. now apply (first_item_not_none items c _ r Hin Hc eq_refl).
Qed.

Lemma find_filter {A : Type} (f g : A -> bool) (l : list A) :
  List.find f (List.filter g l) = List.find (fun x => g x && f x) l.
Proof.
  induction l as [|a l IH]; [reflexivity |].
  cbn [List.filter List.find]. destruct (g a); cbn [List.find andb]; [| exact IH].
  destruct (f a); [reflexivity | exact IH].
Qed.

Lemma items_of_in (items : list CartItem.t) (c : Z) (r : CartItem.t) :
  In r (items_of items c) <-> In r items /\ CartItem.cart_id r = c.
Proof.
  unfold items_of. rewrite List.filter_In, Z.eqb_eq. reflexivity.
Qed.

Lemma pk_unica_items_of (items : list CartItem.t) (c : Z) :
  pk_unica items -> List.NoDup (List.map CartItem.id (items_of items c)).
Proof.
  unfold pk_unica, items_of. induction items as [|a items IH]; intros Hnd.
  - constructor.
  - cbn [List.map] in Hnd. apply List.NoDup_cons_iff in Hnd as [Hnotin Hnd].
    cbn [List.filter]. destruct (CartItem.cart_id a =? c); [| auto].
    cbn [List.map]. constructor; [| auto].
    intros Hin. apply Hnotin. apply List.in_map_iff in Hin as (x & Hx & Hin).
    apply List.filter_In in Hin as [Hin _]. rewrite <- Hx. now apply List.in_map.
Qed.

Lemma productos_items_of (items : list CartItem.t) (c : Z) :
  pk_unica items -> una_fila_por_producto items c ->
  List.NoDup (List.map CartItem.producto_id (items_of items c)).
Proof.
  intros Hpk Huna.
  assert (Hsub : forall l, List.NoDup (List.map CartItem.id l) ->
                           (forall r, In r l -> In r items /\ CartItem.cart_id r = c) ->
                           List.NoDup (List.map CartItem.producto_id l)).
  { induction l as [|a l IH]; intros Hnd Hl; [constructor |].
    cbn [List.map] in *. apply List.NoDup_cons_iff in Hnd as [Hnotin Hnd].
    constructor.
    - intros Hin. apply List.in_map_iff in Hin as (x & Hx & Hin).
      destruct (Hl a) as [Ha Hac]; [now left |].
      destruct (Hl x) as [Hxi Hxc]; [now right |].
      assert (x = a) by now apply Huna. subst x.
      apply Hnotin. now apply List.in_map.
    - apply IH; [exact Hnd |]. intros r Hr. apply Hl. now right. }
  apply Hsub; [now apply pk_unica_items_of |].
  intros r Hr. now apply items_of_in.
Qed.

Lemma existsb_id_false (l : list CartItem.t) (pk : Z) :
  ~ In pk (List.map CartItem.id l) ->
  existsb (fun x => CartItem.id x =? pk) l = false.
Proof.
  intros Hnotin. destruct (existsb _ l) eqn:Hex; [| reflexivity].
  apply List.existsb_exists in Hex as (x & Hx & Hid). apply Z.eqb_eq in Hid.
  exfalso. apply Hnotin. rewrite <- Hid. now apply List.in_map.
Qed.

Lemma find_producto_none (l : list CartItem.t) (p : Z) :
  ~ In p (List.map CartItem.producto_id l) ->
  List.find (fun x => CartItem.producto_id x =? p) l = None.
Proof.
  intros Hnotin. destruct (List.find _ l) as [x|] eqn:Hfind; [| reflexivity].
  apply List.find_some in Hfind as [Hx Hp]. apply Z.eqb_eq in Hp.
  exfalso. apply Hnotin. rewrite <- Hp. now apply List.in_map.
Qed.

(** *** The loop, one turn at a time *)

Section Bucle.

Variables c t : Z.
Hypothesis Hct : c <> t.

Lemma fila_migrada_desde_nil (cur : list CartItem.t) (r : CartItem.t) :
  fila_migrada_desde [] cur c t r = r.
Proof.
  unfold fila_migrada_desde. cbn [existsb List.find]. rewrite andb_false_r.
  destruct (CartItem.cart_id r =? t); reflexivity.
Qed.

Lemma migrar_item_suma (cur : list CartItem.t) (s e : CartItem.t) :
  pk_unica cur -> In s cur ->
  first_item cur t (CartItem.producto_id s) = Some e ->
  migrar_item t cur (CartItem.id s) =
  set_cantidad cur (CartItem.id e) (CartItem.cantidad e + CartItem.cantidad s).
Proof.
  intros Hpk Hs He. unfold migrar_item.
  now rewrite (get_item_in _ _ Hpk Hs), He.
Qed.

Lemma migrar_item_mueve (cur : list CartItem.t) (s : CartItem.t) :
  pk_unica cur -> In s cur ->
  first_item cur t (CartItem.producto_id s) = None ->
  migrar_item t cur (CartItem.id s) = set_cart_id cur (CartItem.id s) t.
Proof.
  intros Hpk Hs He. unfold migrar_item.
  now rewrite (get_item_in _ _ Hpk Hs), He.
Qed.

(** A turn that adds the quantity of [s] to the row [e] of the user's
    cart. *)
Lemma paso_suma (pendientes cur : list CartItem.t) (s e : CartItem.t) :
  pk_unica cur -> In s cur -> CartItem.cart_id s = c ->
  first_item cur t (CartItem.producto_id s) = Some e ->
  ~ In (CartItem.id s) (List.map CartItem.id pendientes) ->
  ~ In (CartItem.producto_id s) (List.map CartItem.producto_id pendientes) ->
  una_fila_por_producto cur t ->
  forall r : CartItem.t,
    In r cur ->
    fila_migrada_desde pendientes
      (set_cantidad cur (CartItem.id e) (CartItem.cantidad e + CartItem.cantidad s))
      c t
      (if CartItem.id r =? CartItem.id e
       then con_cantidad r (CartItem.cantidad e + CartItem.cantidad s) else r)
    = fila_migrada_desde (s :: pendientes) cur c t r.
Proof.
  intros Hpk Hs Hsc He Hnid Hnprod Huna r Hr.
  pose proof (first_item_some _ _ _ _ He) as (He_in & He_c & He_p).
  assert (Hfirst : forall p,
             first_item (set_cantidad cur (CartItem.id e)
                           (CartItem.cantidad e + CartItem.cantidad s)) t p
             = option_map
                 (fun x => if CartItem.id x =? CartItem.id e
                           then con_cantidad x (CartItem.cantidad e
                                                + CartItem.cantidad s)
                           else x)
                 (first_item cur t p)).
  { intros p. unfold set_cantidad. apply first_item_map. intros x _.
    destruct (CartItem.id x =? CartItem.id e); reflexivity. }
  destruct (Z.eqb_spec (CartItem.id r) (CartItem.id e)) as [Hid | Hid].
  - assert (r = e) by now apply (pk_unica_inj cur). subst r.
    unfold fila_migrada_desde.
    cbn [con_cantidad CartItem.cart_id CartItem.id CartItem.producto_id
         existsb List.find].
    rewrite He_c. destruct (Z.eqb_spec t c); [congruence |]. cbn [andb].
    rewrite Z.eqb_refl, He_p, Z.eqb_refl.
    now rewrite find_producto_none.
  - unfold fila_migrada_desde. cbn [existsb List.find].
    destruct (Z.eqb_spec (CartItem.cart_id r) c) as [Hrc | Hrc]; cbn [andb].
    + destruct (Z.eqb_spec (CartItem.id s) (CartItem.id r)) as [Hsr | Hsr];
        cbn [orb].
      * assert (r = s) by now apply (pk_unica_inj cur). subst r.
        rewrite existsb_id_false by exact Hnid.
        destruct (Z.eqb_spec (CartItem.cart_id s) t); [congruence |].
        now rewrite He.
      * destruct (existsb _ pendientes).
        -- rewrite Hfirst. now destruct (first_item cur t (CartItem.producto_id r)).
        -- destruct (Z.eqb_spec (CartItem.cart_id r) t); [congruence | reflexivity].
    + destruct (Z.eqb_spec (CartItem.cart_id r) t) as [Hrt | Hrt];
        [| reflexivity].
      destruct (Z.eqb_spec (CartItem.producto_id s) (CartItem.producto_id r))
        as [Hp | Hp]; [| reflexivity].
      exfalso. apply Hid. f_equal. apply Huna; auto. congruence.
Qed.

(** A turn that moves [s] into the user's cart. *)
Lemma paso_mueve (pendientes cur : list CartItem.t) (s : CartItem.t) :
  pk_unica cur -> In s cur -> CartItem.cart_id s = c ->
  first_item cur t (CartItem.producto_id s) = None ->
  ~ In (CartItem.id s) (List.map CartItem.id pendientes) ->
  ~ In (CartItem.producto_id s) (List.map CartItem.producto_id pendientes) ->
  (forall x, In x pendientes -> In x cur /\ CartItem.cart_id x = c) ->
  forall r : CartItem.t,
    In r cur ->
    fila_migrada_desde pendientes (set_cart_id cur (CartItem.id s) t) c t
      (if CartItem.id r =? CartItem.id s then con_cart_id r t else r)
    = fila_migrada_desde (s :: pendientes) cur c t r.
Proof.
  intros Hpk Hs Hsc He Hnid Hnprod Hpend r Hr.
  destruct (Z.eqb_spec (CartItem.id r) (CartItem.id s)) as [Hid | Hid].
  - assert (r = s) by now apply (pk_unica_inj cur). subst r.
    unfold fila_migrada_desde.
    cbn [con_cart_id CartItem.cart_id CartItem.id CartItem.producto_id
         existsb List.find].
    rewrite Hsc, !Z.eqb_refl. destruct (Z.eqb_spec t c); [congruence |].
    cbn [andb orb]. rewrite He. now rewrite find_producto_none.
  - unfold fila_migrada_desde. cbn [existsb List.find].
    destruct (Z.eqb_spec (CartItem.id s) (CartItem.id r)) as [Hsr | _];
      [congruence |]. cbn [orb].
    destruct (Z.eqb_spec (CartItem.cart_id r) c) as [Hrc | Hrc]; cbn [andb].
    + destruct (existsb _ pendientes) eqn:Hex.
      * apply List.existsb_exists in Hex as (x & Hx & Hxid).
        apply Z.eqb_eq in Hxid. destruct (Hpend x Hx) as [Hxcur Hxc].
        assert (x = r) by now apply (pk_unica_inj cur). subst x.
        assert (Hprod : CartItem.producto_id s <> CartItem.producto_id r).
        { intros Heq. apply Hnprod. rewrite Heq. now apply List.in_map. }
        unfold set_cart_id. rewrite first_item_map.
        -- now destruct (first_item cur t (CartItem.producto_id r)).
        -- intros x Hx'.
           destruct (Z.eqb_spec (CartItem.id x) (CartItem.id s)) as [Hxs | Hxs];
             [| reflexivity].
           assert (x = s) by now apply (pk_unica_inj cur). subst x.
           cbn [con_cart_id CartItem.cart_id CartItem.producto_id].
           rewrite Hsc.
           destruct (Z.eqb_spec (CartItem.producto_id s) (CartItem.producto_id r));
             [contradiction |].
           now rewrite !andb_false_r.
      * destruct (Z.eqb_spec (CartItem.cart_id r) t); [congruence | reflexivity].
    + destruct (Z.eqb_spec (CartItem.cart_id r) t) as [Hrt | Hrt];
        [| reflexivity].
      destruct (Z.eqb_spec (CartItem.producto_id s) (CartItem.producto_id r))
        as [Hp | Hp]; [| reflexivity].
      exfalso. now apply (first_item_not_none cur t _ r Hr Hrt (eq_sym Hp)).
Qed.

End Bucle.

Lemma una_fila_por_producto_map (g : CartItem.t -> CartItem.t)
  (items : list CartItem.t) (t : Z) :
  (forall r, CartItem.cart_id (g r) = CartItem.cart_id r
             /\ CartItem.producto_id (g r) = CartItem.producto_id r) ->
  una_fila_por_producto items t -> una_fila_por_producto (List.map g items) t.
Proof.
  intros Hg Huna r1' r2' H1 H2 Hc1 Hc2 Hp.
  apply List.in_map_iff in H1 as (r1 & <- & H1).
  apply List.in_map_iff in H2 as (r2 & <- & H2).
  destruct (Hg r1) as [Hgc1 Hgp1]. destruct (Hg r2) as [Hgc2 Hgp2].
  f_equal. apply Huna; auto; congruence.
Qed.

Lemma una_fila_por_producto_set_cart_id (cur : list CartItem.t) (s : CartItem.t)
  (t : Z) :
  pk_unica cur -> In s cur ->
  first_item cur t (CartItem.producto_id s) = None ->
  una_fila_por_producto cur t ->
  una_fila_por_producto (set_cart_id cur (CartItem.id s) t) t.
Proof.
  intros Hpk Hs He Huna r1' r2' H1 H2 Hc1 Hc2 Hp. unfold set_cart_id in *.
  apply List.in_map_iff in H1 as (r1 & <- & H1).
  apply List.in_map_iff in H2 as (r2 & <- & H2).
  destruct (Z.eqb_spec (CartItem.id r1) (CartItem.id s)) as [E1 | E1];
    destruct (Z.eqb_spec (CartItem.id r2) (CartItem.id s)) as [E2 | E2].
  - f_equal. apply (pk_unica_inj cur); auto. congruence.
  - assert (r1 = s) by now apply (pk_unica_inj cur). subst r1.
    cbn [con_cart_id CartItem.producto_id] in Hp. exfalso.
    now apply (first_item_not_none cur t _ r2 H2 Hc2 (eq_sym Hp)).
  - assert (r2 = s) by now apply (pk_unica_inj cur). subst r2.
    cbn [con_cart_id CartItem.producto_id] in Hp. exfalso.
    now apply (first_item_not_none cur t _ r1 H1 Hc1 Hp).
  - now apply Huna.
Qed.

(** The whole loop: started with the rows [pendientes] of the session
    cart still to visit, it leaves every row of the table as
    [fila_migrada_desde] says. *)
Lemma migrar_bucle (c t : Z) (pendientes : list CartItem.t) :
  c <> t ->
  forall cur : list CartItem.t,
    pk_unica cur ->
    (forall x, In x pendientes -> In x cur /\ CartItem.cart_id x = c) ->
    List.NoDup (List.map CartItem.id pendientes) ->
    List.NoDup (List.map CartItem.producto_id pendientes) ->
    una_fila_por_producto cur t ->
    fold_left (migrar_item t) (List.map CartItem.id pendientes) cur
    = List.map (fila_migrada_desde pendientes cur c t) cur.
Proof.
  intros Hct. induction pendientes as [|s L IH];
    intros cur Hpk Hpend Hnid Hnprod Huna.
  - cbn [List.map fold_left].
    rewrite (List.map_ext _ (fun r => r)); [now rewrite List.map_id |].
    intros r. apply fila_migrada_desde_nil.
  - cbn [List.map fold_left] in *.
    apply List.NoDup_cons_iff in Hnid as [Hnid Hnid'].
    apply List.NoDup_cons_iff in Hnprod as [Hnprod Hnprod'].
    destruct (Hpend s) as [Hs Hsc]; [now left |].
    assert (HpendL : forall x, In x L -> In x cur /\ CartItem.cart_id x = c).
    { intros x Hx. apply Hpend. now right. }
    destruct (first_item cur t (CartItem.producto_id s)) as [e|] eqn:He.
    + rewrite (migrar_item_suma t cur s e Hpk Hs He).
      pose proof (first_item_some _ _ _ _ He) as (He_in & He_c & He_p).
      rewrite IH; auto.
      * unfold set_cantidad at 2. rewrite List.map_map.
        apply List.map_ext_in. intros r Hr. now apply paso_suma.
      * apply pk_unica_map; [| exact Hpk]. intros r.
        now destruct (CartItem.id r =? CartItem.id e).
      * intros x Hx. destruct (HpendL x Hx) as [Hxcur Hxc].
        split; [| exact Hxc]. unfold set_cantidad.
        apply List.in_map_iff. exists x. split; [| exact Hxcur].
        destruct (Z.eqb_spec (CartItem.id x) (CartItem.id e)) as [Hid |];
          [| reflexivity].
        assert (x = e) by now apply (pk_unica_inj cur). congruence.
      * apply una_fila_por_producto_map; [| exact Huna]. intros r.
        now destruct (CartItem.id r =? CartItem.id e).
    + rewrite (migrar_item_mueve t cur s Hpk Hs He).
      rewrite IH; auto.
      * unfold set_cart_id at 2. rewrite List.map_map.
        apply List.map_ext_in. intros r Hr. now apply paso_mueve.
      * apply pk_unica_map; [| exact Hpk]. intros r.
        now destruct (CartItem.id r =? CartItem.id s).
      * intros x Hx. destruct (HpendL x Hx) as [Hxcur Hxc].
        split; [| exact Hxc]. unfold set_cart_id.
        apply List.in_map_iff. exists x. split; [| exact Hxcur].
        destruct (Z.eqb_spec (CartItem.id x) (CartItem.id s)) as [Hid |];
          [| reflexivity].
        exfalso. apply Hnid. rewrite <- Hid. now apply List.in_map.
      * now apply una_fila_por_producto_set_cart_id.
Qed.

(** Started on the rows of the session cart, the loop leaves the table
    as [fila_migrada] says. *)
Lemma migrar_bucle_completo (items : list CartItem.t) (c t : Z) :
  c <> t -> pk_unica items ->
  una_fila_por_producto items c -> una_fila_por_producto items t ->
  fold_left (migrar_item t) (List.map CartItem.id (items_of items c)) items
  = List.map (fila_migrada items c t) items.
Proof.
  intros Hct Hpk Hc Ht.
  rewrite (migrar_bucle c t); auto.
  - apply List.map_ext_in. intros r Hr.
    unfold fila_migrada_desde, fila_migrada.
    destruct (Z.eqb_spec (CartItem.cart_id r) c) as [Hrc | Hrc]; cbn [andb].
    + assert (Hex : existsb (fun s => CartItem.id s =? CartItem.id r)
                            (items_of items c) = true).
      { apply List.existsb_exists. exists r. split; [| apply Z.eqb_refl].
        now apply items_of_in. }
      now rewrite Hex.
    + destruct (CartItem.cart_id r =? t); [| reflexivity].
      unfold items_of, first_item. now rewrite find_filter.
  - intros x Hx. now apply items_of_in.
  - now apply pk_unica_items_of.
  - now apply productos_items_of.
Qed.

(** The rows written by the loop pass the column constraints when the
    stored rows do and no sum leaves the range of the column. *)
Lemma filas_migradas_ok (items : list CartItem.t) (c t : Z) :
  Forall (fun r => cart_item_row_ok r = true) items ->
  (forall r s, In r items -> In s items ->
               CartItem.cart_id r = t -> CartItem.cart_id s = c ->
               CartItem.producto_id r = CartItem.producto_id s ->
               CartItem.cantidad r + CartItem.cantidad s <= INTEGER_MAX) ->
  forallb cart_item_row_ok (List.map (fila_migrada items c t) items) = true.
Proof.
  intros Hok Hrango. rewrite List.Forall_forall in Hok.
  apply List.forallb_forall. intros r' Hr'.
  apply List.in_map_iff in Hr' as (r & <- & Hr).
  pose proof (Hok r Hr) as Hrok. unfold fila_migrada.
  destruct (CartItem.cart_id r =? c).
  - destruct (first_item items t (CartItem.producto_id r)); exact Hrok.
  - destruct (Z.eqb_spec (CartItem.cart_id r) t) as [Hrt |]; [| exact Hrok].
    destruct (first_item items c (CartItem.producto_id r)) as [s|] eqn:Hs;
      [| exact Hrok].
    apply first_item_some in Hs as (Hsin & Hsc & Hsp).
    pose proof (Hok s Hsin) as Hsok.
    pose proof (Hrango r s Hr Hsin Hrt Hsc (eq_sym Hsp)) as Hmax.
    unfold cart_item_row_ok in *.
    cbn [con_cantidad CartItem.cantidad CartItem.precio_unitario].
    pruebas_bool. lia.
Qed.

Lemma carrito_de_usuario_some (db db1 : DB) (usuario_id : Z) (uc : Cart.t) :
  carrito_de_usuario db usuario_id = (db1, Some uc) ->
  cart_items db1 = cart_items db
  /\ productos db1 = productos db
  /\ (forall x, In x (carts db) -> In x (carts db1))
  /\ Cart.usuario_id uc = Some usuario_id
  /\ In uc (carts db1).
Proof.
  unfold carrito_de_usuario, insert_cart. intros H.
  destruct (List.find _ (carts db)) as [x|] eqn:Hfind.
  - injection H as <- <-. apply List.find_some in Hfind as [Hin Hx].
    apply andb_true_iff in Hx as [Hx _]. apply bool_decide_eq_true in Hx.
    auto.
  - destruct (cart_row_ok db _); [| discriminate H].
    injection H as <- <-. cbn. repeat split; auto.
    + intros x Hx. apply List.in_or_app. now left.
    + apply List.in_or_app. right. now left.
Qed.

(** The user's cart is found, or created when the user exists. *)
Lemma carrito_de_usuario_total (db : DB) (usuario_id : Z) :
  is_Some (get_usuario db usuario_id) ->
  exists (db1 : DB) (uc : Cart.t),
    carrito_de_usuario db usuario_id = (db1, Some uc).
Proof.
  intros Hu. unfold carrito_de_usuario, insert_cart.
  destruct (List.find _ (carts db)) as [x|]; [eauto |].
  unfold cart_row_ok. cbn [Cart.usuario_id Cart.session_id].
  rewrite bool_decide_eq_true_2 by exact Hu.
  cbn [andb]. eauto.
Qed.

Lemma set_activo_in (l : list Cart.t) (sc : Cart.t) (b : bool) :
  In sc l ->
  In (Cart.mk (Cart.id sc) (Cart.usuario_id sc) (Cart.session_id sc) b)
     (set_activo l (Cart.id sc) b).
Proof.
  intros Hin. unfold set_activo. apply List.in_map_iff. exists sc.
  now rewrite Z.eqb_refl.
Qed.

Lemma set_activo_ids (l : list Cart.t) (pk : Z) (b : bool) :
  List.map Cart.id (set_activo l pk b) = List.map Cart.id l.
Proof.
  unfold set_activo. rewrite List.map_map. apply List.map_ext. intros x.
  now destruct (Cart.id x =? pk).
Qed.

(** *** One cart with both ids *)

Lemma migrar_bucle_compartido (c : Z) (pendientes : list CartItem.t) :
  forall cur : list CartItem.t,
    pk_unica cur ->
    una_fila_por_producto cur c ->
    (forall x, In x pendientes -> In x cur /\ CartItem.cart_id x = c) ->
    List.NoDup (List.map CartItem.id pendientes) ->
    fold_left (migrar_item c) (List.map CartItem.id pendientes) cur
    = List.map (fun r => if existsb (fun s => CartItem.id s =? CartItem.id r)
                                    pendientes
                         then con_cantidad r (CartItem.cantidad r
                                              + CartItem.cantidad r)
                         else r) cur.
Proof.
  induction pendientes as [|s L IH]; intros cur Hpk Huna Hpend Hnid.
  - cbn [List.map fold_left existsb]. now rewrite List.map_id.
  - cbn [List.map fold_left] in *.
    apply List.NoDup_cons_iff in Hnid as [Hnid Hnid'].
    destruct (Hpend s) as [Hs Hsc]; [now left |].
    pose proof (first_item_unica cur c s Huna Hs Hsc) as He.
    rewrite (migrar_item_suma c cur s s Hpk Hs He).
    assert (Hg : forall r,
               let r' := if CartItem.id r =? CartItem.id s
                         then con_cantidad r (CartItem.cantidad s
                                              + CartItem.cantidad s)
                         else r in
               CartItem.id r' = CartItem.id r
               /\ CartItem.cart_id r' = CartItem.cart_id r
               /\ CartItem.producto_id r' = CartItem.producto_id r).
    { intros r. cbv zeta. now destruct (CartItem.id r =? CartItem.id s). }
    rewrite IH; auto.
    + unfold set_cantidad. rewrite List.map_map.
      apply List.map_ext_in. intros r Hr. cbn [existsb].
      destruct (Z.eqb_spec (CartItem.id r) (CartItem.id s)) as [Hid | Hid].
      * assert (r = s) by now apply (pk_unica_inj cur). subst r.
        rewrite Z.eqb_refl. cbn [orb con_cantidad CartItem.id].
        rewrite existsb_id_false by exact Hnid. reflexivity.
      * destruct (Z.eqb_spec (CartItem.id s) (CartItem.id r)); [congruence |].
        reflexivity.
    + unfold set_cantidad. apply pk_unica_map; [| exact Hpk].
      intros r. apply Hg.
    + unfold set_cantidad. apply una_fila_por_producto_map; [| exact Huna].
      intros r. apply Hg.
    + intros x Hx. destruct (Hpend x) as [Hxcur Hxc]; [now right |].
      split; [| exact Hxc]. unfold set_cantidad.
      apply List.in_map_iff. exists x. split; [| exact Hxcur].
      destruct (Z.eqb_spec (CartItem.id x) (CartItem.id s)) as [Hid |];
        [| reflexivity].
      exfalso. apply Hnid. rewrite <- Hid. now apply List.in_map.
Qed.

Lemma migrar_bucle_compartido_completo (items : list CartItem.t) (c : Z) :
  pk_unica items -> una_fila_por_producto items c ->
  fold_left (migrar_item c) (List.map CartItem.id (items_of items c)) items
  = List.map (fila_duplicada c) items.
Proof.
  intros Hpk Huna. rewrite (migrar_bucle_compartido c); auto.
  - apply List.map_ext_in. intros r Hr. unfold fila_duplicada.
    destruct (Z.eqb_spec (CartItem.cart_id r) c) as [Hrc | Hrc].
    + assert (Hex : existsb (fun s => CartItem.id s =? CartItem.id r)
                            (items_of items c) = true).
      { apply List.existsb_exists. exists r. split; [| apply Z.eqb_refl].
        now apply items_of_in. }
      now rewrite Hex.
    + destruct (existsb _ (items_of items c)) eqn:Hex; [| reflexivity].
      apply List.existsb_exists in Hex as (s & Hs & Hid).
      apply Z.eqb_eq in Hid. apply items_of_in in Hs as [Hs Hsc].
      assert (s = r) by now apply (pk_unica_inj items). congruence.
  - intros x Hx. now apply items_of_in.
  - now apply pk_unica_items_of.
Qed.

Lemma filas_duplicadas_ok (items : list CartItem.t) (c : Z) :
  Forall (fun r => cart_item_row_ok r = true) items ->
  (forall r s, In r items -> In s items ->
               CartItem.cart_id r = c -> CartItem.cart_id s = c ->
               CartItem.producto_id r = CartItem.producto_id s ->
               CartItem.cantidad r + CartItem.cantidad s <= INTEGER_MAX) ->
  forallb cart_item_row_ok (List.map (fila_duplicada c) items) = true.
Proof.
  intros Hok Hrango. rewrite List.Forall_forall in Hok.
  apply List.forallb_forall. intros r' Hr'.
  apply List.in_map_iff in Hr' as (r & <- & Hr).
  pose proof (Hok r Hr) as Hrok. unfold fila_duplicada.
  destruct (Z.eqb_spec (CartItem.cart_id r) c) as [Hrc |]; [| exact Hrok].
  pose proof (Hrango r r Hr Hr Hrc Hrc eq_refl) as Hmax.
  unfold cart_item_row_ok in *.
  cbn [con_cantidad CartItem.cantidad CartItem.precio_unitario].
  pruebas_bool. lia.
Qed.



(** One cart that carries both the session id and the user id: each of
    its rows is found as its own counterpart, the quantity is summed
    with itself and the cart is deactivated. *)
Lemma migrar_carrito_compartido :
  exists db' : DB,
    migrar_carrito_sesion_a_usuario db_carrito_compartido sesion_anonima 7
    = (db', true)
    /\ cart_items db' = [CartItem.mk 1 1 1 6 5000]
    /\ carts db' = [Cart.mk 1 (Some 7) (Some sesion_anonima) false].
Proof. eexists. repeat split; vm_compute; reflexivity. Qed.
(** ** Creating a review *)

Lemma find_app_new {A : Type} (f : A -> bool) (l : list A) (x : A) :
  List.find f l = None -> f x = true -> List.find f (l ++ [x]) = Some x.
Proof.
  intros Hnone Hx. induction l as [|y l IH]; cbn [app List.find] in *.
  - now rewrite Hx.
  - destruct (f y); [discriminate | auto].
Qed.

Lemma strip_nil : strip [] = [].
Proof. reflexivity. Qed.

Lemma truthy_of_len (s : str) : 10 <= len (strip s) -> PyStr.truthy s = true.
Proof.
  destruct s as [|c s]; [| reflexivity].
  rewrite strip_nil. unfold len. cbn [length]. lia.
Qed.

(** Every way [crear_resena] returns a review. *)
Lemma crear_resena_ok (db db' : DB) (producto_id usuario_id calificacion : Z)
  (comentario : str) (compra_verificada : bool) (r : Resena.t) :
  crear_resena db producto_id usuario_id calificacion comentario compra_verificada
  = Ok (db', Some r) ->
  1 <= calificacion <= 5
  /\ 10 <= len (strip comentario)
  /\ almacenable (strip comentario) = true
  /\ is_Some (get_producto db producto_id)
  /\ is_Some (get_usuario db usuario_id)
  /\ first_resena db producto_id usuario_id = None
  /\ r = Resena.mk (resenas_id_seq db) producto_id usuario_id calificacion
                   (strip comentario) compra_verificada
  /\ db' = with_resenas db (resenas db ++ [r]) (resenas_id_seq db + 1).
Proof.
  unfold crear_resena. intros H.
  destruct (negb (forallb _ _)); [discriminate H |].
  destruct (Z.leb_spec 1 calificacion); cbn [andb negb] in H;
    [| discriminate H].
  destruct (Z.leb_spec calificacion 5); cbn [negb] in H; [| discriminate H].
  destruct (Z.ltb_spec (len (strip comentario)) 10); [discriminate H |].
  destruct (get_producto db producto_id); [| discriminate H].
  destruct (get_usuario db usuario_id); [| discriminate H].
  destruct (first_resena db producto_id usuario_id); [discriminate H |].
  cbn [Resena.comentario] in H.
  destruct (almacenable (strip comentario)); cbn [negb] in H;
    [| discriminate H].
  destruct (resena_row_ok _); [| discriminate H].
  injection H as <- <-. repeat split; eauto.
Qed.

(** C7: [crear_resena] returns nothing and leaves the store alone when
    the rating is outside 1..5, when the trimmed comment has fewer than
    10 characters, and when the user has already reviewed the product.
    It returns a review only when rating and comment are valid, product
    and user exist and the pair has no review yet; the review is then
    appended, and [verificar_usuario_puede_resenar] answers false for
    the pair in the resulting store.  Under those conditions, with
    non-zero keys, it does return a review when the trimmed comment is
    text the driver accepts (no NUL, no surrogate); when it is not, the
    call raises [ValueError] and nothing is written. *)
Theorem crear_resena_validacion (db : DB) (producto_id usuario_id calificacion : Z)
  (comentario : str) (compra_verificada : bool) :
  let crear := crear_resena db producto_id usuario_id calificacion comentario
                            compra_verificada in
  (calificacion < 1 \/ 5 < calificacion \/ len (strip comentario) < 10 ->
   crear = Ok (db, None))
  /\ (is_Some (first_resena db producto_id usuario_id) -> crear = Ok (db, None))
  /\ (forall (db' : DB) (r : Resena.t),
         crear = Ok (db', Some r) ->
         1 <= calificacion <= 5
         /\ 10 <= len (strip comentario)
         /\ is_Some (get_producto db producto_id)
         /\ is_Some (get_usuario db usuario_id)
         /\ first_resena db producto_id usuario_id = None
         /\ resenas db' = resenas db ++ [r]
         /\ Resena.producto_id r = producto_id
         /\ Resena.usuario_id r = usuario_id
         /\ Resena.calificacion r = calificacion
         /\ Resena.comentario r = strip comentario
         /\ verificar_usuario_puede_resenar db' producto_id usuario_id = false)
  /\ (producto_id <> 0 -> usuario_id <> 0 ->
      1 <= calificacion <= 5 -> 10 <= len (strip comentario) ->
      is_Some (get_producto db producto_id) ->
      is_Some (get_usuario db usuario_id) ->
      first_resena db producto_id usuario_id = None ->
      (almacenable (strip comentario) = true ->
       exists (db' : DB) (r : Resena.t), crear = Ok (db', Some r))
      /\ (almacenable (strip comentario) = false -> crear = Raise ValueError)).
Proof.
  intros crear. repeat apply conj.
  - intros Hbad. subst crear. unfold crear_resena.
    destruct (negb (forallb _ _)); [reflexivity |].
    destruct (Z.leb_spec 1 calificacion); cbn [andb negb]; [| reflexivity].
    destruct (Z.leb_spec calificacion 5); cbn [negb]; [| reflexivity].
    destruct (Z.ltb_spec (len (strip comentario)) 10); [reflexivity | lia].
  - intros [r Hr]. subst crear. unfold crear_resena. rewrite Hr.
    destruct (negb (forallb _ _)); [reflexivity |].
    destruct (negb _); [reflexivity |].
    destruct (_ <? 10); [reflexivity |].
    destruct (get_producto db producto_id); [| reflexivity].
    destruct (get_usuario db usuario_id); reflexivity.
  - intros db' r H. subst crear.
    apply crear_resena_ok in H as (Hcal & Hlen & _ & Hp & Hu & Hnone & -> & ->).
    cbn [resenas with_resenas Resena.producto_id Resena.usuario_id
         Resena.calificacion Resena.comentario].
    repeat split; auto; try lia.
    unfold verificar_usuario_puede_resenar, first_resena in *.
    cbn [resenas with_resenas].
    erewrite find_app_new; [reflexivity | exact Hnone |].
    cbn [Resena.producto_id Resena.usuario_id].
    now rewrite !Z.eqb_refl.
  - intros Hpid Huid Hcal Hlen [p Hp] [u Hu] Hnone. subst crear.
    unfold crear_resena. rewrite Hp, Hu, Hnone.
    cbn [forallb]. rewrite (truthy_of_len _ Hlen).
    destruct (Z.eqb_spec producto_id 0); [contradiction |].
    destruct (Z.eqb_spec usuario_id 0); [contradiction |].
    destruct (Z.eqb_spec calificacion 0); [lia |]. cbn [negb andb].
    destruct (Z.leb_spec 1 calificacion); [| lia].
    destruct (Z.leb_spec calificacion 5); [| lia]. cbn [negb andb].
    destruct (Z.ltb_spec (len (strip comentario)) 10); [lia |].
    cbn [Resena.comentario].
    match goal with
    | |- context [resena_row_ok ?x] =>
        assert (Hrow : resena_row_ok x = true)
    end.
    { unfold resena_row_ok. cbn [Resena.calificacion Resena.comentario].
      rewrite !andb_true_iff. repeat split; lia. }
    rewrite Hrow. split; intros ->; cbn [negb]; eauto.
Qed.

Lemma crear_resena_validacion_witness :
  exists (db' : DB) (r : Resena.t),
    crear_resena db_carrito_vacio 1 7 5 (of_string "  Excelente calidad  ") false
    = Ok (db', Some r).
Proof.
  apply (crear_resena_validacion db_carrito_vacio 1 7 5
           (of_string "  Excelente calidad  ") false).
  - discriminate.
  - discriminate.
  - vm_compute. split; discriminate.
  - vm_compute. discriminate.
  - eexists. reflexivity.
  - eexists. reflexivity.
  - reflexivity.
  - reflexivity.
Defined.
(** ** Review statistics *)

(** C8, as the spec states it, fails: on the ratings 5, 5, 4, 3 the mean
    4.25 is a tie between 4.2 and 4.3 and [round] resolves it to the even
    digit, so the result is not the one with average 4.3. *)
Lemma estadisticas_5543_no_es_4_3 :
  obtener_estadisticas_producto db_cuatro_resenas 1 <>
  Ok (Estadisticas.mk 4 4.3%float
        {[ 1 := 0; 2 := 0; 3 := 1; 4 := 1; 5 := 2 ]}
        (Some {[ 1 := 0%float; 2 := 0%float; 3 := 25%float;
                 4 := 25%float; 5 := 50%float ]})).
Proof.
  intros H.
  apply (f_equal (fun r => match r with
                           | Ok e => Prim2SF (Estadisticas.promedio e)
                           | Raise _ => S754_nan
                           end)) in H.
  vm_compute in H. discriminate H.
Qed.

(** C8, amended: for a product whose reviews are rated 5, 5, 4, 3 the
    statistics are total 4, average 4.2, distribution
    {1:0, 2:0, 3:1, 4:1, 5:2} and percentages
    {1:0.0, 2:0.0, 3:25.0, 4:25.0, 5:50.0}. *)
Theorem estadisticas_5543 (db : DB) (producto_id : Z) :
  List.map Resena.calificacion
    (List.filter (fun r => Resena.producto_id r =? producto_id) (resenas db))
  = [5; 5; 4; 3] ->
  obtener_estadisticas_producto db producto_id =
  Ok (Estadisticas.mk 4 4.2%float
        {[ 1 := 0; 2 := 0; 3 := 1; 4 := 1; 5 := 2 ]}
        (Some {[ 1 := 0%float; 2 := 0%float; 3 := 25%float;
                 4 := 25%float; 5 := 50%float ]})).
Proof.
  intros H. unfold obtener_estadisticas_producto.
  destruct (List.filter _ (resenas db)) as [|r1 [|r2 [|r3 [|r4 [|r5 l]]]]];
    try discriminate H.
  cbn [List.map] in H |- *. injection H as -> -> -> ->.
  vm_compute. reflexivity.
Qed.

Lemma estadisticas_5543_witness :
  obtener_estadisticas_producto db_cuatro_resenas 1 =
  Ok (Estadisticas.mk 4 4.2%float
        {[ 1 := 0; 2 := 0; 3 := 1; 4 := 1; 5 := 2 ]}
        (Some {[ 1 := 0%float; 2 := 0%float; 3 := 25%float;
                 4 := 25%float; 5 := 50%float ]})).
Proof. apply (estadisticas_5543 db_cuatro_resenas 1). reflexivity. Defined.

(** *** The statistics of any product *)

Lemma contar_estrella_ok (d : gmap Z Z) (e n : Z) :
  d !! e = Some n -> contar_estrella d e = Ok (<[ e := n + 1 ]> d).
Proof. unfold contar_estrella. now intros ->. Qed.

(** The counting loop adds to every key the number of times it occurs,
    provided every rating met is a key of the dictionary. *)
Lemma contar_estrellas_ok (l : list Z) (d : gmap Z Z) :
  Forall (fun e => is_Some (d !! e)) l ->
  exists d' : gmap Z Z,
    contar_estrellas d l = Ok d'
    /\ forall k : Z,
         d' !! k =
         (fun n => n + Z.of_nat (length (List.filter (fun e => e =? k) l)))
           <$> d !! k.
Proof.
  revert d. induction l as [|e l IH]; intros d Hall.
  - exists d. split; [reflexivity |]. intros k. cbn [List.filter length].
    destruct (d !! k); cbn; [f_equal; lia | reflexivity].
  - apply Forall_cons in Hall as [[n Hn] Hall].
    cbn [contar_estrellas]. rewrite (contar_estrella_ok _ _ _ Hn). cbn [rbind].
    destruct (IH (<[ e := n + 1 ]> d)) as (d' & Hd' & Hlook).
    { eapply Forall_impl; [exact Hall |]. intros x Hx. cbn beta.
      apply lookup_insert_is_Some'. now right. }
    exists d'. split; [exact Hd' |]. intros k. rewrite Hlook.
    cbn [List.filter]. destruct (Z.eqb_spec e k) as [-> | Hne].
    + rewrite lookup_insert_eq, Hn. cbn [fmap option_fmap option_map length].
      f_equal. lia.
    + rewrite lookup_insert_ne by exact Hne. reflexivity.
Qed.

Lemma dict_comprehension_ok {A B : Type} (f : A -> result B) (g : A -> B)
  (d : gmap Z A) :
  (forall k v, d !! k = Some v -> f v = Ok (g v)) ->
  dict_comprehension f d = Ok (g <$> d).
Proof.
  unfold dict_comprehension.
  apply (map_fold_weak_ind
           (fun r m => (forall k v, m !! k = Some v -> f v = Ok (g v)) ->
                       r = Ok (g <$> m))).
  - intros _. now rewrite fmap_empty.
  - intros i x m r Hi IH Hall.
    rewrite IH.
    + cbn [rbind]. rewrite (Hall i x) by apply lookup_insert_eq.
      cbn [rbind]. now rewrite fmap_insert.
    + intros k v Hk. apply (Hall k v).
      rewrite lookup_insert_ne; [exact Hk |]. intros ->. congruence.
Qed.

Lemma porcentaje_ok (total count : Z) :
  0 <= count <= total -> 0 < total ->
  porcentaje total count = Ok (porcentaje_redondeado total count).
Proof.
  intros Hc Ht. unfold porcentaje, porcentaje_redondeado.
  pose proof overflow_threshold_large as Hbig.
  rewrite int_truediv_ok by nia. cbn [rbind].
  unfold PyFloat.float_mul_int. rewrite float_of_int_100. reflexivity.
Qed.

Lemma py_sum_calificaciones (l : list Resena.t) :
  Forall (fun r => resena_row_ok r = true) l ->
  0 <= py_sum (List.map Resena.calificacion l) <= 5 * Z.of_nat (length l).
Proof.
  induction 1 as [|r l Hr _ IH]; [cbn; lia |].
  cbn [List.map length]. rewrite py_sum_cons.
  unfold resena_row_ok in Hr. rewrite !andb_true_iff in Hr.
  destruct Hr as [[H1 H5] _]. apply Z.leb_le in H1, H5. lia.
Qed.

Lemma filter_map_calificacion (k : Z) (l : list Resena.t) :
  Z.of_nat (length (List.filter (fun e => e =? k)
                                (List.map Resena.calificacion l)))
  = resenas_con k l.
Proof.
  unfold resenas_con. induction l as [|r l IH]; [reflexivity |].
  cbn [List.map List.filter].
  destruct (Resena.calificacion r =? k); cbn [length]; lia.
Qed.

Lemma resenas_con_le (k : Z) (l : list Resena.t) :
  0 <= resenas_con k l <= Z.of_nat (length l).
Proof.
  unfold resenas_con. pose proof (List.filter_length_le
    (fun r => Resena.calificacion r =? k) l). lia.
Qed.

Lemma distribucion_cero_lookup (k : Z) :
  distribucion_cero !! k =
  if (1 <=? k) && (k <=? 5) then Some 0 else None.
Proof.
  destruct (Z.leb_spec 1 k); destruct (Z.leb_spec k 5); cbn [andb].
  - assert (Hk : k = 1 \/ k = 2 \/ k = 3 \/ k = 4 \/ k = 5) by lia.
    destruct Hk as [-> | [-> | [-> | [-> | ->]]]]; reflexivity.
  - unfold distribucion_cero. rewrite !lookup_insert_ne by lia.
    apply lookup_singleton_ne. lia.
  - unfold distribucion_cero. rewrite !lookup_insert_ne by lia.
    apply lookup_singleton_ne. lia.
  - lia.
Qed.

(** C9, as the spec states it, fails: for a product without reviews the
    dictionary returned has no percentages. *)
Lemma estadisticas_sin_resenas_sin_porcentajes :
  ~ (exists (e : Estadisticas.t) (p : gmap Z float),
        obtener_estadisticas_producto db_carrito_vacio 1 = Ok e
        /\ Estadisticas.porcentajes e = Some p).
Proof.
  intros (e & p & He & Hp). vm_compute in He. injection He as <-.
  discriminate Hp.
Qed.

(** C9, amended: when the stored reviews satisfy the constraints of
    their table, [obtener_estadisticas_producto] returns without an
    exception for every product.  The distribution has exactly the keys
    1 to 5, each with the number of reviews of that rating.  With no
    review the result is total 0, average 0.0, the all-zero distribution
    and no percentages.  With at least one review it is the number of
    reviews, the mean rating rounded to one decimal, the distribution,
    and for each key the share of the total times 100 rounded to one
    decimal. *)
Theorem obtener_estadisticas_producto_spec (db : DB) (producto_id : Z) :
  Forall (fun r => resena_row_ok r = true) (resenas db) ->
  let l := List.filter (fun r => Resena.producto_id r =? producto_id)
                       (resenas db) in
  let total := Z.of_nat (length l) in
  exists dist : gmap Z Z,
    (forall k : Z,
        dist !! k =
        if (1 <=? k) && (k <=? 5) then Some (resenas_con k l) else None)
    /\ obtener_estadisticas_producto db producto_id =
       Ok (match l with
           | [] => Estadisticas.mk 0 0 dist None
           | _ :: _ =>
               Estadisticas.mk total
                 (PyFloat.round1
                    (PyFloat.nearest_quotient
                       (py_sum (List.map Resena.calificacion l)) total))
                 dist
                 (Some (porcentaje_redondeado total <$> dist))
           end).
Proof.
  intros Htabla l total.
  assert (Hl : Forall (fun r => resena_row_ok r = true) l).
  { apply List.Forall_forall. intros r Hr. apply List.filter_In in Hr as [Hr _].
    revert r Hr. now apply List.Forall_forall. }
  unfold obtener_estadisticas_producto. fold l.
  subst total. clearbody l. destruct l as [|r l'].
  - exists distribucion_cero. split; [| reflexivity].
    intros k. rewrite distribucion_cero_lookup.
    destruct ((1 <=? k) && (k <=? 5)); reflexivity.
  - set (l := r :: l') in *. set (total := Z.of_nat (length l)).
    assert (Htotal : 0 < total).
    { unfold total, l. cbn [length]. lia. }
    pose proof (py_sum_calificaciones l Hl) as Hsuma. fold total in Hsuma.
    pose proof overflow_threshold_large as Hbig.
    rewrite int_truediv_ok by nia. cbn [rbind].
    destruct (contar_estrellas_ok (List.map Resena.calificacion l)
                distribucion_cero) as (dist & Hdist & Hlook).
    { apply List.Forall_forall. intros e He.
      apply List.in_map_iff in He as (x & <- & Hx).
      rewrite List.Forall_forall in Hl. specialize (Hl x Hx).
      unfold resena_row_ok in Hl. rewrite !andb_true_iff in Hl.
      destruct Hl as [[H1 H5] _]. rewrite distribucion_cero_lookup, H1, H5.
      cbn [andb]. eexists. reflexivity. }
    assert (Hkeys : forall k : Z,
               dist !! k =
               if (1 <=? k) && (k <=? 5) then Some (resenas_con k l) else None).
    { intros k. rewrite Hlook, distribucion_cero_lookup, filter_map_calificacion.
      destruct ((1 <=? k) && (k <=? 5)); reflexivity. }
    exists dist. split; [exact Hkeys |].
    rewrite Hdist. cbn [rbind].
    rewrite (dict_comprehension_ok _ (porcentaje_redondeado total)).
    + reflexivity.
    + intros k v Hk. rewrite Hkeys in Hk.
      destruct ((1 <=? k) && (k <=? 5)); [| discriminate Hk].
      injection Hk as <-. apply porcentaje_ok; [| exact Htotal].
      apply resenas_con_le.
Qed.

Lemma obtener_estadisticas_producto_spec_witness :
  exists dist : gmap Z Z,
    (forall k : Z,
        dist !! k =
        if (1 <=? k) && (k <=? 5)
        then Some (resenas_con k (resenas db_cuatro_resenas)) else None)
    /\ obtener_estadisticas_producto db_cuatro_resenas 1 =
       Ok (Estadisticas.mk 4
             (PyFloat.round1 (PyFloat.nearest_quotient 17 4)) dist
             (Some (porcentaje_redondeado 4 <$> dist))).
Proof.
  apply (obtener_estadisticas_producto_spec db_cuatro_resenas 1).
  repeat constructor.
Defined.

(** * Further properties of the cart functions *)

(** ** Removing one row *)

Lemma get_item_filter_eliminado (items : list CartItem.t) (pk : Z) :
  get_item (List.filter (fun it => negb (CartItem.id it =? pk)) items) pk = None.
Proof.
  unfold get_item. induction items as [|a items IH]; [reflexivity |].
  cbn [List.filter]. destruct (CartItem.id a =? pk) eqn:Ha; cbn [negb]; [exact IH |].
  cbn [List.find]. now rewrite Ha.
Qed.

Lemma get_item_filter_otro (items : list CartItem.t) (pk otro : Z) :
  otro <> pk ->
  get_item (List.filter (fun it => negb (CartItem.id it =? pk)) items) otro
  = get_item items otro.
Proof.
  intros Hne. unfold get_item. induction items as [|a items IH]; [reflexivity |].
  cbn [List.filter List.find].
  destruct (Z.eqb_spec (CartItem.id a) pk) as [Ha | Ha]; cbn [negb List.find].
  - destruct (Z.eqb_spec (CartItem.id a) otro); [congruence | exact IH].
  - destruct (CartItem.id a =? otro); [reflexivity | exact IH].
Qed.

(** X1: [eliminar_item_carrito] returns False and leaves the store as it
    is when no row has the key.  Otherwise it returns True, the key is
    gone, every other key still finds the row it found before, and a
    second call with the same key returns False without any change. *)
Theorem eliminar_item_carrito_efecto (db : DB) (item_id : Z) :
  match get_item (cart_items db) item_id with
  | None => eliminar_item_carrito db item_id = (db, false)
  | Some _ =>
      exists db' : DB,
        eliminar_item_carrito db item_id = (db', true)
        /\ get_item (cart_items db') item_id = None
        /\ (forall otro : Z, otro <> item_id ->
                             get_item (cart_items db') otro
                             = get_item (cart_items db) otro)
        /\ carts db' = carts db
        /\ eliminar_item_carrito db' item_id = (db', false)
  end.
Proof.
  unfold eliminar_item_carrito.
  destruct (get_item (cart_items db) item_id) as [it|] eqn:Hit; [| reflexivity].
  eexists. split; [reflexivity |]. cbn [cart_items carts with_cart_items].
  rewrite get_item_filter_eliminado.
  repeat split; auto using get_item_filter_otro.
Qed.

Lemma filter_todos {A : Type} (f : A -> bool) (l : list A) :
  (forall x, In x l -> f x = true) -> List.filter f l = l.
Proof.
  induction l as [|a l IH]; intros H; [reflexivity |].
  cbn [List.filter]. rewrite (H a) by now left.
  f_equal. apply IH. intros x Hx. apply H. now right.
Qed.

(** With a unique key, deleting by key takes exactly one row out. *)
Lemma filter_quita_una_fila (items : list CartItem.t) (it : CartItem.t) :
  pk_unica items -> In it items ->
  exists l1 l2 : list CartItem.t,
    items = l1 ++ it :: l2
    /\ List.filter (fun x => negb (CartItem.id x =? CartItem.id it)) items
       = l1 ++ l2.
Proof.
  intros Hpk Hin. destruct (List.in_split _ _ Hin) as (l1 & l2 & ->).
  exists l1, l2. split; [reflexivity |].
  assert (Hotros : forall x, In x (l1 ++ l2) ->
                             negb (CartItem.id x =? CartItem.id it) = true).
  { intros x Hx. apply negb_true_iff.
    destruct (Z.eqb_spec (CartItem.id x) (CartItem.id it)) as [Heq |];
      [| reflexivity].
    exfalso. unfold pk_unica in Hpk. rewrite List.map_app in Hpk.
    cbn [List.map] in Hpk. apply List.NoDup_remove_2 in Hpk.
    apply Hpk. rewrite <- List.map_app, <- Heq. now apply List.in_map. }
  rewrite List.filter_app. cbn [List.filter]. rewrite Z.eqb_refl. cbn [negb].
  rewrite <- List.filter_app. now apply filter_todos.
Qed.

Lemma subtotal_centavos_app (l1 l2 : list CartItem.t) :
  subtotal_centavos (l1 ++ l2) = subtotal_centavos l1 + subtotal_centavos l2.
Proof.
  induction l1 as [|a l1 IH]; cbn [app subtotal_centavos]; [reflexivity | lia].
Qed.

Lemma total_unidades_app (l1 l2 : list CartItem.t) :
  total_unidades (l1 ++ l2) = total_unidades l1 + total_unidades l2.
Proof.
  induction l1 as [|a l1 IH]; cbn [app total_unidades]; [reflexivity | lia].
Qed.

(** X2: with a unique primary key, deleting a row lowers the subtotal of
    its cart by the row's quantity times its unit price and the number
    of units by its quantity; the rows of every other cart are the same
    as before. *)
Theorem eliminar_item_carrito_totales (db : DB) (it : CartItem.t) :
  pk_unica (cart_items db) -> In it (cart_items db) ->
  let db' := fst (eliminar_item_carrito db (CartItem.id it)) in
  let c := CartItem.cart_id it in
  subtotal_centavos (items_of (cart_items db') c)
  = subtotal_centavos (items_of (cart_items db) c)
    - CartItem.cantidad it * CartItem.precio_unitario it
  /\ total_unidades (items_of (cart_items db') c)
     = total_unidades (items_of (cart_items db) c) - CartItem.cantidad it
  /\ forall c' : Z, c' <> c ->
                    items_of (cart_items db') c' = items_of (cart_items db) c'.
Proof.
  intros Hpk Hin db' c. subst db'. unfold eliminar_item_carrito.
  rewrite (get_item_in _ _ Hpk Hin). cbn [fst cart_items with_cart_items].
  destruct (filter_quita_una_fila _ _ Hpk Hin) as (l1 & l2 & Hitems & ->).
  rewrite Hitems, !items_of_app.
  assert (Hit : items_of (it :: l2) c = it :: items_of l2 c).
  { unfold items_of, c. cbn [List.filter]. now rewrite Z.eqb_refl. }
  rewrite Hit, !subtotal_centavos_app, !total_unidades_app.
  cbn [subtotal_centavos total_unidades].
  repeat split; try lia.
  intros c' Hc'. rewrite !items_of_app. f_equal.
  unfold items_of. cbn [List.filter].
  destruct (Z.eqb_spec (CartItem.cart_id it) c'); [| reflexivity].
  unfold c in *. congruence.
Qed.

Lemma eliminar_item_carrito_totales_witness :
  subtotal_centavos
    (items_of (cart_items (fst (eliminar_item_carrito db_dos_carritos 3))) 2)
  = 15000.
Proof.
  pose proof (eliminar_item_carrito_totales db_dos_carritos
                (CartItem.mk 3 2 2 1 2000)) as H.
  destruct H as (Hsub & _ & _).
  - unfold pk_unica. vm_compute. repeat constructor; cbn; intuition discriminate.
  - vm_compute. auto.
  - cbv zeta in Hsub. cbn [CartItem.id CartItem.cart_id] in Hsub.
    rewrite Hsub. reflexivity.
Defined.

(** ** Emptying a cart *)

Lemma items_of_vaciado (items : list CartItem.t) (cart_id : Z) :
  items_of (List.filter (fun it => negb (CartItem.cart_id it =? cart_id)) items)
           cart_id = [].
Proof.
  unfold items_of. induction items as [|a l IH]; [reflexivity |].
  cbn [List.filter]. destruct (CartItem.cart_id a =? cart_id) eqn:Ha;
    cbn [negb List.filter]; [exact IH |]. now rewrite Ha.
Qed.

Lemma items_of_vaciado_otro (items : list CartItem.t) (cart_id otro : Z) :
  otro <> cart_id ->
  items_of (List.filter (fun it => negb (CartItem.cart_id it =? cart_id)) items)
           otro = items_of items otro.
Proof.
  intros Hotro. unfold items_of. induction items as [|a l IH]; [reflexivity |].
  cbn [List.filter].
  destruct (Z.eqb_spec (CartItem.cart_id a) cart_id) as [Ha | Ha];
    cbn [negb List.filter].
  - destruct (Z.eqb_spec (CartItem.cart_id a) otro); [congruence | exact IH].
  - destruct (CartItem.cart_id a =? otro); [now rewrite IH | exact IH].
Qed.

(** X3: [vaciar_carrito] returns False without a change when the cart
    does not exist.  When it exists, the call returns True, the cart
    has no rows left, the rows of every other cart are those it had,
    and the cart itself stays in its table. *)
Theorem vaciar_carrito_efecto (db : DB) (cart_id : Z) :
  match get_cart db cart_id with
  | None => vaciar_carrito db cart_id = (db, false)
  | Some cart =>
      exists db' : DB,
        vaciar_carrito db cart_id = (db', true)
        /\ items_of (cart_items db') cart_id = []
        /\ (forall otro : Z, otro <> cart_id ->
                             items_of (cart_items db') otro
                             = items_of (cart_items db) otro)
        /\ get_cart db' cart_id = Some cart
  end.
Proof.
  unfold vaciar_carrito.
  destruct (get_cart db cart_id) as [cart|] eqn:Hcart; [| reflexivity].
  eexists. split; [reflexivity |]. cbn [cart_items with_cart_items].
  split; [apply items_of_vaciado |].
  split; [| exact Hcart]. intros otro Hotro. now apply items_of_vaciado_otro.
Qed.

(** X4: a cart that exists and has no rows is charged the flat shipping
    fee: its totals are subtotal 0.0, tax 0.0, shipping 15.0 and total
    15.0, with no units and no free shipping.  In particular these are
    the totals of any existing cart right after [vaciar_carrito]. *)
Theorem totales_de_carrito_sin_filas (db : DB) (cart_id : Z) (cart : Cart.t) :
  get_cart db cart_id = Some cart ->
  let sin_filas :=
    Totales.mk (PFloat 0) (PFloat 0) (PFloat 15) (PFloat 15) 0 false in
  (items_of (cart_items db) cart_id = [] ->
   calcular_totales_carrito db cart_id = sin_filas)
  /\ calcular_totales_carrito (fst (vaciar_carrito db cart_id)) cart_id
     = sin_filas.
Proof.
  intros Hcart sin_filas.
  assert (Hvacio : forall d, get_cart d cart_id = Some cart ->
                             items_of (cart_items d) cart_id = [] ->
                             calcular_totales_carrito d cart_id = sin_filas).
  { intros d Hd Hitems. unfold calcular_totales_carrito. rewrite Hd.
    rewrite (get_cart_id _ _ _ Hd), Hitems. vm_compute. reflexivity. }
  split; [now apply Hvacio |].
  unfold vaciar_carrito. rewrite Hcart. cbn [fst].
  apply Hvacio; [exact Hcart |]. cbn [cart_items with_cart_items].
  apply items_of_vaciado.
Qed.

Lemma totales_de_carrito_sin_filas_witness :
  calcular_totales_carrito (fst (vaciar_carrito db_dos_carritos 1)) 1
  = Totales.mk (PFloat 0) (PFloat 0) (PFloat 15) (PFloat 15) 0 false.
Proof.
  apply (totales_de_carrito_sin_filas db_dos_carritos 1
           (Cart.mk 1 (Some 7) None true)).
  reflexivity.
Defined.

(** ** Changing a quantity *)

Lemma get_item_id (items : list CartItem.t) (pk : Z) (it : CartItem.t) :
  get_item items pk = Some it -> In it items /\ CartItem.id it = pk.
Proof.
  unfold get_item. intros H. apply List.find_some in H as [Hin Hid].
  now apply Z.eqb_eq in Hid.
Qed.

Lemma get_item_set_cantidad (items : list CartItem.t) (pk n otro : Z) :
  get_item (set_cantidad items pk n) otro
  = option_map (fun it => if CartItem.id it =? pk then con_cantidad it n else it)
               (get_item items otro).
Proof.
  unfold set_cantidad. apply get_item_map. intros r.
  now destruct (CartItem.id r =? pk).
Qed.

(** X5: what [actualizar_cantidad_item] does to a row that exists.  A
    quantity of zero or less, or above the stock of the row's product,
    returns None and changes nothing; a row whose product is gone makes
    the call raise [AttributeError].  A quantity within 1..stock
    replaces the quantity of the row (it is not added to it) and keeps
    the unit price recorded in the row, whatever the product's current
    price is; every other row is untouched. *)
Theorem actualizar_cantidad_item_efecto (db : DB) (item_id cantidad : Z)
  (item : CartItem.t) :
  get_item (cart_items db) item_id = Some item ->
  (cantidad <= 0 -> actualizar_cantidad_item db item_id cantidad = Ok (db, None))
  /\ (0 < cantidad -> get_producto db (CartItem.producto_id item) = None ->
      actualizar_cantidad_item db item_id cantidad = Raise AttributeError)
  /\ (forall producto : Producto.t,
         get_producto db (CartItem.producto_id item) = Some producto ->
         (Producto.stock producto < cantidad ->
          actualizar_cantidad_item db item_id cantidad = Ok (db, None))
         /\ (0 < cantidad <= Producto.stock producto ->
             cart_item_row_ok item = true -> cantidad <= INTEGER_MAX ->
             exists (db' : DB) (item' : CartItem.t),
               actualizar_cantidad_item db item_id cantidad = Ok (db', Some item')
               /\ get_item (cart_items db') item_id = Some item'
               /\ CartItem.cantidad item' = cantidad
               /\ CartItem.precio_unitario item' = CartItem.precio_unitario item
               /\ CartItem.cart_id item' = CartItem.cart_id item
               /\ CartItem.producto_id item' = CartItem.producto_id item
               /\ (forall otro : Z, otro <> item_id ->
                                    get_item (cart_items db') otro
                                    = get_item (cart_items db) otro))).
Proof.
  intros Hitem. pose proof (get_item_id _ _ _ Hitem) as [Hin Hid].
  unfold actualizar_cantidad_item. rewrite Hitem.
  split; [| split].
  - intros Hq. destruct (Z.leb_spec cantidad 0); [reflexivity | lia].
  - intros Hq Hprod. destruct (Z.leb_spec cantidad 0); [lia |]. now rewrite Hprod.
  - intros producto Hprod. rewrite Hprod. split.
    + intros Hstock. destruct (Z.leb_spec cantidad 0); [reflexivity |].
      destruct (Z.ltb_spec (Producto.stock producto) cantidad); [reflexivity | lia].
    + intros Hq Hrow Hmax.
      destruct (Z.leb_spec cantidad 0); [lia |].
      destruct (Z.ltb_spec (Producto.stock producto) cantidad); [lia |].
      assert (Hrow' : cart_item_row_ok (con_cantidad item cantidad) = true).
      { unfold cart_item_row_ok in *.
        cbn [con_cantidad CartItem.cantidad CartItem.precio_unitario].
        pruebas_bool. lia. }
      rewrite Hrow'. eexists _, _. split; [reflexivity |].
      cbn [cart_items with_cart_items].
      split; [| repeat split].
      * rewrite get_item_set_cantidad, Hitem. cbn [option_map].
        now rewrite Hid, Z.eqb_refl.
      * intros otro Hotro. rewrite get_item_set_cantidad.
        destruct (get_item (cart_items db) otro) as [r|] eqn:Hr; [| reflexivity].
        apply get_item_id in Hr as [_ Hrid]. cbn [option_map].
        destruct (Z.eqb_spec (CartItem.id r) item_id); [congruence | reflexivity].
Qed.

Lemma actualizar_cantidad_item_efecto_witness :
  exists (db' : DB) (item' : CartItem.t),
    actualizar_cantidad_item db_carrito_tres_unidades 1 7 = Ok (db', Some item')
    /\ CartItem.cantidad item' = 7
    /\ CartItem.precio_unitario item' = 5000.
Proof.
  destruct (proj2 (proj2 (actualizar_cantidad_item_efecto
                            db_carrito_tres_unidades 1 7
                            (CartItem.mk 1 1 1 3 5000) eq_refl))
              (Producto.mk 1 true 10 5000) eq_refl)
    as [_ H].
  destruct H as (db' & item' & Hact & _ & Hq & Hp & _).
  - cbn. lia.
  - reflexivity.
  - unfold INTEGER_MAX. lia.
  - exists db', item'. repeat split; [exact Hact | exact Hq | exact Hp].
Defined.

(** ** The invariants of the table are kept *)

Lemma NoDup_snoc {A : Type} (l : list A) (x : A) :
  List.NoDup l -> ~ In x l -> List.NoDup (l ++ [x]).
Proof.
  induction l as [|a l IH]; intros Hnd Hx; cbn [app].
  - constructor; [intros [] | constructor].
  - apply List.NoDup_cons_iff in Hnd as [Ha Hnd]. constructor.
    + intros Hin. apply List.in_app_or in Hin as [Hin | [-> | []]]; [auto |].
      apply Hx. now left.
    + apply IH; [exact Hnd |]. intros Hin. apply Hx. now right.
Qed.

Lemma pk_unica_filter (f : CartItem.t -> bool) (items : list CartItem.t) :
  pk_unica items -> pk_unica (List.filter f items).
Proof.
  unfold pk_unica. induction items as [|a items IH]; intros Hnd; [constructor |].
  cbn [List.map] in Hnd. apply List.NoDup_cons_iff in Hnd as [Hnotin Hnd].
  cbn [List.filter]. destruct (f a); [| auto].
  cbn [List.map]. constructor; [| auto].
  intros Hin. apply Hnotin. apply List.in_map_iff in Hin as (x & Hx & Hin).
  apply List.filter_In in Hin as [Hin _]. rewrite <- Hx. now apply List.in_map.
Qed.

Lemma bien_formados_filter (db : DB) (f : CartItem.t -> bool) :
  items_bien_formados db ->
  items_bien_formados
    (with_cart_items db (List.filter f (cart_items db)) (cart_items_id_seq db)).
Proof.
  intros (Hpk & Hseq & Huna & Hok).
  unfold items_bien_formados, seq_por_delante.
  cbn [cart_items cart_items_id_seq with_cart_items].
  split; [now apply pk_unica_filter |]. split; [| split].
  - intros r Hr. apply List.filter_In in Hr as [Hr _]. now apply Hseq.
  - intros c r1 r2 H1 H2. apply List.filter_In in H1 as [H1 _].
    apply List.filter_In in H2 as [H2 _]. now apply Huna.
  - apply List.Forall_forall. intros r Hr. apply List.filter_In in Hr as [Hr _].
    rewrite List.Forall_forall in Hok. now apply Hok.
Qed.

Lemma bien_formados_secuencia (db : DB) :
  items_bien_formados db ->
  items_bien_formados
    (with_cart_items db (cart_items db) (cart_items_id_seq db + 1)).
Proof.
  intros (Hpk & Hseq & Huna & Hok).
  unfold items_bien_formados, seq_por_delante.
  cbn [cart_items cart_items_id_seq with_cart_items].
  repeat split; auto. intros r Hr. specialize (Hseq r Hr). lia.
Qed.

Lemma bien_formados_set_cantidad (db : DB) (e : CartItem.t) (n : Z) :
  items_bien_formados db -> In e (cart_items db) ->
  cart_item_row_ok (con_cantidad e n) = true ->
  items_bien_formados
    (with_cart_items db (set_cantidad (cart_items db) (CartItem.id e) n)
                     (cart_items_id_seq db)).
Proof.
  intros (Hpk & Hseq & Huna & Hok) He Hrow.
  unfold items_bien_formados, seq_por_delante, set_cantidad.
  cbn [cart_items cart_items_id_seq with_cart_items].
  assert (Hcampos : forall r,
             let r' := if CartItem.id r =? CartItem.id e
                       then con_cantidad r n else r in
             CartItem.id r' = CartItem.id r
             /\ CartItem.cart_id r' = CartItem.cart_id r
             /\ CartItem.producto_id r' = CartItem.producto_id r).
  { intros r. cbv zeta. now destruct (CartItem.id r =? CartItem.id e). }
  split; [| split; [| split]].
  - apply pk_unica_map; [| exact Hpk]. intros r. apply Hcampos.
  - intros r' Hr'. apply List.in_map_iff in Hr' as (r & <- & Hr).
    destruct (Hcampos r) as [-> _]. now apply Hseq.
  - intros c. apply una_fila_por_producto_map; [| apply Huna].
    intros r. apply Hcampos.
  - apply List.Forall_forall. intros r' Hr'.
    apply List.in_map_iff in Hr' as (r & <- & Hr).
    rewrite List.Forall_forall in Hok.
    destruct (Z.eqb_spec (CartItem.id r) (CartItem.id e)) as [Hid |];
      [| now apply Hok].
    assert (r = e) by now apply (pk_unica_inj (cart_items db)). now subst r.
Qed.

Lemma bien_formados_fila_nueva (db : DB) (c p q precio : Z) :
  items_bien_formados db ->
  first_item (cart_items db) c p = None ->
  let nueva := CartItem.mk (cart_items_id_seq db) c p q precio in
  cart_item_row_ok nueva = true ->
  items_bien_formados
    (with_cart_items db (cart_items db ++ [nueva]) (cart_items_id_seq db + 1)).
Proof.
  intros (Hpk & Hseq & Huna & Hok) Hnone nueva Hrow.
  unfold items_bien_formados, seq_por_delante.
  cbn [cart_items cart_items_id_seq with_cart_items].
  split; [| split; [| split]].
  - unfold pk_unica. rewrite List.map_app. cbn [List.map].
    apply NoDup_snoc; [exact Hpk |]. intros Hin.
    apply List.in_map_iff in Hin as (r & Hid & Hr).
    specialize (Hseq r Hr). cbn [nueva CartItem.id] in Hid. lia.
  - intros r Hr. apply List.in_app_or in Hr as [Hr | [<- | []]].
    + specialize (Hseq r Hr). lia.
    + cbn [nueva CartItem.id]. lia.
  - intros c' r1 r2 H1 H2 Hc1 Hc2 Hp.
    apply List.in_app_or in H1 as [H1 | [<- | []]];
      apply List.in_app_or in H2 as [H2 | [<- | []]].
    + now apply (Huna c').
    + exfalso. cbn [nueva CartItem.cart_id CartItem.producto_id] in Hc2, Hp.
      apply (first_item_not_none (cart_items db) c p r1 H1); congruence.
    + exfalso. cbn [nueva CartItem.cart_id CartItem.producto_id] in Hc1, Hp.
      apply (first_item_not_none (cart_items db) c p r2 H2); congruence.
    + reflexivity.
  - apply List.Forall_app. split; [exact Hok |]. now constructor.
Qed.

(** X6: the cart functions keep the invariants of [cart_items] (unique
    primary key below the sequence, one row per product in every cart,
    column constraints satisfied): whatever its arguments and outcome,
    each of [agregar_item_carrito], [actualizar_cantidad_item],
    [eliminar_item_carrito] and [vaciar_carrito] leaves a store that
    has them when it started from one. *)
Theorem operaciones_conservan_invariantes (db : DB) :
  items_bien_formados db ->
  (forall cart_id producto_id cantidad : Z,
      items_bien_formados
        (fst (agregar_item_carrito db cart_id producto_id cantidad)))
  /\ (forall (item_id cantidad : Z) (r : DB * option CartItem.t),
         actualizar_cantidad_item db item_id cantidad = Ok r ->
         items_bien_formados (fst r))
  /\ (forall item_id : Z,
         items_bien_formados (fst (eliminar_item_carrito db item_id)))
  /\ (forall cart_id : Z,
         items_bien_formados (fst (vaciar_carrito db cart_id))).
Proof.
  intros Hbf. split; [| split; [| split]].
  - intros cart_id producto_id cantidad. unfold agregar_item_carrito.
    destruct (get_cart db cart_id); [| exact Hbf].
    destruct (get_producto db producto_id) as [producto|]; [| exact Hbf].
    destruct (negb (Producto.activo producto)); [exact Hbf |].
    destruct (Producto.stock producto <? cantidad); [exact Hbf |].
    destruct (first_item (cart_items db) cart_id producto_id) as [e|] eqn:He.
    + destruct (Producto.stock producto <? CartItem.cantidad e + cantidad);
        [exact Hbf |].
      destruct (cart_item_row_ok _) eqn:Hrow; [| exact Hbf].
      cbn [fst]. apply bien_formados_set_cantidad; auto.
      now apply first_item_some in He.
    + destruct (cart_item_row_ok _) eqn:Hrow; cbn [fst].
      * now apply bien_formados_fila_nueva.
      * now apply bien_formados_secuencia.
  - intros item_id cantidad r. unfold actualizar_cantidad_item.
    destruct (get_item (cart_items db) item_id) as [it|] eqn:Hit;
      [| now intros [= <-]].
    destruct (cantidad <=? 0); [now intros [= <-] |].
    destruct (get_producto db (CartItem.producto_id it)) as [p|];
      [| discriminate].
    destruct (Producto.stock p <? cantidad); [now intros [= <-] |].
    destruct (cart_item_row_ok _) eqn:Hrow; [| now intros [= <-]].
    intros [= <-]. cbn [fst]. apply get_item_id in Hit as [Hin <-].
    now apply bien_formados_set_cantidad.
  - intros item_id. unfold eliminar_item_carrito.
    destruct (get_item (cart_items db) item_id); [| exact Hbf].
    cbn [fst]. now apply bien_formados_filter.
  - intros cart_id. unfold vaciar_carrito.
    destruct (get_cart db cart_id); [| exact Hbf].
    cbn [fst]. now apply bien_formados_filter.
Qed.

Lemma items_bien_formados_dos_carritos : items_bien_formados db_dos_carritos.
Proof.
  repeat split.
  - unfold pk_unica. vm_compute. repeat constructor; cbn; intuition discriminate.
  - intros r Hr. cada_fila Hr; reflexivity.
  - intros c r1 r2 H1 H2 Hc1 Hc2 Hp. subst c.
    cada_fila H1; cada_fila H2; try reflexivity; try discriminate Hc2;
      discriminate Hp.
  - repeat constructor.
Defined.

Lemma operaciones_conservan_invariantes_witness :
  items_bien_formados (fst (agregar_item_carrito db_dos_carritos 1 2 1))
  /\ items_bien_formados (fst (vaciar_carrito db_dos_carritos 2)).
Proof.
  pose proof (operaciones_conservan_invariantes db_dos_carritos
                items_bien_formados_dos_carritos) as (Hagregar & _ & _ & Hvaciar).
  split; [apply Hagregar | apply Hvaciar].
Defined.

(** ** Looking up or creating, twice *)

(** X7: once [obtener_o_crear_carrito] has returned a cart, calling it
    again with the same identifiers returns that same cart and writes
    nothing.  The cart returned is active, is stored, carries the user
    id when one was given and the session id otherwise, and the first
    call added at most one cart. *)
Theorem obtener_o_crear_carrito_idempotente (db db1 : DB)
  (usuario_id : option Z) (session_id : option str) (c : Cart.t) :
  obtener_o_crear_carrito db usuario_id session_id = (db1, Some c) ->
  obtener_o_crear_carrito db1 usuario_id session_id = (db1, Some c)
  /\ Cart.activo c = true
  /\ (if truthy_int usuario_id
      then Cart.usuario_id c = usuario_id
      else Cart.session_id c = session_id)
  /\ In c (carts db1)
  /\ (length (carts db1) <= length (carts db) + 1)%nat.
Proof.
  unfold obtener_o_crear_carrito.
  destruct (negb (truthy_int usuario_id) && negb (truthy_str session_id));
    [discriminate |].
  set (query := fun c0 : Cart.t =>
                  Cart.activo c0
                  && (if truthy_int usuario_id
                      then bool_decide (Cart.usuario_id c0 = usuario_id)
                      else bool_decide (Cart.session_id c0 = session_id))).
  assert (Hquery : forall x, query x = true ->
                             Cart.activo x = true
                             /\ (if truthy_int usuario_id
                                 then Cart.usuario_id x = usuario_id
                                 else Cart.session_id x = session_id)).
  { intros x Hx. unfold query in Hx. apply andb_true_iff in Hx as [Ha Hb].
    split; [exact Ha |].
    destruct (truthy_int usuario_id); now apply bool_decide_eq_true in Hb. }
  destruct (List.find query (carts db)) as [x|] eqn:Hfind.
  - intros [= <- <-]. rewrite Hfind.
    apply List.find_some in Hfind as [Hin Hx]. destruct (Hquery x Hx).
    repeat split; auto. lia.
  - unfold insert_cart. destruct (cart_row_ok db _);
      [| now destruct (match Cart.session_id _ with Some _ => _ | None => _ end)].
    intros [= <- <-]. cbn [carts with_carts].
    set (nuevo := Cart.mk (carts_id_seq db) usuario_id session_id true).
    assert (Hnuevo : query nuevo = true).
    { unfold query, nuevo. cbn [Cart.activo Cart.usuario_id Cart.session_id andb].
      destruct (truthy_int usuario_id); now apply bool_decide_eq_true. }
    rewrite (find_app_new _ _ _ Hfind Hnuevo).
    destruct (Hquery nuevo Hnuevo).
    repeat split; auto.
    + apply List.in_or_app. right. now left.
    + rewrite List.length_app. cbn [length]. lia.
Qed.

Lemma obtener_o_crear_carrito_idempotente_witness :
  exists (db1 : DB) (c : Cart.t),
    obtener_o_crear_carrito db_dos_carritos None (Some (of_string "otra-sesion"))
    = (db1, Some c)
    /\ obtener_o_crear_carrito db1 None (Some (of_string "otra-sesion"))
       = (db1, Some c)
    /\ Cart.id c = 3.
Proof.
  eexists _, _. split; [reflexivity |].
  split; [| reflexivity].
  apply (obtener_o_crear_carrito_idempotente db_dos_carritos).
  reflexivity.
Defined.

(** ** Adding, then deleting *)

Lemma filter_map_misma_clave (h : CartItem.t -> CartItem.t)
  (items : list CartItem.t) (pk : Z) :
  (forall r, CartItem.id (h r) = CartItem.id r) ->
  List.filter (fun it => negb (CartItem.id it =? pk))
              (List.map (fun it => if CartItem.id it =? pk then h it else it)
                        items)
  = List.filter (fun it => negb (CartItem.id it =? pk)) items.
Proof.
  intros Hh. induction items as [|a items IH]; [reflexivity |].
  cbn [List.map List.filter].
  destruct (Z.eqb_spec (CartItem.id a) pk) as [Ha | Ha].
  - rewrite Hh. destruct (Z.eqb_spec (CartItem.id a) pk); [| contradiction].
    cbn [negb]. exact IH.
  - destruct (Z.eqb_spec (CartItem.id a) pk); [contradiction |].
    cbn [negb]. now rewrite IH.
Qed.

Lemma get_item_some_in (items : list CartItem.t) (r : CartItem.t) :
  In r items -> is_Some (get_item items (CartItem.id r)).
Proof.
  intros Hin. unfold get_item.
  destruct (List.find _ items) eqn:Hfind; [eauto |].
  pose proof (List.find_none _ _ Hfind r Hin) as Hno. cbn beta in Hno.
  now rewrite Z.eqb_refl in Hno.
Qed.

(** X8: deleting the item that [agregar_item_carrito] has just returned
    undoes the call only when the product was not yet in the cart: the
    rows are then those of before.  When the cart already had a row for
    the product, the call added to that row and returned it, so the
    deletion takes away the whole row, the units held before included:
    the rows left are those that deleting the old row from the original
    store would have left.  (Stored keys are below the sequence.) *)
Theorem agregar_item_carrito_eliminar_item_carrito (db db1 : DB)
  (cart_id producto_id cantidad : Z) (item : CartItem.t) :
  seq_por_delante db ->
  agregar_item_carrito db cart_id producto_id cantidad = (db1, Some item) ->
  exists db2 : DB,
    eliminar_item_carrito db1 (CartItem.id item) = (db2, true)
    /\ get_item (cart_items db2) (CartItem.id item) = None
    /\ match first_item (cart_items db) cart_id producto_id with
       | None => cart_items db2 = cart_items db
       | Some existente =>
           CartItem.id item = CartItem.id existente
           /\ cart_items db2
              = cart_items (fst (eliminar_item_carrito db (CartItem.id existente)))
       end.
Proof.
  intros Hseq Hagregar.
  destruct (agregar_item_carrito_ok _ _ _ _ _ _ Hagregar)
    as (producto & _ & _ & _ & _ & Hcaso).
  unfold eliminar_item_carrito.
  destruct (first_item (cart_items db) cart_id producto_id) as [e|] eqn:He.
  - destruct Hcaso as [Hitem ->].
    apply first_item_some in He as (He_in & _ & _).
    assert (Hid : CartItem.id item = CartItem.id e) by now rewrite Hitem.
    cbn [cart_items cart_items_id_seq with_cart_items]. rewrite Hid.
    destruct (get_item_some_in (cart_items db) e He_in) as [x Hx]. rewrite Hx.
    assert (Hx' : is_Some (get_item (set_cantidad (cart_items db) (CartItem.id e)
                                       (CartItem.cantidad e + cantidad))
                                    (CartItem.id e))).
    { unfold set_cantidad.
      rewrite get_item_map by (intros r; now destruct (_ =? _)).
      rewrite Hx. cbn. eauto. }
    destruct Hx' as [y ->].
    eexists. split; [reflexivity |].
    cbn [fst cart_items with_cart_items]. unfold set_cantidad.
    rewrite (filter_map_misma_clave
               (fun it => con_cantidad it (CartItem.cantidad e + cantidad)))
      by reflexivity.
    split; [apply get_item_filter_eliminado |]. split; reflexivity.
  - destruct Hcaso as [Hitem ->].
    assert (Hid : CartItem.id item = cart_items_id_seq db) by now rewrite Hitem.
    assert (Hfresca : forall x, In x (cart_items db) ->
                                negb (CartItem.id x =? CartItem.id item) = true).
    { intros x Hx. specialize (Hseq x Hx). apply negb_true_iff.
      apply Z.eqb_neq. lia. }
    cbn [cart_items cart_items_id_seq with_cart_items].
    destruct (get_item_some_in (cart_items db ++ [item]) item) as [y ->].
    { apply List.in_or_app. right. now left. }
    eexists. split; [reflexivity |].
    cbn [cart_items with_cart_items].
    rewrite List.filter_app. cbn [List.filter]. rewrite Z.eqb_refl.
    cbn [negb]. rewrite app_nil_r, (filter_todos _ _ Hfresca).
    split; [| reflexivity].
    apply eq_None_not_Some. intros [z Hz].
    apply get_item_id in Hz as [Hz_in Hz_id].
    specialize (Hseq z Hz_in). lia.
Qed.

Lemma agregar_item_carrito_eliminar_item_carrito_witness :
  exists db2 : DB,
    eliminar_item_carrito
      (fst (agregar_item_carrito db_dos_carritos 1 1 1)) 1 = (db2, true)
    /\ get_item (cart_items db2) 1 = None
    /\ CartItem.id (CartItem.mk 1 1 1 5 5000) = 1
    /\ cart_items db2
       = cart_items (fst (eliminar_item_carrito db_dos_carritos 1)).
Proof.
  apply (agregar_item_carrito_eliminar_item_carrito db_dos_carritos _ 1 1 1
           (CartItem.mk 1 1 1 5 5000)).
  - apply items_bien_formados_dos_carritos.
  - reflexivity.
Defined.

(** ** Migrating twice *)

Lemma carrito_de_usuario_carts (db db1 : DB) (usuario_id : Z) (uc : Cart.t) :
  carrito_de_usuario db usuario_id = (db1, Some uc) ->
  cart_items db1 = cart_items db
  /\ (carts db1 = carts db
      \/ carts db1 = carts db ++ [Cart.mk (carts_id_seq db) (Some usuario_id)
                                          None true]).
Proof.
  unfold carrito_de_usuario, insert_cart. intros H.
  destruct (List.find _ (carts db)).
  - injection H as <- _. auto.
  - destruct (cart_row_ok db _); [| discriminate H].
    injection H as <- _. cbn. auto.
Qed.

(** X9: when each session id has at most one active cart, a migration
    that succeeds is not repeated: the same call on the store it left
    returns success and changes nothing. *)
Theorem migrar_carrito_idempotente (db db' : DB) (session_id : str)
  (usuario_id : Z) :
  (forall x y : Cart.t,
      In x (carts db) -> In y (carts db) ->
      Cart.session_id x = Some session_id ->
      Cart.session_id y = Some session_id ->
      Cart.activo x = true -> Cart.activo y = true ->
      Cart.id x = Cart.id y) ->
  migrar_carrito_sesion_a_usuario db session_id usuario_id = (db', true) ->
  migrar_carrito_sesion_a_usuario db' session_id usuario_id = (db', true).
Proof.
  intros Huna Hmigrar. unfold migrar_carrito_sesion_a_usuario in Hmigrar.
  set (de_sesion := fun c : Cart.t =>
                      bool_decide (Cart.session_id c = Some session_id)
                      && Cart.activo c) in *.
  destruct (List.find de_sesion (carts db)) as [sc|] eqn:Hsc.
  - destruct (Z.of_nat (length (items_of (cart_items db) (Cart.id sc))) =? 0)
      eqn:Hlen.
    + injection Hmigrar as <-. unfold migrar_carrito_sesion_a_usuario.
      fold de_sesion. now rewrite Hsc, Hlen.
    + destruct (carrito_de_usuario db usuario_id) as [db1 [uc|]] eqn:Huc;
        [| discriminate Hmigrar].
      destruct (forallb cart_item_row_ok _); [| discriminate Hmigrar].
      injection Hmigrar as <-.
      unfold migrar_carrito_sesion_a_usuario. cbn [carts]. fold de_sesion.
      destruct (List.find de_sesion (set_activo (carts db1) (Cart.id sc) false))
        as [y|] eqn:Hy; [| reflexivity].
      exfalso. apply List.find_some in Hy as [Hyin Hy].
      apply List.find_some in Hsc as [Hscin Hscp].
      unfold de_sesion in Hy, Hscp.
      apply andb_true_iff in Hy as [Hys Hya].
      apply andb_true_iff in Hscp as [Hscs Hsca].
      apply bool_decide_eq_true in Hys, Hscs.
      unfold set_activo in Hyin. apply List.in_map_iff in Hyin as (x & Hx & Hxin).
      destruct (Z.eqb_spec (Cart.id x) (Cart.id sc)) as [Hid | Hid].
      * subst y. discriminate Hya.
      * subst y. apply Hid.
        destruct (carrito_de_usuario_carts _ _ _ _ Huc) as [_ [Hc | Hc]];
          rewrite Hc in Hxin.
        -- now apply Huna.
        -- apply List.in_app_or in Hxin as [Hxin | [<- | []]];
             [now apply Huna | discriminate Hys].
  - injection Hmigrar as <-. unfold migrar_carrito_sesion_a_usuario.
    fold de_sesion. now rewrite Hsc.
Qed.

Lemma migrar_carrito_idempotente_witness :
  let db' := fst (migrar_carrito_sesion_a_usuario db_dos_carritos
                                                   sesion_anonima 7) in
  migrar_carrito_sesion_a_usuario db' sesion_anonima 7 = (db', true).
Proof.
  apply (migrar_carrito_idempotente db_dos_carritos).
  - intros x y Hx Hy Hxs Hys _ _.
    destruct Hx as [<- | [<- | []]]; destruct Hy as [<- | [<- | []]];
      try reflexivity; try discriminate Hxs; discriminate Hys.
  - reflexivity.
Defined.

(** ** Units are neither lost nor made up *)

(** With a unique key, a write by key changes exactly one row. *)
Lemma map_una_fila (g : CartItem.t -> CartItem.t) (items : list CartItem.t)
  (it : CartItem.t) :
  pk_unica items -> In it items ->
  exists l1 l2 : list CartItem.t,
    items = l1 ++ it :: l2
    /\ List.map (fun x => if CartItem.id x =? CartItem.id it then g x else x) items
       = l1 ++ g it :: l2.
Proof.
  intros Hpk Hin. destruct (List.in_split _ _ Hin) as (l1 & l2 & ->).
  exists l1, l2. split; [reflexivity |].
  assert (Hotros : forall x, In x (l1 ++ l2) ->
                             (CartItem.id x =? CartItem.id it) = false).
  { intros x Hx.
    destruct (Z.eqb_spec (CartItem.id x) (CartItem.id it)) as [Heq |];
      [| reflexivity].
    exfalso. unfold pk_unica in Hpk. rewrite List.map_app in Hpk.
    cbn [List.map] in Hpk. apply List.NoDup_remove_2 in Hpk.
    apply Hpk. rewrite <- List.map_app, <- Heq. now apply List.in_map. }
  rewrite List.map_app. cbn [List.map]. rewrite Z.eqb_refl.
  f_equal; [| f_equal].
  - rewrite <- (List.map_id l1) at 2. apply List.map_ext_in. intros x Hx.
    rewrite Hotros; [reflexivity |]. apply List.in_or_app. now left.
  - rewrite <- (List.map_id l2) at 2. apply List.map_ext_in. intros x Hx.
    rewrite Hotros; [reflexivity |]. apply List.in_or_app. now right.
Qed.

Lemma items_of_cons (a : CartItem.t) (l : list CartItem.t) (c : Z) :
  items_of (a :: l) c
  = if CartItem.cart_id a =? c then a :: items_of l c else items_of l c.
Proof. reflexivity. Qed.

Lemma unidades_set_cantidad (cur : list CartItem.t) (e : CartItem.t) (t n : Z) :
  pk_unica cur -> In e cur -> CartItem.cart_id e = t ->
  total_unidades (items_of (set_cantidad cur (CartItem.id e) n) t)
  = total_unidades (items_of cur t) - CartItem.cantidad e + n.
Proof.
  intros Hpk He Hc. unfold set_cantidad.
  destruct (map_una_fila (fun x => con_cantidad x n) _ _ Hpk He)
    as (l1 & l2 & -> & ->).
  rewrite !items_of_app, !items_of_cons.
  cbn [con_cantidad CartItem.cart_id]. rewrite Hc, Z.eqb_refl.
  rewrite !total_unidades_app.
  cbn [total_unidades con_cantidad CartItem.cantidad]. lia.
Qed.

Lemma unidades_set_cart_id (cur : list CartItem.t) (s : CartItem.t) (t : Z) :
  pk_unica cur -> In s cur -> CartItem.cart_id s <> t ->
  total_unidades (items_of (set_cart_id cur (CartItem.id s) t) t)
  = total_unidades (items_of cur t) + CartItem.cantidad s.
Proof.
  intros Hpk Hs Hc. unfold set_cart_id.
  destruct (map_una_fila (fun x => con_cart_id x t) _ _ Hpk Hs)
    as (l1 & l2 & -> & ->).
  rewrite !items_of_app, !items_of_cons.
  cbn [con_cart_id CartItem.cart_id]. rewrite Z.eqb_refl.
  destruct (Z.eqb_spec (CartItem.cart_id s) t); [contradiction |].
  rewrite !total_unidades_app.
  cbn [total_unidades con_cart_id CartItem.cantidad]. lia.
Qed.

Lemma migrar_bucle_unidades (c t : Z) (pendientes : list CartItem.t) :
  c <> t ->
  forall cur : list CartItem.t,
    pk_unica cur ->
    (forall x, In x pendientes -> In x cur /\ CartItem.cart_id x = c) ->
    List.NoDup (List.map CartItem.id pendientes) ->
    total_unidades
      (items_of (fold_left (migrar_item t) (List.map CartItem.id pendientes) cur)
                t)
    = total_unidades (items_of cur t) + total_unidades pendientes.
Proof.
  intros Hct. induction pendientes as [|s L IH]; intros cur Hpk Hpend Hnid.
  - cbn [List.map fold_left total_unidades]. lia.
  - cbn [List.map fold_left total_unidades] in *.
    apply List.NoDup_cons_iff in Hnid as [Hnid Hnid'].
    destruct (Hpend s) as [Hs Hsc]; [now left |].
    assert (HpendL : forall x, In x L -> In x cur /\ CartItem.cart_id x = c).
    { intros x Hx. apply Hpend. now right. }
    destruct (first_item cur t (CartItem.producto_id s)) as [e|] eqn:He.
    + rewrite (migrar_item_suma t cur s e Hpk Hs He).
      pose proof (first_item_some _ _ _ _ He) as (He_in & He_c & _).
      rewrite IH; auto.
      * rewrite (unidades_set_cantidad _ _ _ _ Hpk He_in He_c). lia.
      * apply pk_unica_map; [| exact Hpk]. intros r.
        now destruct (CartItem.id r =? CartItem.id e).
      * intros x Hx. destruct (HpendL x Hx) as [Hxcur Hxc].
        split; [| exact Hxc]. unfold set_cantidad.
        apply List.in_map_iff. exists x. split; [| exact Hxcur].
        destruct (Z.eqb_spec (CartItem.id x) (CartItem.id e)) as [Hid |];
          [| reflexivity].
        assert (x = e) by now apply (pk_unica_inj cur). congruence.
    + rewrite (migrar_item_mueve t cur s Hpk Hs He).
      rewrite IH; auto.
      * rewrite (unidades_set_cart_id _ _ _ Hpk Hs) by congruence. lia.
      * apply pk_unica_map; [| exact Hpk]. intros r.
        now destruct (CartItem.id r =? CartItem.id s).
      * intros x Hx. destruct (HpendL x Hx) as [Hxcur Hxc].
        split; [| exact Hxc]. unfold set_cart_id.
        apply List.in_map_iff. exists x. split; [| exact Hxcur].
        destruct (Z.eqb_spec (CartItem.id x) (CartItem.id s)) as [Hid |];
          [| reflexivity].
        exfalso. apply Hnid. rewrite <- Hid. now apply List.in_map.
Qed.

(** X10: a successful migration between two different carts leaves in
    the user's cart as many units as the two carts held together before
    (the primary key being unique).  Nothing is asked of the products:
    this holds however the rows pair up. *)
Theorem migrar_carrito_conserva_unidades (db db1 db' : DB) (session_id : str)
  (usuario_id : Z) (sc uc : Cart.t) :
  List.find (fun c => bool_decide (Cart.session_id c = Some session_id)
                      && Cart.activo c) (carts db) = Some sc ->
  carrito_de_usuario db usuario_id = (db1, Some uc) ->
  Cart.id sc <> Cart.id uc ->
  pk_unica (cart_items db) ->
  migrar_carrito_sesion_a_usuario db session_id usuario_id = (db', true) ->
  total_unidades (items_of (cart_items db') (Cart.id uc))
  = total_unidades (items_of (cart_items db) (Cart.id uc))
    + total_unidades (items_of (cart_items db) (Cart.id sc)).
Proof.
  intros Hsc Huc Hdistintos Hpk Hmigrar.
  unfold migrar_carrito_sesion_a_usuario in Hmigrar. rewrite Hsc in Hmigrar.
  destruct (items_of (cart_items db) (Cart.id sc)) as [|it0 its] eqn:Hitems.
  - cbn in Hmigrar. injection Hmigrar as <-. cbn [total_unidades]. lia.
  - rewrite <- Hitems in *.
    destruct (Z.eqb_spec (Z.of_nat (length (items_of (cart_items db) (Cart.id sc))))
                         0) as [Hlen |_].
    { rewrite Hitems in Hlen. cbn [length] in Hlen. lia. }
    rewrite Huc in Hmigrar.
    destruct (forallb cart_item_row_ok _); [| discriminate Hmigrar].
    injection Hmigrar as <-. cbn [cart_items].
    destruct (carrito_de_usuario_carts _ _ _ _ Huc) as [-> _].
    apply (migrar_bucle_unidades (Cart.id sc)); auto.
    + intros x Hx. now apply items_of_in.
    + now apply pk_unica_items_of.
Qed.

Lemma migrar_carrito_conserva_unidades_witness :
  total_unidades
    (items_of (cart_items (fst (migrar_carrito_sesion_a_usuario
                                  db_dos_carritos sesion_anonima 7))) 1)
  = 4 + 4.
Proof.
  apply (migrar_carrito_conserva_unidades db_dos_carritos db_dos_carritos _
           sesion_anonima 7 (Cart.mk 2 None (Some sesion_anonima) true)
           (Cart.mk 1 (Some 7) None true)).
  - reflexivity.
  - reflexivity.
  - discriminate.
  - unfold pk_unica. vm_compute. repeat constructor; cbn; intuition discriminate.
  - reflexivity.
Defined.

(** ** The migration keeps the invariants of the table *)

Lemma carrito_de_usuario_secuencia (db db1 : DB) (usuario_id : Z)
  (o : option Cart.t) :
  carrito_de_usuario db usuario_id = (db1, o) ->
  cart_items db1 = cart_items db
  /\ cart_items_id_seq db1 = cart_items_id_seq db.
Proof.
  unfold carrito_de_usuario, insert_cart. intros H.
  destruct (List.find _ (carts db)).
  - injection H as <- _. auto.
  - destruct (cart_row_ok db _); [injection H as <- _; cbn; auto |].
    destruct (match Cart.session_id _ with Some _ => _ | None => _ end);
      injection H as <- _; cbn; auto.
Qed.

(** One turn of the loop keeps the keys unique and below the sequence,
    and one row per product in every cart, whichever cart is emptied
    into whichever. *)
Lemma migrar_item_conserva (t seq : Z) (cur : list CartItem.t) (pk : Z) :
  pk_unica cur ->
  (forall r, In r cur -> CartItem.id r < seq) ->
  (forall c, una_fila_por_producto cur c) ->
  pk_unica (migrar_item t cur pk)
  /\ (forall r, In r (migrar_item t cur pk) -> CartItem.id r < seq)
  /\ (forall c, una_fila_por_producto (migrar_item t cur pk) c).
Proof.
  intros Hpk Hseq Huna. unfold migrar_item.
  destruct (get_item cur pk) as [s|] eqn:Hs; [| auto].
  apply get_item_id in Hs as [Hs_in _].
  destruct (first_item cur t (CartItem.producto_id s)) as [e|] eqn:He.
  - unfold set_cantidad.
    set (g := fun it : CartItem.t =>
                if CartItem.id it =? CartItem.id e
                then con_cantidad it (CartItem.cantidad e + CartItem.cantidad s)
                else it).
    assert (Hg : forall r, CartItem.id (g r) = CartItem.id r
                           /\ CartItem.cart_id (g r) = CartItem.cart_id r
                           /\ CartItem.producto_id (g r) = CartItem.producto_id r).
    { intros r. unfold g. now destruct (CartItem.id r =? CartItem.id e). }
    split; [| split].
    + apply pk_unica_map; [| exact Hpk]. intros r. apply Hg.
    + intros r' Hr'. apply List.in_map_iff in Hr' as (r & <- & Hr).
      destruct (Hg r) as [-> _]. auto.
    + intros c. apply una_fila_por_producto_map; [| apply Huna].
      intros r. apply Hg.
  - split; [| split].
    + unfold set_cart_id. apply pk_unica_map; [| exact Hpk]. intros r.
      now destruct (CartItem.id r =? CartItem.id s).
    + unfold set_cart_id. intros r' Hr'.
      apply List.in_map_iff in Hr' as (r & <- & Hr).
      destruct (CartItem.id r =? CartItem.id s); cbn [con_cart_id CartItem.id];
        auto.
    + intros c. destruct (Z.eq_dec c t) as [-> | Hct].
      * now apply una_fila_por_producto_set_cart_id.
      * intros r1' r2' H1 H2 Hc1 Hc2 Hp. unfold set_cart_id in H1, H2.
        apply List.in_map_iff in H1 as (r1 & <- & H1).
        apply List.in_map_iff in H2 as (r2 & <- & H2).
        destruct (CartItem.id r1 =? CartItem.id s);
          [cbn [con_cart_id CartItem.cart_id] in Hc1; congruence |].
        destruct (CartItem.id r2 =? CartItem.id s);
          [cbn [con_cart_id CartItem.cart_id] in Hc2; congruence |].
        now apply (Huna c).
Qed.

Lemma migrar_bucle_conserva (t seq : Z) (pks : list Z) :
  forall cur : list CartItem.t,
    pk_unica cur ->
    (forall r, In r cur -> CartItem.id r < seq) ->
    (forall c, una_fila_por_producto cur c) ->
    pk_unica (fold_left (migrar_item t) pks cur)
    /\ (forall r, In r (fold_left (migrar_item t) pks cur) -> CartItem.id r < seq)
    /\ (forall c, una_fila_por_producto (fold_left (migrar_item t) pks cur) c).
Proof.
  induction pks as [|pk pks IH]; intros cur Hpk Hseq Huna; [auto |].
  cbn [fold_left].
  destruct (migrar_item_conserva t seq cur pk Hpk Hseq Huna) as (H1 & H2 & H3).
  now apply IH.
Qed.

(** X11: [migrar_carrito_sesion_a_usuario] keeps the invariants of
    [cart_items] as the other cart functions do: whatever its arguments
    and whether it succeeds or not, and also when one cart carries both
    the session id and the user id, it leaves unique primary keys below
    the sequence, one row per product in every cart and the column
    constraints on every row, when it started from such a store. *)
Theorem migrar_carrito_conserva_invariantes (db : DB) (session_id : str)
  (usuario_id : Z) :
  items_bien_formados db ->
  items_bien_formados
    (fst (migrar_carrito_sesion_a_usuario db session_id usuario_id)).
Proof.
  intros Hbf. unfold migrar_carrito_sesion_a_usuario.
  destruct (List.find _ (carts db)) as [sc|]; [| exact Hbf].
  destruct (_ =? 0); [exact Hbf |].
  destruct (carrito_de_usuario db usuario_id) as [db1 [uc|]] eqn:Huc;
    [| exact Hbf].
  destruct (carrito_de_usuario_secuencia _ _ _ _ Huc) as [Hitems Hseq1].
  destruct (forallb cart_item_row_ok _) eqn:Hfilas; [| exact Hbf].
  destruct Hbf as (Hpk & Hseq & Huna & _).
  unfold items_bien_formados, seq_por_delante.
  cbn [fst cart_items cart_items_id_seq]. rewrite Hitems, Hseq1 in *.
  destruct (migrar_bucle_conserva (Cart.id uc) (cart_items_id_seq db)
              (List.map CartItem.id (items_of (cart_items db) (Cart.id sc)))
              (cart_items db) Hpk Hseq Huna) as (H1 & H2 & H3).
  repeat split; auto.
  apply List.Forall_forall. intros r Hr.
  rewrite List.forallb_forall in Hfilas. now apply Hfilas.
Qed.

Lemma migrar_carrito_conserva_invariantes_witness :
  items_bien_formados
    (fst (migrar_carrito_sesion_a_usuario db_dos_carritos sesion_anonima 7)).
Proof.
  apply (migrar_carrito_conserva_invariantes db_dos_carritos sesion_anonima 7).
  apply items_bien_formados_dos_carritos.
Defined.

(** ** Reading, updating and deleting a review *)

Lemma get_resena_some (l : list Resena.t) (pk : Z) (r : Resena.t) :
  get_resena l pk = Some r -> In r l /\ Resena.id r = pk.
Proof.
  unfold get_resena. intros H. apply List.find_some in H as [Hin Hid].
  apply Z.eqb_eq in Hid. auto.
Qed.

Lemma get_resena_none (l : list Resena.t) (pk : Z) :
  (forall r, In r l -> Resena.id r <> pk) -> get_resena l pk = None.
Proof.
  intros Hall. destruct (get_resena l pk) as [r|] eqn:Hr; [| reflexivity].
  apply get_resena_some in Hr as [Hin Hid]. now destruct (Hall r Hin).
Qed.

Lemma resena_pk_inj (l : list Resena.t) (r1 r2 : Resena.t) :
  List.NoDup (List.map Resena.id l) -> In r1 l -> In r2 l ->
  Resena.id r1 = Resena.id r2 -> r1 = r2.
Proof.
  induction l as [|a l IH]; [intros _ [] |].
  cbn [List.map]. intros Hnd H1 H2 Heq.
  apply List.NoDup_cons_iff in Hnd as [Hnotin Hnd].
  destruct H1 as [-> | H1], H2 as [-> | H2]; auto.
  - exfalso. apply Hnotin. rewrite Heq. now apply List.in_map.
  - exfalso. apply Hnotin. rewrite <- Heq. now apply List.in_map.
Qed.

Lemma get_resena_in (l : list Resena.t) (r : Resena.t) :
  List.NoDup (List.map Resena.id l) -> In r l ->
  get_resena l (Resena.id r) = Some r.
Proof.
  intros Hnd Hin. destruct (get_resena l (Resena.id r)) as [x|] eqn:Hx.
  - apply get_resena_some in Hx as [Hxin Hid].
    f_equal. now apply (resena_pk_inj l).
  - unfold get_resena in Hx.
    pose proof (List.find_none _ _ Hx r Hin) as Hno. cbn beta in Hno.
    now rewrite Z.eqb_refl in Hno.
Qed.

Lemma get_resena_app_new (l : list Resena.t) (r : Resena.t) :
  (forall x, In x l -> Resena.id x <> Resena.id r) ->
  get_resena (l ++ [r]) (Resena.id r) = Some r.
Proof.
  intros Hfresh. unfold get_resena. apply find_app_new.
  - apply (get_resena_none l). exact Hfresh.
  - apply Z.eqb_refl.
Qed.

Lemma filter_quita_la_nueva (l : list Resena.t) (r : Resena.t) :
  (forall x, In x l -> Resena.id x <> Resena.id r) ->
  List.filter (fun x => negb (Resena.id x =? Resena.id r)) (l ++ [r]) = l.
Proof.
  intros Hfresh. rewrite List.filter_app. cbn [List.filter].
  rewrite Z.eqb_refl. cbn [negb]. rewrite app_nil_r.
  induction l as [|a l IH]; [reflexivity |]. cbn [List.filter].
  destruct (Z.eqb_spec (Resena.id a) (Resena.id r)) as [Heq | _].
  - exfalso. apply (Hfresh a); [now left | exact Heq].
  - cbn [negb]. f_equal. apply IH. intros x Hx. apply Hfresh. now right.
Qed.

Lemma first_resena_none_in (db : DB) (p u : Z) (x : Resena.t) :
  first_resena db p u = None -> In x (resenas db) ->
  Resena.producto_id x = p -> Resena.usuario_id x = u -> False.
Proof.
  unfold first_resena. intros Hnone Hin <- <-.
  pose proof (List.find_none _ _ Hnone x Hin) as H. cbn beta in H.
  now rewrite !Z.eqb_refl in H.
Qed.

(** X12: a review that has just been created is found under its key,
    and deleting it as its author gives back the table of before: the
    user may review the product again.  Only the sequence remembers the
    review, the next key is not reused.  (Stored keys are below the
    sequence.) *)
Theorem crear_resena_eliminar_resena (db db1 : DB)
  (producto_id usuario_id calificacion : Z) (comentario : str)
  (compra_verificada : bool) (r : Resena.t) :
  (forall x : Resena.t, In x (resenas db) -> Resena.id x < resenas_id_seq db) ->
  crear_resena db producto_id usuario_id calificacion comentario
               compra_verificada = Ok (db1, Some r) ->
  obtener_resena_por_id db1 (Resena.id r) = Some r
  /\ exists db2 : DB,
       eliminar_resena db1 (Resena.id r) (Some usuario_id) = (db2, true)
       /\ resenas db2 = resenas db
       /\ resenas_id_seq db2 = resenas_id_seq db + 1
       /\ obtener_resena_por_id db2 (Resena.id r) = None
       /\ verificar_usuario_puede_resenar db2 producto_id usuario_id = true.
Proof.
  intros Hseq Hcrear.
  destruct (crear_resena_ok _ _ _ _ _ _ _ _ Hcrear)
    as (_ & _ & _ & _ & _ & Hprimera & Hr & ->).
  assert (Hfresh : forall x, In x (resenas db) -> Resena.id x <> Resena.id r).
  { intros x Hx. specialize (Hseq x Hx). rewrite Hr. cbn [Resena.id]. lia. }
  assert (Hget : get_resena (resenas db ++ [r]) (Resena.id r) = Some r)
    by now apply get_resena_app_new.
  split; [exact Hget |].
  unfold eliminar_resena, obtener_resena_por_id. cbn [resenas with_resenas].
  rewrite Hget. replace (Resena.usuario_id r) with usuario_id by now rewrite Hr.
  rewrite Z.eqb_refl. cbn [negb].
  eexists. split; [reflexivity |]. cbn [resenas resenas_id_seq with_resenas].
  rewrite (filter_quita_la_nueva _ _ Hfresh).
  repeat split.
  - now apply get_resena_none.
  - unfold verificar_usuario_puede_resenar, first_resena.
    cbn [resenas with_resenas]. unfold first_resena in Hprimera.
    now rewrite Hprimera.
Qed.

Lemma crear_resena_eliminar_resena_witness :
  let db1 :=
    almacen_tras db_carrito_ejemplo
      (crear_resena db_carrito_ejemplo 1 1 4 comentario_valido false) in
  obtener_resena_por_id db1 1
  = Some (Resena.mk 1 1 1 4 comentario_valido false)
  /\ exists db2 : DB,
       eliminar_resena db1 1 (Some 1) = (db2, true)
       /\ resenas db2 = []
       /\ resenas_id_seq db2 = 1 + 1
       /\ obtener_resena_por_id db2 1 = None
       /\ verificar_usuario_puede_resenar db2 1 1 = true.
Proof.
  apply (crear_resena_eliminar_resena db_carrito_ejemplo _ 1 1 4
           comentario_valido false (Resena.mk 1 1 1 4 comentario_valido false)).
  - intros x [].
  - reflexivity.
Defined.

Lemma filter_otras_length (l : list Resena.t) (r : Resena.t) :
  List.NoDup (List.map Resena.id l) -> In r l ->
  S (length (List.filter (fun x => negb (Resena.id x =? Resena.id r)) l))
  = length l.
Proof.
  induction l as [|a l IH]; [intros _ [] |].
  cbn [List.map]. intros Hnd Hin.
  apply List.NoDup_cons_iff in Hnd as [Hnotin Hnd].
  cbn [List.filter length].
  destruct Hin as [-> | Hin].
  - rewrite Z.eqb_refl. cbn [negb].
    replace (List.filter _ l) with l; [lia |].
    symmetry. clear IH Hnd. induction l as [|b l IH]; [reflexivity |].
    cbn [List.filter].
    destruct (Z.eqb_spec (Resena.id b) (Resena.id r)) as [Heq | _].
    + exfalso. apply Hnotin. rewrite <- Heq. now left.
    + cbn [negb]. f_equal. apply IH. intros H. apply Hnotin. now right.
  - destruct (Z.eqb_spec (Resena.id a) (Resena.id r)) as [Heq | _].
    + exfalso. apply Hnotin. rewrite Heq. now apply List.in_map.
    + cbn [negb length]. specialize (IH Hnd Hin). lia.
Qed.

(** X13: asked to check the owner, [eliminar_resena] deletes exactly
    when the key is that of a review written by that user; it then
    removes that one row and no other.  Whatever it answers, the reviews
    of every other user stay, and when it answers false the store is
    the one it was given.  (The primary key being unique.) *)
Theorem eliminar_resena_solo_el_autor (db db' : DB) (resena_id usuario_id : Z)
  (b : bool) :
  List.NoDup (List.map Resena.id (resenas db)) ->
  eliminar_resena db resena_id (Some usuario_id) = (db', b) ->
  (b = true <->
   exists r : Resena.t,
     In r (resenas db) /\ Resena.id r = resena_id
     /\ Resena.usuario_id r = usuario_id)
  /\ (forall x : Resena.t,
         In x (resenas db) -> Resena.usuario_id x <> usuario_id ->
         In x (resenas db'))
  /\ (b = true ->
      obtener_resena_por_id db' resena_id = None
      /\ (forall x : Resena.t,
             In x (resenas db') <-> In x (resenas db) /\ Resena.id x <> resena_id)
      /\ S (length (resenas db')) = length (resenas db))
  /\ (b = false -> db' = db).
Proof.
  intros Hnd Helim. unfold eliminar_resena in Helim.
  destruct (get_resena (resenas db) resena_id) as [r|] eqn:Hr.
  - apply get_resena_some in Hr as Hr'. destruct Hr' as [Hin Hid].
    destruct (Z.eqb_spec (Resena.usuario_id r) usuario_id) as [Hu | Hu];
      cbn [negb] in Helim; injection Helim as <- <-.
    + cbn [resenas with_resenas]. split; [| split; [| split]].
      * split; [intros _; now exists r | reflexivity].
      * intros x Hx Hxu. apply List.filter_In. split; [exact Hx |].
        destruct (Z.eqb_spec (Resena.id x) (Resena.id r)) as [Heq |];
          [| reflexivity].
        assert (x = r) by now apply (resena_pk_inj (resenas db)). congruence.
      * intros _. split; [| split].
        -- unfold obtener_resena_por_id. cbn [resenas with_resenas].
           apply get_resena_none. intros x Hx.
           apply List.filter_In in Hx as [_ Hx].
           apply negb_true_iff in Hx. apply Z.eqb_neq in Hx. congruence.
        -- intros x. rewrite List.filter_In, negb_true_iff, Z.eqb_neq, Hid.
           reflexivity.
        -- now apply filter_otras_length.
      * discriminate.
    + repeat split; try discriminate; auto.
      intros (x & Hx & Hxid & Hxu).
      assert (x = r) by (apply (resena_pk_inj (resenas db)); congruence).
      congruence.
  - injection Helim as <- <-. repeat split; try discriminate; auto.
    intros (x & Hx & Hxid & _). unfold get_resena in Hr.
    pose proof (List.find_none _ _ Hr x Hx) as Hno. cbn beta in Hno.
    apply Z.eqb_neq in Hno. contradiction.
Qed.

Lemma eliminar_resena_solo_el_autor_witness :
  (true = true <->
   exists r : Resena.t,
     In r (resenas db_cuatro_resenas) /\ Resena.id r = 3
     /\ Resena.usuario_id r = 3)
  /\ (forall x : Resena.t,
         In x (resenas db_cuatro_resenas) -> Resena.usuario_id x <> 3 ->
         In x (resenas (fst (eliminar_resena db_cuatro_resenas 3 (Some 3)))))
  /\ (true = true ->
      obtener_resena_por_id
        (fst (eliminar_resena db_cuatro_resenas 3 (Some 3))) 3 = None
      /\ (forall x : Resena.t,
             In x (resenas (fst (eliminar_resena db_cuatro_resenas 3 (Some 3))))
             <-> In x (resenas db_cuatro_resenas) /\ Resena.id x <> 3)
      /\ S (length (resenas (fst (eliminar_resena db_cuatro_resenas 3
                                                   (Some 3)))))
         = length (resenas db_cuatro_resenas))
  /\ (true = false -> fst (eliminar_resena db_cuatro_resenas 3 (Some 3))
                      = db_cuatro_resenas).
Proof.
  apply (eliminar_resena_solo_el_autor db_cuatro_resenas _ 3 3 true).
  - cbn. repeat constructor; cbn; intuition discriminate.
  - reflexivity.
Defined.

Lemma get_resena_set_resena (l : list Resena.t) (r' : Resena.t) (k : Z) :
  get_resena (set_resena l r') k
  = (fun x => if Resena.id x =? Resena.id r' then r' else x) <$> get_resena l k.
Proof.
  unfold get_resena, set_resena. induction l as [|a l IH]; [reflexivity |].
  cbn [List.map List.find].
  destruct (Z.eqb_spec (Resena.id a) (Resena.id r')) as [Heq | Hne].
  - destruct (Z.eqb_spec (Resena.id r') k), (Z.eqb_spec (Resena.id a) k);
      try congruence; try exact IH.
    cbn. destruct (Z.eqb_spec (Resena.id a) (Resena.id r'));
      [reflexivity | contradiction].
  - destruct (Z.eqb_spec (Resena.id a) k); [| exact IH].
    cbn. destruct (Z.eqb_spec (Resena.id a) (Resena.id r')); [contradiction |].
    reflexivity.
Qed.

Lemma resena_row_ok_iff (r : Resena.t) :
  resena_row_ok r = true
  <-> 1 <= Resena.calificacion r <= 5 /\ 10 <= len (Resena.comentario r).
Proof. unfold resena_row_ok. rewrite !andb_true_iff, !Z.leb_le. tauto. Qed.

Lemma resena_pedida_row_ok (r : Resena.t) (oc : option Z) (os : option str) :
  resena_row_ok r = true ->
  (forall c, oc = Some c -> 1 <= c <= 5) ->
  (forall s, os = Some s -> 10 <= len (strip s)) ->
  resena_row_ok (resena_pedida r oc os) = true.
Proof.
  intros Hok Hc Hs. apply resena_row_ok_iff in Hok as [Hok1 Hok2].
  apply resena_row_ok_iff. unfold resena_pedida.
  cbn [Resena.calificacion Resena.comentario].
  destruct oc as [c|], os as [s|]; cbn [default fmap option_fmap option_map];
    (split; [first [apply Hc; reflexivity | exact Hok1]
            | first [apply Hs; reflexivity | exact Hok2]]).
Qed.

(** With valid arguments [actualizar_resena] reaches its commit with the
    row asked for. *)
Lemma actualizar_resena_hasta_commit (db : DB) (resena_id : Z) (oc : option Z)
  (os : option str) (r : Resena.t) :
  get_resena (resenas db) resena_id = Some r ->
  (forall c, oc = Some c -> 1 <= c <= 5) ->
  (forall s, os = Some s -> 10 <= len (strip s)) ->
  let pedida := resena_pedida r oc os in
  actualizar_resena db resena_id oc os
  = if negb (bool_decide (Resena.comentario pedida = Resena.comentario r))
       && negb (almacenable (Resena.comentario pedida))
    then Raise ValueError
    else if bool_decide (pedida = r) || resena_row_ok pedida
    then Ok (Actualizada.mk
               (with_resenas db (set_resena (resenas db) pedida)
                             (resenas_id_seq db))
               None (Some pedida))
    else Ok (Actualizada.mk db None None).
Proof.
  intros Hr Hc Hs pedida. subst pedida. unfold actualizar_resena. rewrite Hr.
  destruct oc as [c|].
  - specialize (Hc c eq_refl).
    destruct (Z.leb_spec 1 c); [| lia]. destruct (Z.leb_spec c 5); [| lia].
    cbn [andb negb]. destruct os as [s|].
    + specialize (Hs s eq_refl).
      destruct (Z.ltb_spec (len (strip s)) 10); [lia |]. reflexivity.
    + reflexivity.
  - destruct os as [s|].
    + specialize (Hs s eq_refl).
      destruct (Z.ltb_spec (len (strip s)) 10); [lia |]. reflexivity.
    + replace (resena_pedida r None None) with r by now destruct r.
      reflexivity.
Qed.

(** X14: on a stored review that satisfies the checks of its table,
    [actualizar_resena] with a rating in 1..5 (if one is given) and a
    comment of at least 10 characters once trimmed (if one is given)
    returns the review with exactly those two fields replaced, leaves
    nothing pending, and the store holds that row under the same key,
    every other key reading as before, provided the comment is the
    stored one or is text the driver accepts; a new comment with a NUL
    or a surrogate makes the call raise [ValueError].  With a rating
    outside 1..5 or a shorter comment it returns nothing and the
    committed store is the one it was given. *)
Theorem actualizar_resena_efecto (db : DB) (resena_id : Z)
  (calificacion : option Z) (comentario : option str) (r : Resena.t) :
  obtener_resena_por_id db resena_id = Some r ->
  resena_row_ok r = true ->
  let pedida := resena_pedida r calificacion comentario in
  let resultado := actualizar_resena db resena_id calificacion comentario in
  ((forall c, calificacion = Some c -> 1 <= c <= 5) ->
   (forall s, comentario = Some s -> 10 <= len (strip s)) ->
   (Resena.comentario pedida = Resena.comentario r
    \/ almacenable (Resena.comentario pedida) = true ->
    exists a : Actualizada.t,
      resultado = Ok a
      /\ Actualizada.devuelve a = Some pedida
      /\ Actualizada.en_sesion a = None
      /\ obtener_resena_por_id (Actualizada.almacen a) resena_id = Some pedida
      /\ (forall k : Z, k <> resena_id ->
            obtener_resena_por_id (Actualizada.almacen a) k
            = obtener_resena_por_id db k)
      /\ length (resenas (Actualizada.almacen a)) = length (resenas db)
      /\ resenas_id_seq (Actualizada.almacen a) = resenas_id_seq db)
   /\ (Resena.comentario pedida <> Resena.comentario r ->
       almacenable (Resena.comentario pedida) = false ->
       resultado = Raise ValueError))
  /\ ((exists c, calificacion = Some c /\ (c < 1 \/ 5 < c))
      \/ (exists s, comentario = Some s /\ len (strip s) < 10) ->
      exists a : Actualizada.t,
        resultado = Ok a
        /\ Actualizada.devuelve a = None /\ Actualizada.almacen a = db).
Proof.
  intros Hr Hok pedida resultado. unfold obtener_resena_por_id in *. split.
  - intros Hc Hs. subst resultado.
    rewrite (actualizar_resena_hasta_commit db resena_id _ _ r Hr Hc Hs).
    fold pedida.
    pose proof (resena_pedida_row_ok r _ _ Hok Hc Hs) as Hrow. fold pedida in Hrow.
    apply get_resena_some in Hr as Hr'. destruct Hr' as [_ Hid].
    split.
    + intros Hacepta.
      assert (Hvalor : negb (bool_decide (Resena.comentario pedida
                                          = Resena.comentario r))
                       && negb (almacenable (Resena.comentario pedida)) = false).
      { destruct Hacepta as [Higual | ->]; [| apply andb_false_r].
        rewrite bool_decide_eq_true_2 by exact Higual. reflexivity. }
      rewrite Hvalor, Hrow, orb_true_r.
      eexists. split; [reflexivity |].
      cbn [Actualizada.devuelve Actualizada.en_sesion Actualizada.almacen
           resenas resenas_id_seq with_resenas].
      repeat split.
      * rewrite get_resena_set_resena, Hr. cbn [fmap option_fmap option_map].
        unfold pedida at 1. cbn [resena_pedida Resena.id].
        now rewrite Z.eqb_refl.
      * intros k Hk. rewrite get_resena_set_resena.
        destruct (get_resena (resenas db) k) as [x|] eqn:Hx; [| reflexivity].
        apply get_resena_some in Hx as [_ Hxid].
        cbn [fmap option_fmap option_map]. unfold pedida.
        cbn [resena_pedida Resena.id].
        destruct (Z.eqb_spec (Resena.id x) (Resena.id r)); [congruence |].
        reflexivity.
      * unfold set_resena. apply List.length_map.
    + intros Hcambia Hno.
      rewrite bool_decide_eq_false_2 by exact Hcambia. now rewrite Hno.
  - intros Hmal. subst resultado. unfold actualizar_resena. rewrite Hr.
    destruct calificacion as [c|].
    + destruct (Z.leb_spec 1 c); cbn [andb negb]; [| eexists; now split].
      destruct (Z.leb_spec c 5); cbn [negb]; [| eexists; now split].
      destruct Hmal as [(c' & [= <-] & Hc') | (s & -> & Hs)]; [lia |].
      destruct (Z.ltb_spec (len (strip s)) 10); [eexists; now split | lia].
    + destruct Hmal as [(c' & [=] & _) | (s & -> & Hs)].
      destruct (Z.ltb_spec (len (strip s)) 10); [eexists; now split | lia].
Qed.

Lemma actualizar_resena_efecto_witness :
  exists a : Actualizada.t,
    actualizar_resena db_cuatro_resenas 4 (Some 5)
                      (Some (of_string "  Mejor de lo esperado ")) = Ok a
    /\ Actualizada.devuelve a
       = Some (Resena.mk 4 1 4 5 (of_string "Mejor de lo esperado") false)
    /\ Actualizada.en_sesion a = None
    /\ obtener_resena_por_id (Actualizada.almacen a) 4
       = Some (Resena.mk 4 1 4 5 (of_string "Mejor de lo esperado") false)
    /\ (forall k : Z, k <> 4 ->
          obtener_resena_por_id (Actualizada.almacen a) k
          = obtener_resena_por_id db_cuatro_resenas k)
    /\ length (resenas (Actualizada.almacen a))
       = length (resenas db_cuatro_resenas)
    /\ resenas_id_seq (Actualizada.almacen a) = resenas_id_seq db_cuatro_resenas.
Proof.
  apply (actualizar_resena_efecto db_cuatro_resenas 4 (Some 5)
           (Some (of_string "  Mejor de lo esperado "))
           (Resena.mk 4 1 4 3 comentario_valido false)).
  - reflexivity.
  - reflexivity.
  - intros c [= <-]. lia.
  - intros s [= <-]. vm_compute. discriminate.
  - right. reflexivity.
Defined.

(** X15: the one way [actualizar_resena] leaves a write in the session
    without committing it or rolling it back: the review exists, a
    rating in 1..5 is given together with a comment shorter than 10
    characters once trimmed.  The function then returns nothing and has
    committed nothing, while the review of the session carries the new
    rating. *)
Theorem actualizar_resena_escritura_pendiente (db : DB) (resena_id : Z)
  (calificacion : option Z) (comentario : option str) (x : Resena.t) :
  let resultado := actualizar_resena db resena_id calificacion comentario in
  ((exists a : Actualizada.t,
       resultado = Ok a /\ Actualizada.en_sesion a = Some x) <->
   exists (r : Resena.t) (c : Z) (s : str),
     obtener_resena_por_id db resena_id = Some r
     /\ calificacion = Some c /\ 1 <= c <= 5
     /\ comentario = Some s /\ len (strip s) < 10
     /\ x = con_calificacion r c)
  /\ (forall a : Actualizada.t,
         resultado = Ok a -> Actualizada.en_sesion a = Some x ->
         Actualizada.devuelve a = None /\ Actualizada.almacen a = db).
Proof.
  intros resultado. subst resultado.
  unfold actualizar_resena, obtener_resena_por_id.
  destruct (get_resena (resenas db) resena_id) as [r|].
  2:{ split; [split |].
      - intros (a & [= <-] & Ha). discriminate Ha.
      - intros (? & ? & ? & [=] & _).
      - intros a [= <-] Ha. discriminate Ha. }
  destruct calificacion as [c|].
  - destruct (Z.leb_spec 1 c); cbn [andb negb].
    2:{ split; [split |].
        - intros (a & [= <-] & Ha). discriminate Ha.
        - intros (? & ? & ? & _ & [= <-] & ? & _). lia.
        - intros a [= <-] Ha. discriminate Ha. }
    destruct (Z.leb_spec c 5); cbn [negb].
    2:{ split; [split |].
        - intros (a & [= <-] & Ha). discriminate Ha.
        - intros (? & ? & ? & _ & [= <-] & ? & _). lia.
        - intros a [= <-] Ha. discriminate Ha. }
    destruct comentario as [s|].
    + destruct (Z.ltb_spec (len (strip s)) 10).
      * split; [split |].
        -- intros (a & [= <-] & Ha). cbn in Ha. injection Ha as <-.
           exists r, c, s. repeat split; auto; lia.
        -- intros (? & ? & ? & [= <-] & [= <-] & _ & _ & _ & ->).
           eexists. split; reflexivity.
        -- intros a [= <-] _. now split.
      * split; [split |].
        -- intros (a & Ha & Hx). revert Ha.
           destruct (_ && _); [discriminate |].
           destruct (_ || _); intros [= <-]; discriminate Hx.
        -- intros (? & ? & ? & _ & _ & _ & [= <-] & ? & _). lia.
        -- intros a Ha Hx. revert Ha.
           destruct (_ && _); [discriminate |].
           destruct (_ || _); intros [= <-]; discriminate Hx.
    + split; [split |].
      * intros (a & Ha & Hx). revert Ha.
        destruct (_ && _); [discriminate |].
        destruct (_ || _); intros [= <-]; discriminate Hx.
      * intros (? & ? & ? & _ & _ & _ & [=] & _).
      * intros a Ha Hx. revert Ha.
        destruct (_ && _); [discriminate |].
        destruct (_ || _); intros [= <-]; discriminate Hx.
  - destruct comentario as [s|].
    + destruct (Z.ltb_spec (len (strip s)) 10).
      * split; [split |].
        -- intros (a & [= <-] & Ha). discriminate Ha.
        -- intros (? & ? & ? & _ & [=] & _).
        -- intros a [= <-] Ha. discriminate Ha.
      * split; [split |].
        -- intros (a & Ha & Hx). revert Ha.
           destruct (_ && _); [discriminate |].
           destruct (_ || _); intros [= <-]; discriminate Hx.
        -- intros (? & ? & ? & _ & [=] & _).
        -- intros a Ha Hx. revert Ha.
           destruct (_ && _); [discriminate |].
           destruct (_ || _); intros [= <-]; discriminate Hx.
    + split; [split |].
      * intros (a & Ha & Hx). revert Ha.
        destruct (_ && _); [discriminate |].
        destruct (_ || _); intros [= <-]; discriminate Hx.
      * intros (? & ? & ? & _ & [=] & _).
      * intros a Ha Hx. revert Ha.
        destruct (_ && _); [discriminate |].
        destruct (_ || _); intros [= <-]; discriminate Hx.
Qed.

(** ** The invariants of the [resenas] table *)

(** The ways [crear_resena] ends. *)
Lemma crear_resena_casos (db : DB) (producto_id usuario_id calificacion : Z)
  (comentario : str) (compra_verificada : bool) :
  let crear := crear_resena db producto_id usuario_id calificacion comentario
                            compra_verificada in
  crear = Ok (db, None)
  \/ crear = Ok (with_resenas db (resenas db) (resenas_id_seq db + 1), None)
  \/ crear = Raise ValueError
  \/ exists (db' : DB) (r : Resena.t), crear = Ok (db', Some r).
Proof.
  cbn zeta. unfold crear_resena.
  destruct (negb (forallb _ _)); [now left |].
  destruct (negb _); [now left |].
  destruct (_ <? 10); [now left |].
  destruct (get_producto db producto_id); [| now left].
  destruct (get_usuario db usuario_id); [| now left].
  destruct (first_resena db producto_id usuario_id); [now left |].
  destruct (negb (almacenable _)); [right; right; now left |].
  destruct (resena_row_ok _); [| right; now left].
  right. right. right. eexists _, _. reflexivity.
Qed.

Lemma in_set_resena (l : list Resena.t) (r' x' : Resena.t) :
  In x' (set_resena l r') ->
  exists x : Resena.t,
    In x l /\ x' = if Resena.id x =? Resena.id r' then r' else x.
Proof.
  unfold set_resena. intros H. apply List.in_map_iff in H as (x & <- & Hx).
  now exists x.
Qed.

Ltac elige_pedida :=
  match goal with
  | |- context [set_resena _ ?x] => exists x
  end.

Lemma resena_pedida_o_igual (db : DB) (resena_id : Z) (oc : option Z)
  (os : option str) :
  almacen_actualizado db (actualizar_resena db resena_id oc os) = db
  \/ exists r r' : Resena.t,
       get_resena (resenas db) resena_id = Some r
       /\ Resena.id r' = Resena.id r
       /\ Resena.producto_id r' = Resena.producto_id r
       /\ Resena.usuario_id r' = Resena.usuario_id r
       /\ (r' = r \/ resena_row_ok r' = true)
       /\ almacen_actualizado db (actualizar_resena db resena_id oc os)
          = with_resenas db (set_resena (resenas db) r') (resenas_id_seq db).
Proof.
  unfold actualizar_resena.
  destruct (get_resena (resenas db) resena_id) as [r|]; [| now left].
  destruct oc as [c|].
  - destruct (negb _); [now left |].
    destruct os as [s|].
    + destruct (_ <? 10); [now left |].
      destruct (negb (bool_decide _) && _); [now left |].
      destruct (bool_decide _ || _) eqn:Hcommit; [| now left].
      right. exists r. elige_pedida. repeat split.
      apply orb_true_iff in Hcommit as [H | H]; [left | right; exact H].
      now apply bool_decide_eq_true in H.
    + destruct (negb (bool_decide _) && _); [now left |].
      destruct (bool_decide _ || _) eqn:Hcommit; [| now left].
      right. exists r. elige_pedida. repeat split.
      apply orb_true_iff in Hcommit as [H | H]; [left | right; exact H].
      now apply bool_decide_eq_true in H.
  - destruct os as [s|].
    + destruct (_ <? 10); [now left |].
      destruct (negb (bool_decide _) && _); [now left |].
      destruct (bool_decide _ || _) eqn:Hcommit; [| now left].
      right. exists r. elige_pedida. repeat split.
      apply orb_true_iff in Hcommit as [H | H]; [left | right; exact H].
      now apply bool_decide_eq_true in H.
    + destruct (negb (bool_decide _) && _); [now left |].
      destruct (bool_decide _ || _) eqn:Hcommit; [| now left].
      right. exists r, r. repeat split; try reflexivity. now left.
Qed.

Lemma resenas_bien_formadas_secuencia (db : DB) :
  resenas_bien_formadas db ->
  resenas_bien_formadas
    (with_resenas db (resenas db) (resenas_id_seq db + 1)).
Proof.
  intros (Hnd & Hseq & Huna & Hok). repeat split; auto.
  intros r Hr. cbn [resenas resenas_id_seq with_resenas] in *.
  specialize (Hseq r Hr). lia.
Qed.

Lemma resenas_bien_formadas_filter (db : DB) (f : Resena.t -> bool) :
  resenas_bien_formadas db ->
  resenas_bien_formadas
    (with_resenas db (List.filter f (resenas db)) (resenas_id_seq db)).
Proof.
  intros (Hnd & Hseq & Huna & Hok).
  unfold resenas_bien_formadas. cbn [resenas resenas_id_seq with_resenas].
  split; [| split; [| split]].
  - clear Hseq Huna Hok. induction (resenas db) as [|a l IH]; [constructor |].
    cbn [List.map] in Hnd. apply List.NoDup_cons_iff in Hnd as [Hnotin Hnd].
    cbn [List.filter]. destruct (f a); [| auto].
    cbn [List.map]. constructor; [| auto].
    intros Hin. apply Hnotin. apply List.in_map_iff in Hin as (x & Hx & Hin).
    apply List.filter_In in Hin as [Hin _]. rewrite <- Hx.
    now apply List.in_map.
  - intros r Hr. apply List.filter_In in Hr as [Hr _]. auto.
  - intros r1 r2 H1 H2. apply List.filter_In in H1 as [H1 _].
    apply List.filter_In in H2 as [H2 _]. now apply Huna.
  - apply List.Forall_forall. intros r Hr.
    apply List.filter_In in Hr as [Hr _].
    revert r Hr. now apply List.Forall_forall.
Qed.

(** X16: the review functions keep the invariants of [resenas]: unique
    keys below the sequence, rating in 1..5 and comment of at least 10
    characters on every row, and at most one review of a product by a
    user.  Whatever its arguments and outcome, a raised exception
    included, each of [crear_resena], [actualizar_resena] (in what it
    commits) and [eliminar_resena] leaves a store that has them when it
    started from one. *)
Theorem resenas_conservan_invariantes (db : DB) :
  resenas_bien_formadas db ->
  (forall (producto_id usuario_id calificacion : Z) (comentario : str)
          (compra_verificada : bool),
      resenas_bien_formadas
        (almacen_tras db
           (crear_resena db producto_id usuario_id calificacion comentario
                         compra_verificada)))
  /\ (forall (resena_id : Z) (calificacion : option Z) (comentario : option str),
         resenas_bien_formadas
           (almacen_actualizado db
              (actualizar_resena db resena_id calificacion comentario)))
  /\ (forall (resena_id : Z) (usuario_id : option Z),
         resenas_bien_formadas (fst (eliminar_resena db resena_id usuario_id))).
Proof.
  intros Hbf. split; [| split].
  - intros p u c s v.
    destruct (crear_resena_casos db p u c s v)
      as [-> | [-> | [-> | (db' & r & Hr)]]].
    + exact Hbf.
    + now apply resenas_bien_formadas_secuencia.
    + exact Hbf.
    + rewrite Hr.
      destruct (crear_resena_ok _ _ _ _ _ _ _ _ Hr)
        as (Hc & Hs & _ & _ & _ & Hprimera & Hnueva & ->).
      destruct Hbf as (Hnd & Hseq & Huna & Hok).
      unfold resenas_bien_formadas.
      cbn [almacen_tras resenas resenas_id_seq with_resenas].
      assert (Hid : Resena.id r = resenas_id_seq db) by now rewrite Hnueva.
      split; [| split; [| split]].
      * rewrite List.map_app. cbn [List.map].
        apply NoDup_snoc; [exact Hnd |].
        intros Hin. apply List.in_map_iff in Hin as (x & Hx & Hin).
        specialize (Hseq x Hin). lia.
      * intros x Hx. apply List.in_app_iff in Hx as [Hx | [<- | []]].
        -- specialize (Hseq x Hx). lia.
        -- lia.
      * assert (Hpar : Resena.producto_id r = p /\ Resena.usuario_id r = u)
          by now rewrite Hnueva.
        destruct Hpar as [Hrp Hru].
        intros r1 r2 H1 H2 Hp Hu.
        apply List.in_app_iff in H1 as [H1 | [<- | []]];
          apply List.in_app_iff in H2 as [H2 | [<- | []]].
        -- now apply Huna.
        -- exfalso.
           apply (first_resena_none_in db p u r1 Hprimera H1); congruence.
        -- exfalso.
           apply (first_resena_none_in db p u r2 Hprimera H2); congruence.
        -- reflexivity.
      * apply List.Forall_app. split; [exact Hok |]. constructor; [| constructor].
        apply resena_row_ok_iff. rewrite Hnueva.
        cbn [Resena.calificacion Resena.comentario]. auto.
  - intros resena_id oc os.
    destruct (resena_pedida_o_igual db resena_id oc os)
      as [-> | (r & r' & Hr & Hid & Hp & Hu & Hrow & ->)]; [exact Hbf |].
    destruct Hbf as (Hnd & Hseq & Huna & Hok).
    apply get_resena_some in Hr as [Hrin _].
    assert (Hrow' : resena_row_ok r' = true).
    { destruct Hrow as [Heq | H]; [rewrite Heq | exact H].
      clear Hid Hp Hu Heq. revert r Hrin. now apply List.Forall_forall. }
    assert (Himagen : forall x, In x (resenas db) ->
              let x' := if Resena.id x =? Resena.id r' then r' else x in
              Resena.id x' = Resena.id x
              /\ Resena.producto_id x' = Resena.producto_id x
              /\ Resena.usuario_id x' = Resena.usuario_id x).
    { intros x Hx. cbn zeta.
      destruct (Z.eqb_spec (Resena.id x) (Resena.id r')) as [Heq |]; [| auto].
      assert (x = r) by (apply (resena_pk_inj (resenas db)); congruence).
      subst x. auto. }
    unfold resenas_bien_formadas. cbn [resenas resenas_id_seq with_resenas].
    split; [| split; [| split]].
    + unfold set_resena. rewrite List.map_map.
      rewrite (List.map_ext_in _ Resena.id); [exact Hnd |].
      intros x Hx. apply (Himagen x Hx).
    + intros x' Hx'. apply in_set_resena in Hx' as (x & Hx & ->).
      destruct (Himagen x Hx) as (-> & _). auto.
    + intros x1' x2' H1 H2 Hpp Huu.
      apply in_set_resena in H1 as (x1 & H1 & ->).
      apply in_set_resena in H2 as (x2 & H2 & ->).
      destruct (Himagen x1 H1) as (_ & Hp1 & Hu1).
      destruct (Himagen x2 H2) as (_ & Hp2 & Hu2).
      cbn zeta in *.
      assert (x1 = x2) by (apply Huna; congruence). now subst x2.
    + apply List.Forall_forall. intros x' Hx'.
      apply in_set_resena in Hx' as (x & Hx & ->).
      destruct (Resena.id x =? Resena.id r'); [exact Hrow' |].
      revert x Hx. now apply List.Forall_forall.
  - intros resena_id ou. unfold eliminar_resena.
    destruct (get_resena (resenas db) resena_id) as [r|]; [| exact Hbf].
    destruct (match ou with Some u => _ | None => false end); [exact Hbf |].
    now apply resenas_bien_formadas_filter.
Qed.

Lemma resenas_bien_formadas_cuatro_resenas :
  resenas_bien_formadas db_cuatro_resenas.
Proof.
  repeat split.
  - cbn. repeat constructor; cbn; intuition discriminate.
  - intros r Hr. cbn in Hr.
    destruct Hr as [<- | [<- | [<- | [<- | []]]]]; reflexivity.
  - intros r1 r2 H1 H2 Hp Hu. cbn in H1, H2.
    destruct H1 as [<- | [<- | [<- | [<- | []]]]];
      destruct H2 as [<- | [<- | [<- | [<- | []]]]];
      try reflexivity; discriminate Hu.
  - repeat constructor.
Defined.

Lemma resenas_conservan_invariantes_witness :
  resenas_bien_formadas
    (almacen_tras db_cuatro_resenas
       (crear_resena db_cuatro_resenas 1 1 5 comentario_valido false))
  /\ resenas_bien_formadas
       (almacen_actualizado db_cuatro_resenas
          (actualizar_resena db_cuatro_resenas 4 (Some 5) None))
  /\ resenas_bien_formadas (fst (eliminar_resena db_cuatro_resenas 2 None)).
Proof.
  pose proof (resenas_conservan_invariantes db_cuatro_resenas
                resenas_bien_formadas_cuatro_resenas)
    as (Hcrear & Hactualizar & Heliminar).
  split; [apply Hcrear | split; [apply Hactualizar | apply Heliminar]].
Defined.

(** ** Statistics and the table they are computed from *)

Lemma filas_de_producto_ok (db : DB) (producto_id : Z) :
  Forall (fun r => resena_row_ok r = true) (resenas db) ->
  Forall (fun r => resena_row_ok r = true)
         (List.filter (fun r => Resena.producto_id r =? producto_id)
                      (resenas db)).
Proof.
  intros Htabla. apply List.Forall_forall. intros r Hr.
  apply List.filter_In in Hr as [Hr _].
  revert r Hr. now apply List.Forall_forall.
Qed.

(** Total and distribution of a product whose reviews satisfy the
    checks of the table. *)
Lemma estadisticas_de_filas (db : DB) (producto_id : Z) :
  Forall (fun r => resena_row_ok r = true) (resenas db) ->
  let l := List.filter (fun r => Resena.producto_id r =? producto_id)
                       (resenas db) in
  exists e : Estadisticas.t,
    obtener_estadisticas_producto db producto_id = Ok e
    /\ Estadisticas.total e = Z.of_nat (length l)
    /\ forall k : Z,
         Estadisticas.distribucion e !! k =
         if (1 <=? k) && (k <=? 5) then Some (resenas_con k l) else None.
Proof.
  intros Htabla l.
  pose proof (filas_de_producto_ok db producto_id Htabla) as Hl. fold l in Hl.
  unfold obtener_estadisticas_producto. fold l.
  clearbody l. destruct l as [|r l'].
  - eexists. split; [reflexivity |]. split; [reflexivity |].
    intros k. cbn [Estadisticas.distribucion].
    rewrite distribucion_cero_lookup.
    destruct ((1 <=? k) && (k <=? 5)); reflexivity.
  - set (l := r :: l') in *. set (total := Z.of_nat (length l)).
    assert (Htotal : 0 < total).
    { unfold total, l. cbn [length]. lia. }
    pose proof (py_sum_calificaciones l Hl) as Hsuma. fold total in Hsuma.
    pose proof overflow_threshold_large as Hbig.
    rewrite int_truediv_ok by nia. cbn [rbind].
    destruct (contar_estrellas_ok (List.map Resena.calificacion l)
                distribucion_cero) as (dist & Hdist & Hlook).
    { apply List.Forall_forall. intros e He.
      apply List.in_map_iff in He as (x & <- & Hx).
      rewrite List.Forall_forall in Hl. specialize (Hl x Hx).
      apply resena_row_ok_iff in Hl as [[H1 H5] _].
      apply Z.leb_le in H1, H5.
      rewrite distribucion_cero_lookup, H1, H5.
      cbn [andb]. eexists. reflexivity. }
    assert (Hkeys : forall k : Z,
               dist !! k =
               if (1 <=? k) && (k <=? 5) then Some (resenas_con k l) else None).
    { intros k. rewrite Hlook, distribucion_cero_lookup, filter_map_calificacion.
      destruct ((1 <=? k) && (k <=? 5)); reflexivity. }
    rewrite Hdist. cbn [rbind].
    rewrite (dict_comprehension_ok _ (porcentaje_redondeado total)).
    + cbn [rbind]. eexists. split; [reflexivity |]. split; [reflexivity |].
      exact Hkeys.
    + intros k v Hk. rewrite Hkeys in Hk.
      destruct ((1 <=? k) && (k <=? 5)); [| discriminate Hk].
      injection Hk as <-. apply porcentaje_ok; [| exact Htotal].
      apply resenas_con_le.
Qed.

Lemma resenas_con_cons (k : Z) (r : Resena.t) (l : list Resena.t) :
  resenas_con k (r :: l)
  = (if Resena.calificacion r =? k then 1 else 0) + resenas_con k l.
Proof.
  unfold resenas_con. cbn [List.filter].
  destruct (Resena.calificacion r =? k); cbn [length]; lia.
Qed.

Lemma resenas_con_app (k : Z) (l1 l2 : list Resena.t) :
  resenas_con k (l1 ++ l2) = resenas_con k l1 + resenas_con k l2.
Proof.
  induction l1 as [|a l1 IH]; cbn [app].
  - unfold resenas_con at 2. cbn. lia.
  - rewrite !resenas_con_cons, IH. lia.
Qed.

Lemma resenas_con_suma (l : list Resena.t) :
  Forall (fun r => resena_row_ok r = true) l ->
  resenas_con 1 l + resenas_con 2 l + resenas_con 3 l + resenas_con 4 l
  + resenas_con 5 l = Z.of_nat (length l).
Proof.
  induction 1 as [|r l Hr _ IH]; [reflexivity |].
  rewrite !resenas_con_cons. cbn [length].
  apply resena_row_ok_iff in Hr as [Hr _].
  assert (Hk : Resena.calificacion r = 1 \/ Resena.calificacion r = 2
               \/ Resena.calificacion r = 3 \/ Resena.calificacion r = 4
               \/ Resena.calificacion r = 5) by lia.
  destruct Hk as [-> | [-> | [-> | [-> | ->]]]]; cbn; lia.
Qed.

(** X17: when the stored reviews satisfy the checks of their table, the
    statistics of any product are returned, their total is the number
    of reviews of the product, and the five counts of the distribution
    add up to that total. *)
Theorem estadisticas_cuentas_suman_total (db : DB) (producto_id : Z) :
  Forall (fun r => resena_row_ok r = true) (resenas db) ->
  exists (e : Estadisticas.t) (n1 n2 n3 n4 n5 : Z),
    obtener_estadisticas_producto db producto_id = Ok e
    /\ Estadisticas.total e
       = Z.of_nat (length (List.filter
                             (fun r => Resena.producto_id r =? producto_id)
                             (resenas db)))
    /\ Estadisticas.distribucion e !! 1 = Some n1
    /\ Estadisticas.distribucion e !! 2 = Some n2
    /\ Estadisticas.distribucion e !! 3 = Some n3
    /\ Estadisticas.distribucion e !! 4 = Some n4
    /\ Estadisticas.distribucion e !! 5 = Some n5
    /\ n1 + n2 + n3 + n4 + n5 = Estadisticas.total e.
Proof.
  intros Htabla.
  destruct (estadisticas_de_filas db producto_id Htabla)
    as (e & He & Htotal & Hdist).
  exists e. do 5 eexists. split; [exact He |]. split; [exact Htotal |].
  rewrite !Hdist. cbn [Z.leb Z.compare Pos.compare Pos.compare_cont andb].
  repeat (split; [reflexivity |]).
  rewrite Htotal. apply resenas_con_suma.
  now apply filas_de_producto_ok.
Qed.

Lemma estadisticas_cuentas_suman_total_witness :
  exists (e : Estadisticas.t) (n1 n2 n3 n4 n5 : Z),
    obtener_estadisticas_producto db_cuatro_resenas 1 = Ok e
    /\ Estadisticas.total e = 4
    /\ Estadisticas.distribucion e !! 1 = Some n1
    /\ Estadisticas.distribucion e !! 2 = Some n2
    /\ Estadisticas.distribucion e !! 3 = Some n3
    /\ Estadisticas.distribucion e !! 4 = Some n4
    /\ Estadisticas.distribucion e !! 5 = Some n5
    /\ n1 + n2 + n3 + n4 + n5 = Estadisticas.total e.
Proof.
  apply (estadisticas_cuentas_suman_total db_cuatro_resenas 1).
  repeat constructor.
Defined.

(** X18: a review that [crear_resena] has stored shows in the
    statistics of its product and nowhere else: the total goes up by
    one, the count of its rating goes up by one, the other four counts
    stay, and the statistics of every other product are what they
    were.  (Stored reviews satisfying the checks of the table.) *)
Theorem crear_resena_estadisticas (db db' : DB)
  (producto_id usuario_id calificacion : Z) (comentario : str)
  (compra_verificada : bool) (r : Resena.t) :
  Forall (fun x => resena_row_ok x = true) (resenas db) ->
  crear_resena db producto_id usuario_id calificacion comentario
               compra_verificada = Ok (db', Some r) ->
  (exists e e' : Estadisticas.t,
      obtener_estadisticas_producto db producto_id = Ok e
      /\ obtener_estadisticas_producto db' producto_id = Ok e'
      /\ Estadisticas.total e' = Estadisticas.total e + 1
      /\ forall k : Z,
           Estadisticas.distribucion e' !! k =
           if k =? calificacion
           then Z.succ <$> Estadisticas.distribucion e !! k
           else Estadisticas.distribucion e !! k)
  /\ forall otro : Z,
       otro <> producto_id ->
       obtener_estadisticas_producto db' otro
       = obtener_estadisticas_producto db otro.
Proof.
  intros Htabla Hcrear.
  destruct (crear_resena_ok _ _ _ _ _ _ _ _ Hcrear)
    as (Hc & Hs & _ & _ & _ & _ & Hr & ->).
  assert (Hrp : Resena.producto_id r = producto_id) by now rewrite Hr.
  assert (Hrc : Resena.calificacion r = calificacion) by now rewrite Hr.
  assert (Hrow : resena_row_ok r = true).
  { apply resena_row_ok_iff. rewrite Hr.
    cbn [Resena.calificacion Resena.comentario]. auto. }
  set (db' := with_resenas db (resenas db ++ [r]) (resenas_id_seq db + 1)).
  assert (Htabla' : Forall (fun x => resena_row_ok x = true) (resenas db')).
  { cbn [db' resenas with_resenas]. apply List.Forall_app.
    split; [exact Htabla |]. now repeat constructor. }
  split.
  - destruct (estadisticas_de_filas db producto_id Htabla)
      as (e & He & Htotal & Hdist).
    destruct (estadisticas_de_filas db' producto_id Htabla')
      as (e' & He' & Htotal' & Hdist').
    exists e, e'. split; [exact He |]. split; [exact He' |].
    cbn [db' resenas with_resenas] in Htotal', Hdist'.
    rewrite List.filter_app in Htotal', Hdist'.
    cbn [List.filter] in Htotal', Hdist'.
    rewrite Hrp, Z.eqb_refl in Htotal', Hdist'.
    split.
    + rewrite Htotal', Htotal, List.length_app. cbn [length]. lia.
    + intros k. rewrite Hdist', Hdist, resenas_con_app.
      unfold resenas_con at 2. cbn [List.filter]. rewrite Hrc.
      rewrite (Z.eqb_sym k calificacion).
      destruct ((1 <=? k) && (k <=? 5));
        destruct (calificacion =? k); cbn; try reflexivity; f_equal; lia.
  - intros otro Hotro. unfold obtener_estadisticas_producto.
    cbn [db' resenas with_resenas]. rewrite List.filter_app.
    cbn [List.filter]. rewrite Hrp.
    destruct (Z.eqb_spec producto_id otro); [congruence |].
    now rewrite app_nil_r.
Qed.

Lemma crear_resena_estadisticas_witness :
  (exists e e' : Estadisticas.t,
      obtener_estadisticas_producto db_carrito_ejemplo 1 = Ok e
      /\ obtener_estadisticas_producto
           (almacen_tras db_carrito_ejemplo
              (crear_resena db_carrito_ejemplo 1 1 4 comentario_valido false))
           1 = Ok e'
      /\ Estadisticas.total e' = Estadisticas.total e + 1
      /\ forall k : Z,
           Estadisticas.distribucion e' !! k =
           if k =? 4
           then Z.succ <$> Estadisticas.distribucion e !! k
           else Estadisticas.distribucion e !! k)
  /\ forall otro : Z,
       otro <> 1 ->
       obtener_estadisticas_producto
         (almacen_tras db_carrito_ejemplo
            (crear_resena db_carrito_ejemplo 1 1 4 comentario_valido false))
         otro
       = obtener_estadisticas_producto db_carrito_ejemplo otro.
Proof.
  apply (crear_resena_estadisticas db_carrito_ejemplo _ 1 1 4
           comentario_valido false (Resena.mk 1 1 1 4 comentario_valido false)).
  - constructor.
  - reflexivity.
Defined.

(** ** The age of a review *)

Lemma datetime_sub_rangos (a b : Z) :
  0 <= Timedelta.seconds (datetime_sub a b) < 86400
  /\ 0 <= Timedelta.microseconds (datetime_sub a b) < 1000000
  /\ a - b
     = Timedelta.days (datetime_sub a b) * 86400000000
       + Timedelta.seconds (datetime_sub a b) * 1000000
       + Timedelta.microseconds (datetime_sub a b).
Proof.
  unfold datetime_sub.
  cbn [Timedelta.days Timedelta.seconds Timedelta.microseconds].
  set (us := a - b).
  pose proof (Z.mod_pos_bound us 86400000000 ltac:(lia)) as Hdia.
  pose proof (Z.div_mod us 86400000000 ltac:(lia)) as Hus.
  pose proof (Z.div_mod (us mod 86400000000) 1000000 ltac:(lia)) as Hseg.
  pose proof (Z.mod_pos_bound (us mod 86400000000) 1000000 ltac:(lia)) as Hmicro.
  assert (Hmm : us mod 1000000 = (us mod 86400000000) mod 1000000).
  { change 86400000000 with (1000000 * 86400).
    rewrite Z.rem_mul_r by lia.
    rewrite (Z.mul_comm 1000000 ((us / 1000000) mod 86400)).
    rewrite Z.mod_add by lia. now rewrite Z.mod_mod by lia. }
  rewrite Hmm. split; [| split; [lia | lia]].
  split; [apply Z.div_pos; lia |].
  apply Z.div_lt_upper_bound; lia.
Qed.

(** X19: the text [_calcular_tiempo_transcurrido] gives for a stored
    date is [Hace un momento] or [Hace n] followed by a unit, where the
    number is never zero and stays within the unit: 1 to 60 minutes, 1
    to 23 hours, 1 to 30 days, 1 to 12 months, 1 year or more.  The
    plural ending is there exactly when the number is above one. *)
Theorem tiempo_transcurrido_rangos (creado ahora : Z) :
  let texto := _calcular_tiempo_transcurrido (Some creado) ahora in
  texto = hace_un_momento
  \/ (exists n : Z, 1 <= n <= 60
                    /\ texto = hace n (of_string "minuto") (of_string "s"))
  \/ (exists n : Z, 1 <= n <= 23
                    /\ texto = hace n (of_string "hora") (of_string "s"))
  \/ (exists n : Z, 1 <= n <= 30 /\ texto = hace n palabra_dia (of_string "s"))
  \/ (exists n : Z, 1 <= n <= 12
                    /\ texto = hace n (of_string "mes") (of_string "es"))
  \/ (exists n : Z, 1 <= n /\ texto = hace n palabra_ano (of_string "s")).
Proof.
  cbn zeta. unfold _calcular_tiempo_transcurrido.
  destruct (datetime_sub_rangos ahora creado) as (Hseg & _ & _).
  set (d := datetime_sub ahora creado) in *.
  destruct (Z.ltb_spec 365 (Timedelta.days d)).
  { do 5 right. eexists. split; [| reflexivity].
    apply Z.div_le_lower_bound; lia. }
  destruct (Z.ltb_spec 30 (Timedelta.days d)).
  { do 4 right. left. eexists. split; [| reflexivity]. split.
    - apply Z.div_le_lower_bound; lia.
    - apply Z.lt_succ_r. apply Z.div_lt_upper_bound; lia. }
  destruct (Z.ltb_spec 0 (Timedelta.days d)).
  { do 3 right. left. eexists. split; [| reflexivity]. lia. }
  destruct (Z.ltb_spec 3600 (Timedelta.seconds d)).
  { do 2 right. left. eexists. split; [| reflexivity]. split.
    - apply Z.div_le_lower_bound; lia.
    - apply Z.lt_succ_r. apply Z.div_lt_upper_bound; lia. }
  destruct (Z.ltb_spec 60 (Timedelta.seconds d)).
  { right. left. eexists. split; [| reflexivity]. split.
    - apply Z.div_le_lower_bound; lia.
    - apply Z.lt_succ_r. apply Z.div_lt_upper_bound; lia. }
  now left.
Qed.

(** X20: for a review dated after the present moment the days of the
    difference are negative and only its time of day is looked at: the
    text is the one of a review whose age is the difference reduced
    modulo one day.  A review dated one second ahead reads
    [Hace 23 horas]. *)
Theorem tiempo_transcurrido_fecha_futura (creado ahora : Z) :
  ahora < creado ->
  _calcular_tiempo_transcurrido (Some creado) ahora
  = _calcular_tiempo_transcurrido
      (Some (ahora - (ahora - creado) mod 86400000000)) ahora.
Proof.
  intros Hfuturo. unfold _calcular_tiempo_transcurrido, datetime_sub.
  cbn [Timedelta.days Timedelta.seconds].
  set (us := ahora - creado).
  pose proof (Z.mod_pos_bound us 86400000000 ltac:(lia)) as Hresto.
  replace (ahora - (ahora - us mod 86400000000)) with (us mod 86400000000)
    by lia.
  rewrite (Z.mod_mod us) by lia.
  rewrite (Z.div_small (us mod 86400000000) 86400000000) by exact Hresto.
  assert (Hdias : us / 86400000000 < 0).
  { apply Z.div_lt_upper_bound; unfold us; lia. }
  destruct (Z.ltb_spec 365 (us / 86400000000)); [lia |].
  destruct (Z.ltb_spec 30 (us / 86400000000)); [lia |].
  destruct (Z.ltb_spec 0 (us / 86400000000)); [lia |].
  reflexivity.
Qed.

Lemma tiempo_transcurrido_fecha_futura_witness :
  _calcular_tiempo_transcurrido (Some 1000000) 0
  = hace 23 (of_string "hora") (of_string "s").
Proof.
  rewrite (tiempo_transcurrido_fecha_futura 1000000 0); [reflexivity | lia].
Defined.

(** ** The listings *)

Lemma relacion_de_orden_casos (created_at : Z -> Z) (orden : str) :
  relacion_de_orden created_at orden = mas_reciente created_at
  \/ relacion_de_orden created_at orden = mas_antigua created_at
  \/ relacion_de_orden created_at orden = mejor_calificada created_at
  \/ relacion_de_orden created_at orden = peor_calificada created_at.
Proof.
  unfold relacion_de_orden. repeat case_bool_decide; auto.
Qed.

Lemma relacion_de_orden_total (created_at : Z -> Z) (orden : str) :
  Total (relacion_de_orden created_at orden).
Proof.
  intros a b.
  destruct (relacion_de_orden_casos created_at orden) as [-> | [-> | [-> | ->]]];
    unfold mas_reciente, mas_antigua, mejor_calificada, peor_calificada; lia.
Qed.

Lemma relacion_de_orden_transitiva (created_at : Z -> Z) (orden : str) :
  Transitive (relacion_de_orden created_at orden).
Proof.
  intros a b c.
  destruct (relacion_de_orden_casos created_at orden) as [-> | [-> | [-> | ->]]];
    unfold mas_reciente, mas_antigua, mejor_calificada, peor_calificada; lia.
Qed.

Lemma mas_reciente_total (created_at : Z -> Z) : Total (mas_reciente created_at).
Proof. intros a b. unfold mas_reciente. lia. Qed.

Lemma mas_reciente_transitiva (created_at : Z -> Z) :
  Transitive (mas_reciente created_at).
Proof. intros a b c. unfold mas_reciente. lia. Qed.

(** The database has an answer: the merge sort is one. *)
Lemma una_ordenacion_order_by (created_at : Z -> Z) (orden : str)
  (query : list Resena.t) :
  order_by created_at orden query (una_ordenacion created_at orden query).
Proof.
  unfold order_by, ordenada_por, una_ordenacion. split.
  - apply merge_sort_Permutation.
  - apply (@StronglySorted_merge_sort _ _ _
             (relacion_de_orden_transitiva created_at orden)
             (relacion_de_orden_total created_at orden)).
Qed.

Lemma ordenada_por_mas_reciente (created_at : Z -> Z) (query : list Resena.t) :
  ordenada_por (mas_reciente created_at) query
               (merge_sort (mas_reciente created_at) query).
Proof.
  split.
  - apply merge_sort_Permutation.
  - apply (@StronglySorted_merge_sort _ _ _
             (mas_reciente_transitiva created_at)
             (mas_reciente_total created_at)).
Qed.

Lemma offset_limit_all_ok {A : Type} (offset limit : Z) (filas : list A) :
  0 <= offset <= BIGINT_MAX -> 0 <= limit <= BIGINT_MAX ->
  offset_limit_all offset limit filas
  = Some (take (Z.to_nat limit) (drop (Z.to_nat offset) filas)).
Proof.
  intros Ho Hl. unfold offset_limit_all.
  destruct (Z.ltb_spec offset 0); [lia |].
  destruct (Z.ltb_spec limit 0); [lia |].
  destruct (Z.ltb_spec BIGINT_MAX offset); [lia |].
  destruct (Z.ltb_spec BIGINT_MAX limit); [lia |].
  reflexivity.
Qed.

Lemma StronglySorted_take_drop {A : Type} (R : A -> A -> Prop) (n m : nat)
  (l : list A) :
  StronglySorted R l -> StronglySorted R (take n (drop m l)).
Proof.
  intros Hl. rewrite <- (take_drop m l) in Hl.
  apply StronglySorted_app_1_r in Hl.
  rewrite <- (take_drop n (drop m l)) in Hl.
  now apply StronglySorted_app_1_l in Hl.
Qed.

Lemma in_take_drop {A : Type} (n m : nat) (l : list A) (x : A) :
  In x (take n (drop m l)) -> In x l.
Proof.
  intros H. rewrite <- (take_drop m l). apply List.in_or_app. right.
  rewrite <- (take_drop n (drop m l)). apply List.in_or_app. now left.
Qed.

Lemma NoDup_take_drop {A : Type} (n m : nat) (l : list A) :
  List.NoDup l -> List.NoDup (take n (drop m l)).
Proof.
  intros Hl. rewrite <- (take_drop m l) in Hl.
  apply List.NoDup_app_remove_l in Hl.
  rewrite <- (take_drop n (drop m l)) in Hl.
  now apply List.NoDup_app_remove_r in Hl.
Qed.

(** A page, for arguments in range and whatever the database answered
    to the sorted statement. *)
Lemma pagina_de_filas (R : Resena.t -> Resena.t -> Prop)
  (query filas : list Resena.t) (page per_page : Z) :
  1 <= page -> 1 <= per_page <= BIGINT_MAX ->
  (page - 1) * per_page <= BIGINT_MAX ->
  ordenada_por R query filas ->
  let n := Z.of_nat (length query) in
  exists pagina : list Resena.t,
    offset_limit_all ((page - 1) * per_page) per_page filas = Some pagina
    /\ (forall r, In r pagina -> In r query)
    /\ StronglySorted R pagina
    /\ Z.of_nat (length pagina)
       = Z.min per_page (Z.max 0 (n - (page - 1) * per_page))
    /\ (List.NoDup query -> List.NoDup pagina).
Proof.
  intros Hpage Hper Hoffset [Hperm Hsorted] n.
  rewrite offset_limit_all_ok by nia. eexists. split; [reflexivity |].
  pose proof (Permutation_length Hperm) as Hlen.
  split; [| split; [| split]].
  - intros r Hr. apply in_take_drop in Hr. now apply (Permutation_in _ Hperm).
  - now apply StronglySorted_take_drop.
  - rewrite length_take, length_drop, Hlen. unfold n. nia.
  - intros Hnd. apply NoDup_take_drop.
    now apply (Permutation_NoDup (Permutation_sym Hperm)).
Qed.

(** X21: a page of [listar_resenas_producto], for a page number of at
    least 1 and a page size of at least 1 (offset and size within a
    [bigint]).  The call has an answer, and whichever way the database
    orders rows that tie: the total is the number of reviews of the
    product, whatever the page; the rows are stored reviews of that
    product, in the order asked for; there are as many as the size
    allows and the offset leaves, so a page is empty exactly when its
    offset is not below the total. *)
Theorem listar_resenas_producto_pagina (created_at : Z -> Z) (db : DB)
  (producto_id page per_page : Z) (orden : str) :
  1 <= page -> 1 <= per_page <= BIGINT_MAX ->
  (page - 1) * per_page <= BIGINT_MAX ->
  let de_producto :=
    List.filter (fun r => Resena.producto_id r =? producto_id) (resenas db) in
  (exists resultado : list Resena.t * Z,
      listar_resenas_producto created_at db producto_id page per_page orden
                              resultado)
  /\ forall resultado : list Resena.t * Z,
       listar_resenas_producto created_at db producto_id page per_page orden
                               resultado ->
       snd resultado = Z.of_nat (length de_producto)
       /\ (forall r : Resena.t,
              In r (fst resultado) ->
              In r (resenas db) /\ Resena.producto_id r = producto_id)
       /\ StronglySorted (relacion_de_orden created_at orden) (fst resultado)
       /\ Z.of_nat (length (fst resultado))
          = Z.min per_page
              (Z.max 0 (Z.of_nat (length de_producto) - (page - 1) * per_page))
       /\ (fst resultado = [] <->
           Z.of_nat (length de_producto) <= (page - 1) * per_page).
Proof.
  intros Hpage Hper Hoffset de_producto. split.
  - eexists. exists (una_ordenacion created_at orden de_producto).
    split; [apply una_ordenacion_order_by | reflexivity].
  - intros resultado (filas & Hfilas & ->). fold de_producto in Hfilas |- *.
    destruct (pagina_de_filas _ _ _ page per_page Hpage Hper Hoffset Hfilas)
      as (pagina & -> & Hde & Hsorted & Hlargo & _).
    cbn [fst snd]. split; [reflexivity |]. split; [| split; [| split]].
    + intros r Hr. apply Hde in Hr. unfold de_producto in Hr.
      apply List.filter_In in Hr as [Hr Hp]. apply Z.eqb_eq in Hp. auto.
    + exact Hsorted.
    + exact Hlargo.
    + split.
      * intros Hvacia. rewrite Hvacia in Hlargo. cbn [length] in Hlargo. lia.
      * intros Hfuera. apply length_zero_iff_nil. lia.
Qed.

Lemma listar_resenas_producto_pagina_witness :
  let resultado := ([Resena.mk 4 1 4 3 comentario_valido false], 4) in
  snd resultado = Z.of_nat (length (resenas db_cuatro_resenas))
  /\ (forall r : Resena.t,
         In r (fst resultado) ->
         In r (resenas db_cuatro_resenas) /\ Resena.producto_id r = 1)
  /\ StronglySorted (relacion_de_orden (fun pk => pk) (of_string "antiguas"))
                    (fst resultado)
  /\ Z.of_nat (length (fst resultado))
     = Z.min 3 (Z.max 0 (Z.of_nat (length (resenas db_cuatro_resenas))
                         - (2 - 1) * 3))
  /\ (fst resultado = [] <->
      Z.of_nat (length (resenas db_cuatro_resenas)) <= (2 - 1) * 3).
Proof.
  apply (proj2 (listar_resenas_producto_pagina (fun pk => pk) db_cuatro_resenas
                  1 2 3 (of_string "antiguas")
                  ltac:(lia) ltac:(unfold BIGINT_MAX; lia)
                  ltac:(unfold BIGINT_MAX; lia))).
  exists (resenas db_cuatro_resenas). split; [| reflexivity].
  split; [apply Permutation_refl |].
  assert (Hr : relacion_de_orden (fun pk => pk) (of_string "antiguas")
               = mas_antigua (fun pk => pk)) by reflexivity.
  rewrite Hr. repeat constructor; unfold mas_antigua; cbn; lia.
Defined.

Lemma concat_paginas {A : Type} (per : nat) (l : list A) (n : nat) :
  concat (List.map (fun k => take per (drop (k * per) l)) (seq 0 n))
  = take (n * per) l.
Proof.
  induction n as [|n IH]; [reflexivity |].
  rewrite seq_S, List.map_app, concat_app, IH. cbn [List.map concat].
  rewrite app_nil_r, take_take_drop. f_equal. lia.
Qed.

Lemma Forall2_map_eq {A B : Type} (f : A -> B) (l : list A) (k : list B) :
  Forall2 (fun a b => b = f a) l k -> k = List.map f l.
Proof.
  induction 1 as [|a b l k Hab _ IH]; [reflexivity |].
  cbn [List.map]. now rewrite Hab, IH.
Qed.

Lemma Forall2_impl_izquierda {A B : Type} (P Q : A -> B -> Prop)
  (l : list A) (k : list B) :
  (forall a b, In a l -> P a b -> Q a b) -> Forall2 P l k -> Forall2 Q l k.
Proof.
  intros Himp H. induction H as [|a b l k Hab _ IH]; constructor.
  - apply Himp; [now left | exact Hab].
  - apply IH. intros x y Hx. apply Himp. now right.
Qed.

(** With distinct creation dates the sorted statement has one answer. *)
Lemma order_by_unica (created_at : Z -> Z) (orden : str)
  (query filas otra : list Resena.t) :
  (forall a b : Resena.t,
      In a query -> In b query ->
      created_at (Resena.id a) = created_at (Resena.id b) -> a = b) ->
  order_by created_at orden query filas ->
  order_by created_at orden query otra ->
  otra = filas.
Proof.
  intros Hdistintas [Hperm Hsorted] [Hperm' Hsorted'].
  apply (StronglySorted_unique_strong (relacion_de_orden created_at orden)).
  - intros a b Ha Hb Hab Hba.
    apply list_elem_of_In in Ha, Hb.
    apply (Permutation_in _ Hperm') in Ha.
    apply (Permutation_in _ Hperm) in Hb.
    apply Hdistintas; [exact Ha | exact Hb |].
    destruct (relacion_de_orden_casos created_at orden)
      as [Hr | [Hr | [Hr | Hr]]];
      rewrite Hr in Hab, Hba;
      unfold mas_reciente, mas_antigua, mejor_calificada, peor_calificada
        in Hab, Hba; lia.
  - exact Hsorted'.
  - exact Hsorted.
  - now rewrite Hperm, Hperm'.
Qed.

(** X22: when no two reviews of the product have the same creation
    date, the pages of a listing, each one asked for by a call of its
    own, put one after the other from page 1 to the number of pages
    [(total + per_page - 1) // per_page] that the routes announce, give
    every review of the product exactly once and in the order asked
    for: none is skipped and none comes twice. *)
Theorem listar_resenas_producto_paginas_cubren (created_at : Z -> Z) (db : DB)
  (producto_id per_page : Z) (orden : str) (paginas : list (list Resena.t)) :
  1 <= per_page ->
  let de_producto :=
    List.filter (fun r => Resena.producto_id r =? producto_id) (resenas db) in
  let total := Z.of_nat (length de_producto) in
  let total_pages := (total + per_page - 1) / per_page in
  total_pages * per_page <= BIGINT_MAX ->
  (forall a b : Resena.t,
      In a de_producto -> In b de_producto ->
      created_at (Resena.id a) = created_at (Resena.id b) -> a = b) ->
  Forall2 (fun k pagina =>
             exists t : Z,
               listar_resenas_producto created_at db producto_id (Z.of_nat k)
                                       per_page orden (pagina, t))
          (seq 1 (Z.to_nat total_pages)) paginas ->
  Permutation (concat paginas) de_producto
  /\ StronglySorted (relacion_de_orden created_at orden) (concat paginas)
  /\ concat paginas = una_ordenacion created_at orden de_producto.
Proof.
  intros Hper de_producto total total_pages Hmax Hdistintas Hpaginas.
  assert (Hcuenta : 0 <= total_pages /\ total <= total_pages * per_page).
  { unfold total_pages. split; [apply Z.div_pos; lia |].
    pose proof (Z.div_mod (total + per_page - 1) per_page ltac:(lia)).
    pose proof (Z.mod_pos_bound (total + per_page - 1) per_page ltac:(lia)).
    nia. }
  set (L := una_ordenacion created_at orden de_producto).
  pose proof (una_ordenacion_order_by created_at orden de_producto) as HL.
  fold L in HL.
  assert (Hconcat : concat paginas = L).
  { assert (Hcada : Forall2 (fun k pagina =>
                               pagina = take (Z.to_nat per_page)
                                             (drop ((k - 1) * Z.to_nat per_page) L))
                            (seq 1 (Z.to_nat total_pages)) paginas).
    { revert Hpaginas. apply Forall2_impl_izquierda.
      intros k pagina Hk (t & filas & Hfilas & Hres).
      apply List.in_seq in Hk. fold de_producto in Hfilas.
      rewrite (order_by_unica _ _ _ _ _ Hdistintas HL Hfilas) in Hres.
      rewrite offset_limit_all_ok in Hres by nia.
      injection Hres as -> _. do 2 f_equal. nia. }
    apply Forall2_map_eq in Hcada. rewrite Hcada.
    rewrite <- List.seq_shift, List.map_map.
    rewrite (List.map_ext _
               (fun k => take (Z.to_nat per_page)
                              (drop (k * Z.to_nat per_page) L))).
    - rewrite concat_paginas. apply take_ge.
      rewrite (Permutation_length (proj1 HL)). fold total. nia.
    - intros k. do 2 f_equal. lia. }
  rewrite Hconcat. destruct HL as [Hperm Hsorted]. auto.
Qed.

Lemma listar_resenas_producto_paginas_cubren_witness :
  let paginas :=
    [[Resena.mk 1 1 1 5 comentario_valido false;
      Resena.mk 2 1 2 5 comentario_valido false;
      Resena.mk 3 1 3 4 comentario_valido false];
     [Resena.mk 4 1 4 3 comentario_valido false]] in
  Permutation (concat paginas) (resenas db_cuatro_resenas)
  /\ StronglySorted (relacion_de_orden (fun pk => pk) (of_string "antiguas"))
                    (concat paginas)
  /\ concat paginas
     = una_ordenacion (fun pk => pk) (of_string "antiguas")
                      (resenas db_cuatro_resenas).
Proof.
  assert (Hr : relacion_de_orden (fun pk => pk) (of_string "antiguas")
               = mas_antigua (fun pk => pk)) by reflexivity.
  assert (Hfilas : order_by (fun pk => pk) (of_string "antiguas")
                            (resenas db_cuatro_resenas)
                            (resenas db_cuatro_resenas)).
  { split; [apply Permutation_refl |]. rewrite Hr.
    repeat constructor; unfold mas_antigua; cbn; lia. }
  apply (listar_resenas_producto_paginas_cubren (fun pk => pk)
           db_cuatro_resenas 1 3 (of_string "antiguas")).
  - lia.
  - vm_compute. discriminate.
  - intros a b Ha Hb Hab. cbn in Ha, Hb.
    destruct Ha as [<- | [<- | [<- | [<- | []]]]];
      destruct Hb as [<- | [<- | [<- | [<- | []]]]];
      try reflexivity; discriminate Hab.
  - repeat constructor.
    + exists 4. exists (resenas db_cuatro_resenas). split; [exact Hfilas |].
      reflexivity.
    + exists 4. exists (resenas db_cuatro_resenas). split; [exact Hfilas |].
      reflexivity.
Defined.

(** X23: when no two reviews of the product have the same creation
    date, the order asked for leaves no choice: any arrangement of the
    product's reviews that is sorted by it is the merge sort of the
    rows, so the listing has one possible value, whichever way rows
    that tie would have been returned. *)
Theorem listar_resenas_orden_determinado (created_at : Z -> Z) (db : DB)
  (producto_id : Z) (orden : str) (otra : list Resena.t) :
  let de_producto :=
    List.filter (fun r => Resena.producto_id r =? producto_id) (resenas db) in
  (forall a b : Resena.t,
      In a de_producto -> In b de_producto ->
      created_at (Resena.id a) = created_at (Resena.id b) -> a = b) ->
  Permutation otra de_producto ->
  StronglySorted (relacion_de_orden created_at orden) otra ->
  otra = una_ordenacion created_at orden de_producto
  /\ forall (page per_page : Z) (r1 r2 : list Resena.t * Z),
       listar_resenas_producto created_at db producto_id page per_page orden r1 ->
       listar_resenas_producto created_at db producto_id page per_page orden r2 ->
       r1 = r2.
Proof.
  intros de_producto Hdistintas Hperm Hsorted.
  pose proof (una_ordenacion_order_by created_at orden de_producto) as HL.
  split.
  - apply (order_by_unica _ _ _ _ _ Hdistintas HL). now split.
  - intros page per_page r1 r2 (f1 & H1 & ->) (f2 & H2 & ->).
    fold de_producto in H1, H2.
    now rewrite (order_by_unica _ _ _ _ _ Hdistintas H1 H2).
Qed.

Lemma listar_resenas_orden_determinado_witness :
  [Resena.mk 1 1 1 5 comentario_valido false;
   Resena.mk 2 1 2 5 comentario_valido false;
   Resena.mk 3 1 3 4 comentario_valido false;
   Resena.mk 4 1 4 3 comentario_valido false]
  = una_ordenacion (fun pk => pk) (of_string "antiguas")
      (List.filter (fun r => Resena.producto_id r =? 1)
                   (resenas db_cuatro_resenas)).
Proof.
  apply (listar_resenas_orden_determinado (fun pk => pk) db_cuatro_resenas 1
           (of_string "antiguas")).
  - intros a b Ha Hb Hab. cbn in Ha, Hb.
    destruct Ha as [<- | [<- | [<- | [<- | []]]]];
      destruct Hb as [<- | [<- | [<- | [<- | []]]]];
      try reflexivity; discriminate Hab.
  - reflexivity.
  - assert (Hr : relacion_de_orden (fun pk => pk) (of_string "antiguas")
                 = mas_antigua (fun pk => pk)) by reflexivity.
    rewrite Hr. repeat constructor; unfold mas_antigua; cbn; lia.
Defined.

(** X24: a page of [listar_resenas_usuario], for a page number and a
    page size of at least 1 (offset and size within a [bigint]), on a
    table with unique keys and at most one review of a product by a
    user.  The call has an answer, and whichever way the database
    orders rows that tie: the total is the number of reviews the user
    has written; the rows are stored reviews of that user, newest
    first, at most a page full, and no product appears twice among
    them. *)
Theorem listar_resenas_usuario_pagina (created_at : Z -> Z) (db : DB)
  (usuario_id page per_page : Z) :
  1 <= page -> 1 <= per_page <= BIGINT_MAX ->
  (page - 1) * per_page <= BIGINT_MAX ->
  List.NoDup (List.map Resena.id (resenas db)) ->
  una_resena_por_usuario (resenas db) ->
  let de_usuario :=
    List.filter (fun r => Resena.usuario_id r =? usuario_id) (resenas db) in
  (exists resultado : list Resena.t * Z,
      listar_resenas_usuario created_at db usuario_id page per_page resultado)
  /\ forall resultado : list Resena.t * Z,
       listar_resenas_usuario created_at db usuario_id page per_page resultado ->
       snd resultado = Z.of_nat (length de_usuario)
       /\ (forall r : Resena.t,
              In r (fst resultado) ->
              In r (resenas db) /\ Resena.usuario_id r = usuario_id)
       /\ StronglySorted (mas_reciente created_at) (fst resultado)
       /\ Z.of_nat (length (fst resultado)) <= per_page
       /\ List.NoDup (List.map Resena.producto_id (fst resultado)).
Proof.
  intros Hpage Hper Hoffset Hnd Huna de_usuario. split.
  - eexists. exists (merge_sort (mas_reciente created_at) de_usuario).
    split; [apply ordenada_por_mas_reciente | reflexivity].
  - intros resultado (filas & Hfilas & ->). fold de_usuario in Hfilas |- *.
    destruct (pagina_de_filas _ _ _ page per_page Hpage Hper Hoffset Hfilas)
      as (pagina & -> & Hde & Hsorted & Hlargo & Hsinrep).
    cbn [fst snd].
    assert (Hde' : forall r, In r pagina ->
                             In r (resenas db)
                             /\ Resena.usuario_id r = usuario_id).
    { intros r Hr. apply Hde in Hr. unfold de_usuario in Hr.
      apply List.filter_In in Hr as [Hr Hu]. apply Z.eqb_eq in Hu. auto. }
    split; [reflexivity |]. split; [exact Hde' |].
    split; [exact Hsorted |]. split; [lia |].
    apply List.NoDup_map_NoDup_ForallPairs.
    + intros a b Ha Hb Hp.
      destruct (Hde' a Ha) as [Ha' Hau]. destruct (Hde' b Hb) as [Hb' Hbu].
      apply Huna; congruence.
    + apply Hsinrep. apply List.NoDup_filter.
      now apply List.NoDup_map_inv in Hnd.
Qed.

Lemma listar_resenas_usuario_pagina_witness :
  let resultado := ([Resena.mk 2 1 2 5 comentario_valido false], 1) in
  snd resultado
  = Z.of_nat (length (List.filter (fun r => Resena.usuario_id r =? 2)
                                  (resenas db_cuatro_resenas)))
  /\ (forall r : Resena.t,
         In r (fst resultado) ->
         In r (resenas db_cuatro_resenas) /\ Resena.usuario_id r = 2)
  /\ StronglySorted (mas_reciente (fun pk => pk)) (fst resultado)
  /\ Z.of_nat (length (fst resultado)) <= 10
  /\ List.NoDup (List.map Resena.producto_id (fst resultado)).
Proof.
  apply (proj2 (listar_resenas_usuario_pagina (fun pk => pk) db_cuatro_resenas
                  2 1 10 ltac:(lia) ltac:(unfold BIGINT_MAX; lia)
                  ltac:(unfold BIGINT_MAX; lia)
                  (proj1 resenas_bien_formadas_cuatro_resenas)
                  (proj1 (proj2 (proj2 resenas_bien_formadas_cuatro_resenas))))).
  exists [Resena.mk 2 1 2 5 comentario_valido false]. split; [| reflexivity].
  split; [apply Permutation_refl | repeat constructor].
Defined.

(** ** The routes of the reviews *)

Lemma get_resena_filter_otras (l : list Resena.t) (pk k : Z) :
  k <> pk ->
  get_resena (List.filter (fun r => negb (Resena.id r =? pk)) l) k
  = get_resena l k.
Proof.
  intros Hk. unfold get_resena. induction l as [|a l IH]; [reflexivity |].
  cbn [List.filter List.find].
  destruct (Z.eqb_spec (Resena.id a) pk) as [Heq | Hne]; cbn [negb].
  - destruct (Z.eqb_spec (Resena.id a) k); [congruence | exact IH].
  - cbn [List.find]. destruct (Resena.id a =? k); [reflexivity | exact IH].
Qed.

Lemma get_resena_filter_misma (l : list Resena.t) (pk : Z) :
  get_resena (List.filter (fun r => negb (Resena.id r =? pk)) l) pk = None.
Proof.
  apply get_resena_none. intros r Hr. apply List.filter_In in Hr as [_ Hr].
  apply negb_true_iff in Hr. now apply Z.eqb_neq in Hr.
Qed.

(** X25: [DELETE /resenas/<resena_id>] answers 200 exactly when the
    session is authenticated, the review exists and its author is the
    user of the session; the review is then gone and every other key
    reads as before.  Otherwise it answers 401, 404 or 403, in that
    order of precedence, and the store is untouched.  The answer 500 of
    the route is never given. *)
Theorem eliminar_resena_endpoint_solo_autor (db : DB) (session : Sesion.t)
  (resena_id : Z) :
  let '(db', respuesta) := eliminar_resena_endpoint db session resena_id in
  let auth := verificar_autenticacion session in
  match respuesta with
  | respuesta_exito _ =>
      Auth.autenticado auth = true
      /\ (exists r : Resena.t,
             obtener_resena_por_id db resena_id = Some r
             /\ Auth.usuario_id auth = Some (Resena.usuario_id r))
      /\ obtener_resena_por_id db' resena_id = None
      /\ (forall k : Z, k <> resena_id ->
             obtener_resena_por_id db' k = obtener_resena_por_id db k)
  | respuesta_error codigo =>
      db' = db
      /\ (codigo = 401 /\ Auth.autenticado auth = false
          \/ codigo = 404 /\ Auth.autenticado auth = true
             /\ obtener_resena_por_id db resena_id = None
          \/ codigo = 403 /\ Auth.autenticado auth = true
             /\ exists r : Resena.t,
                  obtener_resena_por_id db resena_id = Some r
                  /\ Auth.usuario_id auth <> Some (Resena.usuario_id r))
  end.
Proof.
  unfold eliminar_resena_endpoint.
  destruct (Auth.autenticado (verificar_autenticacion session)) eqn:Hauth;
    cbn [negb]; [| split; auto].
  destruct (obtener_resena_por_id db resena_id) as [r|] eqn:Hr;
    [| split; auto].
  case_bool_decide as Hautor; cbn [negb].
  2:{ split; [reflexivity |]. right. right. repeat split.
      exists r. split; [reflexivity |]. congruence. }
  unfold eliminar_resena. unfold obtener_resena_por_id in Hr. rewrite Hr.
  rewrite <- Hautor. rewrite Z.eqb_refl. cbn [negb].
  apply get_resena_some in Hr as Hr'. destruct Hr' as [_ Hid].
  repeat split.
  - exists r. split; reflexivity.
  - unfold obtener_resena_por_id. cbn [resenas with_resenas].
    rewrite Hid. apply get_resena_filter_misma.
  - intros k Hk. unfold obtener_resena_por_id. cbn [resenas with_resenas].
    rewrite Hid. now apply get_resena_filter_otras.
Qed.

(** X26: what [GET /productos/<producto_id>/resenas] answers, for any
    query parameters whose page keeps the offset within a [bigint],
    when the stored reviews satisfy the checks of their table.  The
    route has an answer, and whichever way the database orders rows
    that tie, the answer is a success; the page is at least 1 and the
    page size is the one asked for if that is within 1..50 and 10
    otherwise; the total is the number of reviews of the product and
    agrees with the total of the statistics sent along; [total_pages]
    is the least number of pages that hold the total; the rows are at
    most a page full and there are some exactly when the page is not
    beyond [total_pages]; and [puede_resenar] is true exactly for an
    authenticated user without a review of the product. *)
Theorem obtener_resenas_producto_respuesta (created_at : Z -> Z) (db : DB)
  (session : Sesion.t) (producto_id page per_page : Z) (orden : str) :
  Forall (fun r => resena_row_ok r = true) (resenas db) ->
  (page - 1) * 50 <= BIGINT_MAX ->
  (exists respuesta_dada : respuesta ResenasProducto.t,
      obtener_resenas_producto created_at db session producto_id page per_page
                               orden respuesta_dada)
  /\ forall respuesta_dada : respuesta ResenasProducto.t,
       obtener_resenas_producto created_at db session producto_id page per_page
                                orden respuesta_dada ->
       exists r : ResenasProducto.t,
         respuesta_dada = respuesta_exito r
         /\ ResenasProducto.page r = Z.max 1 page
         /\ ResenasProducto.per_page r
            = (if (1 <=? per_page) && (per_page <=? 50) then per_page else 10)
         /\ ResenasProducto.total r
            = Z.of_nat (length (List.filter
                                  (fun x => Resena.producto_id x =? producto_id)
                                  (resenas db)))
         /\ Estadisticas.total (ResenasProducto.estadisticas r)
            = ResenasProducto.total r
         /\ (ResenasProducto.total_pages r - 1) * ResenasProducto.per_page r
            < ResenasProducto.total r
            <= ResenasProducto.total_pages r * ResenasProducto.per_page r
         /\ Z.of_nat (length (ResenasProducto.resenas r))
            <= ResenasProducto.per_page r
         /\ (ResenasProducto.resenas r <> [] <->
             ResenasProducto.page r <= ResenasProducto.total_pages r)
         /\ (ResenasProducto.puede_resenar r = true <->
             ResenasProducto.autenticado r = true
             /\ exists u : Z,
                  Sesion.usuario_id session = Some u
                  /\ first_resena db producto_id u = None).
Proof.
  intros Htabla Hpage. unfold obtener_resenas_producto.
  set (pg := if page <? 1 then 1 else page).
  set (pp := if (per_page <? 1) || (50 <? per_page) then 10 else per_page).
  assert (Hpg : pg = Z.max 1 page).
  { unfold pg. destruct (Z.ltb_spec page 1); lia. }
  assert (Hpp : pp = if (1 <=? per_page) && (per_page <=? 50)
                     then per_page else 10).
  { unfold pp. destruct (Z.ltb_spec per_page 1), (Z.ltb_spec 50 per_page),
      (Z.leb_spec 1 per_page), (Z.leb_spec per_page 50); cbn; lia. }
  assert (Hpp_rango : 1 <= pp <= 50).
  { rewrite Hpp. destruct (Z.leb_spec 1 per_page), (Z.leb_spec per_page 50);
      cbn; lia. }
  assert (Hbig : 50 <= BIGINT_MAX) by (unfold BIGINT_MAX; lia).
  destruct (estadisticas_de_filas db producto_id Htabla)
    as (e & He & Htotal & _).
  rewrite He. split.
  - pose proof (una_ordenacion_order_by created_at orden
                  (List.filter (fun x => Resena.producto_id x =? producto_id)
                               (resenas db))) as Huna.
    destruct (pagina_de_filas _ _ _ pg pp ltac:(lia) ltac:(lia) ltac:(nia) Huna)
      as (pagina & Hpagina & _).
    eexists. exists pagina. eexists. split; [| reflexivity].
    eexists. split; [exact Huna |]. now rewrite Hpagina.
  - intros respuesta_dada (filas_pagina & total & (filas & Hfilas & Hres) & ->).
    destruct (pagina_de_filas _ _ _ pg pp ltac:(lia) ltac:(lia) ltac:(nia) Hfilas)
      as (pagina & Hpagina & _ & _ & Hlargo & _).
    rewrite Hpagina in Hres. injection Hres as -> ->.
    eexists. split; [reflexivity |].
    cbn [ResenasProducto.page ResenasProducto.per_page ResenasProducto.total
         ResenasProducto.total_pages ResenasProducto.estadisticas
         ResenasProducto.resenas ResenasProducto.puede_resenar
         ResenasProducto.autenticado].
    set (n := Z.of_nat (length (List.filter
                                  (fun x => Resena.producto_id x =? producto_id)
                                  (resenas db)))) in *.
    assert (Hn : 0 <= n) by (unfold n; lia).
    pose proof (Z.div_mod (n + pp - 1) pp ltac:(lia)) as Hdiv.
    pose proof (Z.mod_pos_bound (n + pp - 1) pp ltac:(lia)) as Hmod.
    set (tp := (n + pp - 1) / pp) in *.
    split; [exact Hpg |]. split; [exact Hpp |]. split; [reflexivity |].
    split; [exact Htotal |]. split; [nia |]. split; [lia |]. split.
    + split.
      * intros Hfilas'.
        assert (0 < Z.of_nat (length pagina)).
        { destruct pagina; [contradiction | cbn [length]; lia]. }
        nia.
      * intros Hdentro Hvacia. rewrite Hvacia in Hlargo. cbn [length] in Hlargo.
        nia.
    + unfold verificar_autenticacion.
      cbn [Auth.autenticado Auth.usuario_id].
      unfold verificar_usuario_puede_resenar.
      destruct ((Sesion.logged_in session || Sesion.mfa_verificado session)
                && truthy_int (Sesion.usuario_id session)) eqn:Hauth.
      * destruct (Sesion.usuario_id session) as [u|].
        -- destruct (first_resena db producto_id u) eqn:Hprimera.
           ++ split; [discriminate |]. intros (_ & u' & [= <-] & Hno). congruence.
           ++ split; [| reflexivity]. intros _. split; [reflexivity |].
              now exists u.
        -- split; [discriminate |]. intros (_ & u' & [=] & _).
      * split; [discriminate |]. intros (Hno & _). discriminate Hno.
Qed.

Lemma obtener_resenas_producto_respuesta_witness :
  exists r : ResenasProducto.t,
    obtener_resenas_producto (fun pk => pk) db_cuatro_resenas
      (Sesion.mk (Some 9) true false) 1 0 3 (of_string "recientes")
      (respuesta_exito r)
    /\ ResenasProducto.page r = 1
    /\ ResenasProducto.per_page r = 3
    /\ ResenasProducto.total r = 4
    /\ Estadisticas.total (ResenasProducto.estadisticas r) = 4.
Proof.
  destruct (obtener_resenas_producto_respuesta (fun pk => pk) db_cuatro_resenas
              (Sesion.mk (Some 9) true false) 1 0 3 (of_string "recientes"))
    as [[dada Hdada] Htoda].
  - repeat constructor.
  - unfold BIGINT_MAX. lia.
  - destruct (Htoda dada Hdada) as (r & -> & Hp & Hpp & Ht & He & _).
    exists r. split; [exact Hdada |]. split; [exact Hp |]. split; [exact Hpp |].
    split; [exact Ht |]. now rewrite He, Ht.
Defined.

(** ** The routes of the cart *)

Lemma obtener_o_crear_carrito_devuelto (db db1 : DB) (usuario_id : option Z)
  (session_id : option str) (c : Cart.t) :
  obtener_o_crear_carrito db usuario_id session_id = (db1, Some c) ->
  In c (carts db1)
  /\ cart_items db1 = cart_items db
  /\ Cart.activo c = true
  /\ (if truthy_int usuario_id
      then Cart.usuario_id c = usuario_id
      else Cart.session_id c = session_id).
Proof.
  unfold obtener_o_crear_carrito.
  destruct (negb (truthy_int usuario_id) && negb (truthy_str session_id));
    [discriminate |].
  destruct (List.find _ (carts db)) as [x|] eqn:Hfind.
  - intros [= <- <-]. apply List.find_some in Hfind as [Hin Hq].
    apply andb_true_iff in Hq as [Hact Hq].
    repeat split; auto.
    destruct (truthy_int usuario_id); now apply bool_decide_eq_true in Hq.
  - unfold insert_cart. destruct (cart_row_ok db _);
      [| now destruct (match Cart.session_id _ with Some _ => _ | None => _ end)].
    intros [= <- <-]. cbn [carts cart_items with_carts Cart.activo
                            Cart.usuario_id Cart.session_id].
    repeat split.
    + apply List.in_or_app. right. now left.
    + destruct (truthy_int usuario_id); reflexivity.
Qed.

Lemma obtener_o_crear_carrito_sin_carrito (db db1 : DB) (usuario_id : option Z)
  (session_id : option str) :
  obtener_o_crear_carrito db usuario_id session_id = (db1, None) ->
  cart_items db1 = cart_items db /\ carts db1 = carts db.
Proof.
  unfold obtener_o_crear_carrito.
  destruct (negb (truthy_int usuario_id) && negb (truthy_str session_id));
    [now intros [= <-] |].
  destruct (List.find _ (carts db)); [discriminate |].
  unfold insert_cart. destruct (cart_row_ok db _); [discriminate |].
  destruct (match Cart.session_id _ with Some _ => _ | None => _ end);
    now intros [= <-].
Qed.

Lemma get_cart_in (db : DB) (c : Cart.t) :
  In c (carts db) -> is_Some (get_cart db (Cart.id c)).
Proof.
  intros Hin. unfold get_cart.
  destruct (List.find _ (carts db)) eqn:Hfind; [eauto |].
  pose proof (List.find_none _ _ Hfind c Hin) as Hno. cbn beta in Hno.
  now rewrite Z.eqb_refl in Hno.
Qed.

